(** * Code Guardian (M2): a shallow embedding of the security scanner

    Source: [scripts/automation/M2_code_guardian.py].

    Conventions of the embedding.
    - Python [str] values are [string]s; a character is a code point
      below 256.  Python [int]s are [Z].  Python [float]s are idealised as
      exact rationals ([Q]): a statement about a [float] gives the
      expression of the code in the order of the code, and of its value
      only what rounding keeps (bounds, order).  Where rounding decides,
      the expression is evaluated in binary64 as well ([Binary64]).
    - The host library functions [ast.parse], [re.search], [Path.glob],
      [Path.read_text] are not part of the repository.  The parser is a
      parameter of the scanner; regular expressions are given as syntax
      trees with the standard matching semantics; the file system is a
      tree of named entries, listed in the order of [os.scandir], and a
      POSIX one (names are matched case-sensitively).
    - The syntax tree is that of Python 3.8 to 3.11, where a string literal
      is a [Constant] that is also an instance of [ast.Str].
    - A path is the list of its components below the current directory,
      which is the root of the file system tree.
    - Objects that the code mutates ([ASTSecurityAnalyzer], [CodeGuardian])
      are records threaded through the functions; a call that may raise
      returns an [outcome].  Logging is left out.
    - The recursion limit of the interpreter is left out: [visit] gives the
      state of the visitor after a visit that completes.  On a tree that is
      nested deeper than the limit allows, the visitor of the code raises
      [RecursionError], which the analysis of a file does not catch; what
      is stated of the result of an analysis is stated of an analysis that
      returns one. *)

From Stdlib Require Import ZArith QArith Qminmax Lqa Ascii String.
From Stdlib Require Floats Uint63.
From stdpp Require Import base list strings gmap pretty.

#[local] Set Warnings "-register-all,-inexact-float".

Local Open Scope string_scope.
Local Open Scope list_scope.
Local Open Scope Z_scope.

(** ** Text primitives of Python's [str] *)

Module Text.

Definition LF : ascii := "010"%char.
Definition DQ : ascii := "034"%char.
Definition SQ : ascii := "039"%char.

(** A one-character string. *)
Definition chr (c : ascii) : string := String c "".

(** [s.split(sep)] for a one-character separator: never empty. *)
Fixpoint split (sep : ascii) (s : string) : list string :=
  match s with
  | EmptyString => [""]
  | String c s' =>
      if Ascii.eqb c sep then "" :: split sep s'
      else match split sep s' with
           | h :: t => String c h :: t
           | [] => [chr c]
           end
  end.

(** [str.isspace] on one character (code points below 256). *)
Definition isspace (c : ascii) : bool :=
  let n := nat_of_ascii c in
  ((9 <=? n) && (n <=? 13))%nat || ((28 <=? n) && (n <=? 32))%nat
  || (n =? 133)%nat || (n =? 160)%nat.

Fixpoint lstrip (s : string) : string :=
  match s with
  | String c s' => if isspace c then lstrip s' else s
  | EmptyString => ""
  end.

Definition rstrip (s : string) : string := String.rev (lstrip (String.rev s)).

(** [s.strip()] *)
Definition strip (s : string) : string := rstrip (lstrip s).

(** [s.startswith(p)] *)
Fixpoint startswith (p s : string) : bool :=
  match p, s with
  | EmptyString, _ => true
  | String a p', String b s' => Ascii.eqb a b && startswith p' s'
  | String _ _, EmptyString => false
  end.

(** [sub in s] *)
Fixpoint contains (sub s : string) : bool :=
  startswith sub s ||
  match s with
  | EmptyString => false
  | String _ s' => contains sub s'
  end.

(** [s[:n]] *)
Fixpoint take (n : nat) (s : string) : string :=
  match n, s with
  | S n', String c s' => String c (take n' s')
  | _, _ => ""
  end.

(** [sep.join(l)] *)
Fixpoint join (sep : string) (l : list string) : string :=
  match l with
  | [] => ""
  | [x] => x
  | x :: l' => x +:+ sep +:+ join sep l'
  end.

(** Simple case folding: ASCII upper-case letters to lower case. *)
Definition lower (c : ascii) : ascii :=
  let n := nat_of_ascii c in
  if ((65 <=? n) && (n <=? 90))%nat then ascii_of_nat (n + 32) else c.

(** [s.endswith(p)] *)
Definition endswith (p s : string) : bool :=
  startswith (String.rev p) (String.rev s).

(** [s[n:]] *)
Fixpoint drop (n : nat) (s : string) : string :=
  match n, s with
  | S n', String _ s' => drop n' s'
  | _, _ => s
  end.

(** [s.rfind(c)] for one character, counting from index [i]; [last] is the
    answer so far ([None] for Python's -1). *)
Fixpoint rfind_from (c : ascii) (s : string) (i : nat) (last : option nat)
  : option nat :=
  match s with
  | EmptyString => last
  | String a s' => rfind_from c s' (S i) (if Ascii.eqb a c then Some i else last)
  end.

Definition rfind (c : ascii) (s : string) : option nat := rfind_from c s 0 None.

(** Lookup of a key in a dictionary literal. *)
Fixpoint assoc {A} (k : string) (d : list (string * A)) : option A :=
  match d with
  | [] => None
  | (k', v) :: d' => if String.eqb k k' then Some v else assoc k d'
  end.

(** [x in [...]] for a list of strings. *)
Definition member (x : string) (l : list string) : bool :=
  existsb (String.eqb x) l.

(** [bool(s)]: a string is truthy when it is not empty. *)
Definition nonempty (s : string) : bool :=
  match s with EmptyString => false | String _ _ => true end.

End Text.

(** ** Regular expressions ([re.search])

    The patterns of the scanner use literals, [.], character sets, [\s],
    [?], [*], [+] and [|] only, so that [re.search] answers whether some
    substring of the line is in the language of the pattern. *)

Module Re.

Inductive regex : Type :=
| Lit (c : ascii)                          (* a literal character *)
| Any                                      (* [.] : all but line feed *)
| Space                                    (* [\s] *)
| CSet (negated : bool) (cs : list ascii)  (* [[...]] and [[^...]] *)
| Eps
| Cat (r1 r2 : regex)
| Alt (r1 r2 : regex)
| Star (r : regex).

Definition Opt (r : regex) : regex := Alt r Eps.
Definition Plus (r : regex) : regex := Cat r (Star r).

(** The literal string [s]. *)
Fixpoint str (s : string) : regex :=
  match s with
  | EmptyString => Eps
  | String c s' => Cat (Lit c) (str s')
  end.

(** Concatenation of a list of expressions. *)
Definition seq (rs : list regex) : regex := foldr Cat Eps rs.

Definition same_char (icase : bool) (a b : ascii) : bool :=
  if icase then Ascii.eqb (Text.lower a) (Text.lower b) else Ascii.eqb a b.

(** One-character atoms. *)
Definition accepts (icase : bool) (r : regex) (c : ascii) : bool :=
  match r with
  | Lit a => same_char icase a c
  | Any => negb (Ascii.eqb c Text.LF)
  | Space => Text.isspace c
  | CSet neg cs => xorb neg (existsb (fun a => same_char icase a c) cs)
  | _ => false
  end.

(** Iteration for [Star]: every way to apply [step] repeatedly; an
    iteration that consumes nothing adds nothing new and is dropped. *)
Fixpoint iterate (step : string -> list string) (fuel : nat) (s : string)
  : list string :=
  match fuel with
  | O => [s]
  | S fuel' =>
      s :: flat_map (iterate step fuel')
             (filter (fun t => (String.length t < String.length s)%nat) (step s))
  end.

(** [run icase r s]: the remainders of [s] after each prefix of [s] that
    [r] matches. *)
Fixpoint run (icase : bool) (r : regex) (s : string) : list string :=
  match r with
  | Eps => [s]
  | Cat r1 r2 => flat_map (run icase r2) (run icase r1 s)
  | Alt r1 r2 => run icase r1 s ++ run icase r2 s
  | Star r1 => iterate (run icase r1) (String.length s) s
  | _ =>
      match s with
      | String c s' => if accepts icase r c then [s'] else []
      | EmptyString => []
      end
  end.

Definition match_here (icase : bool) (r : regex) (s : string) : bool :=
  match run icase r s with [] => false | _ :: _ => true end.

(** [re.search(r, s)] (with [re.IGNORECASE] when [icase]) as a truth value. *)
Fixpoint search (icase : bool) (r : regex) (s : string) : bool :=
  match_here icase r s ||
  match s with
  | EmptyString => false
  | String _ s' => search icase r s'
  end.

End Re.

(** ** Data model *)

(** [class VulnerabilityLevel(Enum)] *)
Inductive VulnerabilityLevel : Type :=
| CRITICAL | HIGH | MEDIUM | LOW | INFO.

(** The members in definition order ([for level in VulnerabilityLevel]). *)
Definition VulnerabilityLevel_members : list VulnerabilityLevel :=
  [CRITICAL; HIGH; MEDIUM; LOW; INFO].

Definition VulnerabilityLevel_value (l : VulnerabilityLevel) : string :=
  match l with
  | CRITICAL => "critical"
  | HIGH => "high"
  | MEDIUM => "medium"
  | LOW => "low"
  | INFO => "info"
  end.

#[global] Instance VulnerabilityLevel_eq_dec : EqDecision VulnerabilityLevel.
Proof. solve_decision. Defined.

(** [class OWASPCategory(Enum)] *)
Inductive OWASPCategory : Type :=
| A01_BROKEN_ACCESS_CONTROL
| A02_CRYPTOGRAPHIC_FAILURES
| A03_INJECTION
| A04_INSECURE_DESIGN
| A05_SECURITY_MISCONFIGURATION
| A06_VULNERABLE_COMPONENTS
| A07_AUTH_FAILURES
| A08_DATA_INTEGRITY_FAILURES
| A09_LOGGING_FAILURES
| A10_SSRF.

Definition OWASPCategory_value (c : OWASPCategory) : string :=
  match c with
  | A01_BROKEN_ACCESS_CONTROL => "Broken Access Control"
  | A02_CRYPTOGRAPHIC_FAILURES => "Cryptographic Failures"
  | A03_INJECTION => "Injection"
  | A04_INSECURE_DESIGN => "Insecure Design"
  | A05_SECURITY_MISCONFIGURATION => "Security Misconfiguration"
  | A06_VULNERABLE_COMPONENTS => "Vulnerable and Outdated Components"
  | A07_AUTH_FAILURES => "Identification and Authentication Failures"
  | A08_DATA_INTEGRITY_FAILURES => "Software and Data Integrity Failures"
  | A09_LOGGING_FAILURES => "Security Logging and Monitoring Failures"
  | A10_SSRF => "Server-Side Request Forgery"
  end.

#[global] Instance OWASPCategory_eq_dec : EqDecision OWASPCategory.
Proof. solve_decision. Defined.

(** [@dataclass class SecurityFinding] *)
Module SecurityFinding.

Record t : Type := {
  file_path : string;
  line_number : Z;
  column : Z;
  vulnerability_type : string;
  owasp_category : OWASPCategory;
  severity : VulnerabilityLevel;
  description : string;
  recommendation : string;
  code_snippet : string;        (* default: the empty string *)
  cwe_id : option string;       (* default None *)
  confidence : Q                (* default 1.0 *)
}.

End SecurityFinding.

(** The dictionary that [SecurityFinding.to_dict] builds. *)
Module FindingDict.

Record t : Type := {
  file_path : string;
  location : string;
  type : string;
  owasp : string;
  severity : string;
  description : string;
  recommendation : string;
  snippet : string;
  cwe : option string;
  confidence : Q
}.

End FindingDict.

(** [SecurityFinding.to_dict] *)
Definition to_dict (self : SecurityFinding.t) : FindingDict.t :=
  {| FindingDict.file_path := SecurityFinding.file_path self;
     FindingDict.location :=
       "L" +:+ pretty (SecurityFinding.line_number self) +:+ ":C"
       +:+ pretty (SecurityFinding.column self);
     FindingDict.type := SecurityFinding.vulnerability_type self;
     FindingDict.owasp := OWASPCategory_value (SecurityFinding.owasp_category self);
     FindingDict.severity := VulnerabilityLevel_value (SecurityFinding.severity self);
     FindingDict.description := SecurityFinding.description self;
     FindingDict.recommendation := SecurityFinding.recommendation self;
     FindingDict.snippet := SecurityFinding.code_snippet self;
     FindingDict.cwe := SecurityFinding.cwe_id self;
     FindingDict.confidence := SecurityFinding.confidence self |}.

(** [@dataclass class CodeMetrics] *)
Module CodeMetrics.

Record t : Type := {
  total_lines : Z;
  code_lines : Z;
  comment_lines : Z;
  blank_lines : Z;
  cyclomatic_complexity : Z;
  cognitive_complexity : Z;
  maintainability_index : Q;
  technical_debt_hours : Q;
  test_coverage : Q;
  dependencies : gset string
}.

(** [CodeMetrics()]: every field at its default. *)
Definition new : t :=
  {| total_lines := 0; code_lines := 0; comment_lines := 0; blank_lines := 0;
     cyclomatic_complexity := 0; cognitive_complexity := 0;
     maintainability_index := 0%Q; technical_debt_hours := 0%Q;
     test_coverage := 0%Q; dependencies := ∅ |}.

(** Assignments to one attribute of a [CodeMetrics] object. *)
Definition set_total_lines (v : Z) (m : t) : t :=
  {| total_lines := v; code_lines := code_lines m;
     comment_lines := comment_lines m; blank_lines := blank_lines m;
     cyclomatic_complexity := cyclomatic_complexity m;
     cognitive_complexity := cognitive_complexity m;
     maintainability_index := maintainability_index m;
     technical_debt_hours := technical_debt_hours m;
     test_coverage := test_coverage m; dependencies := dependencies m |}.

Definition set_code_lines (v : Z) (m : t) : t :=
  {| total_lines := total_lines m; code_lines := v;
     comment_lines := comment_lines m; blank_lines := blank_lines m;
     cyclomatic_complexity := cyclomatic_complexity m;
     cognitive_complexity := cognitive_complexity m;
     maintainability_index := maintainability_index m;
     technical_debt_hours := technical_debt_hours m;
     test_coverage := test_coverage m; dependencies := dependencies m |}.

Definition set_comment_lines (v : Z) (m : t) : t :=
  {| total_lines := total_lines m; code_lines := code_lines m;
     comment_lines := v; blank_lines := blank_lines m;
     cyclomatic_complexity := cyclomatic_complexity m;
     cognitive_complexity := cognitive_complexity m;
     maintainability_index := maintainability_index m;
     technical_debt_hours := technical_debt_hours m;
     test_coverage := test_coverage m; dependencies := dependencies m |}.

Definition set_blank_lines (v : Z) (m : t) : t :=
  {| total_lines := total_lines m; code_lines := code_lines m;
     comment_lines := comment_lines m; blank_lines := v;
     cyclomatic_complexity := cyclomatic_complexity m;
     cognitive_complexity := cognitive_complexity m;
     maintainability_index := maintainability_index m;
     technical_debt_hours := technical_debt_hours m;
     test_coverage := test_coverage m; dependencies := dependencies m |}.

Definition set_cyclomatic_complexity (v : Z) (m : t) : t :=
  {| total_lines := total_lines m; code_lines := code_lines m;
     comment_lines := comment_lines m; blank_lines := blank_lines m;
     cyclomatic_complexity := v;
     cognitive_complexity := cognitive_complexity m;
     maintainability_index := maintainability_index m;
     technical_debt_hours := technical_debt_hours m;
     test_coverage := test_coverage m; dependencies := dependencies m |}.

Definition set_maintainability_index (v : Q) (m : t) : t :=
  {| total_lines := total_lines m; code_lines := code_lines m;
     comment_lines := comment_lines m; blank_lines := blank_lines m;
     cyclomatic_complexity := cyclomatic_complexity m;
     cognitive_complexity := cognitive_complexity m;
     maintainability_index := v;
     technical_debt_hours := technical_debt_hours m;
     test_coverage := test_coverage m; dependencies := dependencies m |}.

Definition set_dependencies (v : gset string) (m : t) : t :=
  {| total_lines := total_lines m; code_lines := code_lines m;
     comment_lines := comment_lines m; blank_lines := blank_lines m;
     cyclomatic_complexity := cyclomatic_complexity m;
     cognitive_complexity := cognitive_complexity m;
     maintainability_index := maintainability_index m;
     technical_debt_hours := technical_debt_hours m;
     test_coverage := test_coverage m; dependencies := v |}.

(** [sum(scores)] *)
Definition Qsum (l : list Q) : Q := foldl Qplus 0%Q l.

(** [calculate_health_score] *)
Definition calculate_health_score (self : t) : Q :=
  let scores : list Q := [] in
  (* Maintainability (30%) *)
  let scores :=
    if Qlt_le_dec 0 (maintainability_index self)
    then scores ++ [(Qmin (maintainability_index self) 100 * 0.3)%Q]
    else scores in
  (* Complexity (30%) *)
  let complexity_score := Z.max 0 (100 - cyclomatic_complexity self * 2) in
  let scores := scores ++ [(inject_Z complexity_score * 0.3)%Q] in
  (* Test coverage (25%) *)
  let scores := scores ++ [(test_coverage self * 0.25)%Q] in
  (* Technical debt (15%) *)
  let debt_score := Qmax 0 (100 - technical_debt_hours self * 5)%Q in
  let scores := scores ++ [(debt_score * 0.15)%Q] in
  match scores with
  | [] => 0%Q
  | _ :: _ => Qsum scores
  end.

End CodeMetrics.

(** ** The syntax tree that [ast.parse] returns

    Only what the scanner reads is kept: the node kinds it dispatches on,
    the attributes it reads, and all child nodes in field order.  Every
    other kind of node ([Module], [FunctionDef], [Assign], [Expr], [Return],
    [Compare], ...) is an [Other] node carrying its child nodes.  Leaves
    without behaviour ([alias], [Load], [Add], ...) are left out. *)

Inductive constant : Type :=
| CNone
| CBool (b : bool)
| CInt (z : Z)
| CStr (s : string)
| COther.

Inductive operator : Type :=
| Add | Sub | Mult | Div | Mod | OtherOp.

Inductive node : Type :=
| Import (lineno : Z) (names : list string)
| ImportFrom (lineno : Z) (module : option string) (names : list string)
| Call (lineno col_offset : Z) (func : node) (args : list node)
       (keywords : list (option string * node))
| BinOp (lineno : Z) (left : node) (op : operator) (right : node)
| BoolOp (values : list node)
| JoinedStr (lineno : Z) (values : list node)
| FormattedValue (value : node) (format_spec : option node)
| Name (id : string)
| Attribute (value : node) (attr : string)
| Constant (value : constant)
| If (test : node) (body orelse : list node)
| While (test : node) (body orelse : list node)
| For (target iter : node) (body orelse : list node)
| ExceptHandler (type : option node) (body : list node)
| Other (children : list node).
(** [ast.walk]: every node of the tree, each once.  (The order differs
    from the library's, which is breadth first.) *)
Fixpoint walk (n : node) : list node :=
  let walk_opt o := match o with Some child => walk child | None => [] end in
  n ::
  match n with
  | Import _ _ | ImportFrom _ _ _ | Name _ | Constant _ => []
  | Call _ _ func args keywords =>
      walk func ++ flat_map walk args ++ flat_map (fun keyword => walk (snd keyword)) keywords
  | BinOp _ lhs _ rhs => walk lhs ++ walk rhs
  | BoolOp values => flat_map walk values
  | JoinedStr _ values => flat_map walk values
  | FormattedValue value format_spec => walk value ++ walk_opt format_spec
  | Attribute value _ => walk value
  | If test body orelse => walk test ++ flat_map walk body ++ flat_map walk orelse
  | While test body orelse => walk test ++ flat_map walk body ++ flat_map walk orelse
  | For target iter body orelse =>
      walk target ++ walk iter ++ flat_map walk body ++ flat_map walk orelse
  | ExceptHandler type body => walk_opt type ++ flat_map walk body
  | Other children => flat_map walk children
  end.

(** ** [class ASTSecurityAnalyzer(ast.NodeVisitor)] *)

Module ASTSecurityAnalyzer.

(** The attributes of the visitor object. *)
Record t : Type := {
  file_path : string;
  source_lines : list string;
  findings : list SecurityFinding.t;
  imports : gset string;
  function_calls : gmap string (list Z);
  string_operations : list (Z * string)
}.

(** [__init__] *)
Definition init (file_path source_code : string) : t :=
  {| file_path := file_path;
     source_lines := Text.split Text.LF source_code;
     findings := [];
     imports := ∅;
     function_calls := ∅;
     string_operations := [] |}.

(** [self.findings.append(f)] *)
Definition append_finding (f : SecurityFinding.t) (self : t) : t :=
  {| file_path := file_path self;
     source_lines := source_lines self;
     findings := findings self ++ [f];
     imports := imports self;
     function_calls := function_calls self;
     string_operations := string_operations self |}.

(** [self.imports.add(name)] *)
Definition add_import (name : string) (self : t) : t :=
  {| file_path := file_path self;
     source_lines := source_lines self;
     findings := findings self;
     imports := imports self ∪ {[ name ]};
     function_calls := function_calls self;
     string_operations := string_operations self |}.

(** [self.function_calls[func_name]] is created empty when missing, then
    the line is appended to it. *)
Definition record_call (func_name : string) (lineno : Z) (self : t) : t :=
  {| file_path := file_path self;
     source_lines := source_lines self;
     findings := findings self;
     imports := imports self;
     function_calls :=
       <[ func_name := default [] (function_calls self !! func_name) ++ [lineno] ]>
         (function_calls self);
     string_operations := string_operations self |}.

(** [self.string_operations.append(op)] *)
Definition record_string_operation (op : Z * string) (self : t) : t :=
  {| file_path := file_path self;
     source_lines := source_lines self;
     findings := findings self;
     imports := imports self;
     function_calls := function_calls self;
     string_operations := string_operations self ++ [op] |}.

(** [_get_code_snippet(line_no, context=2)] *)
Definition _get_code_snippet (self : t) (line_no : Z) : string :=
  let context := 2 in
  let start := Z.max 0 (line_no - context - 1) in
  let end_ := Z.min (Z.of_nat (length (source_lines self))) (line_no + context) in
  let snippet_lines :=
    (fun i : Z =>
       let prefix := if Z.eqb i (line_no - 1) then ">>> " else "    " in
       prefix +:+ default "" (source_lines self !! Z.to_nat i))
    <$> seqZ start (end_ - start) in
  Text.join (Text.chr Text.LF) snippet_lines.

(** [_get_function_name] *)
Definition _get_function_name (n : node) : option string :=
  match n with
  | Name id => Some id
  | Attribute _ attr => Some attr
  | _ => None
  end.

(** [_is_string_node]: [ast.Str] is the class of string constants. *)
Definition _is_string_node (n : node) : bool :=
  match n with
  | Constant (CStr _) => true
  | JoinedStr _ _ => true
  | _ => false
  end.

(** The table of [_check_vulnerable_import]. *)
Definition vulnerable_packages
  : list (string * (VulnerabilityLevel * string * string)) :=
  [ ("pickle", (HIGH, "CWE-502",
       "Pickle can execute arbitrary code during deserialization"));
    ("yaml", (MEDIUM, "CWE-502",
       "Use yaml.safe_load() instead of yaml.load()"));
    ("xml.etree.ElementTree", (MEDIUM, "CWE-611",
       "Vulnerable to XXE attacks, use defusedxml"));
    ("telnetlib", (LOW, "CWE-319",
       "Telnet transmits data in plaintext")) ].

(** [_check_vulnerable_import] *)
Definition _check_vulnerable_import (module : string) (line_no : Z) (self : t) : t :=
  match Text.assoc module vulnerable_packages with
  | Some (severity, cwe, description) =>
      append_finding
        {| SecurityFinding.file_path := file_path self;
           SecurityFinding.line_number := line_no;
           SecurityFinding.column := 0;
           SecurityFinding.vulnerability_type := "Vulnerable Import";
           SecurityFinding.owasp_category := A06_VULNERABLE_COMPONENTS;
           SecurityFinding.severity := severity;
           SecurityFinding.description :=
             "Import of potentially vulnerable module: " +:+ module +:+ ". "
             +:+ description;
           SecurityFinding.recommendation :=
             "Consider using a more secure alternative or ensure proper usage";
           SecurityFinding.code_snippet := _get_code_snippet self line_no;
           SecurityFinding.cwe_id := Some cwe;
           SecurityFinding.confidence := 0.9%Q |} self
  | None => self
  end.

(** The table of [_check_dangerous_function]. *)
Definition dangerous_functions
  : list (string * (VulnerabilityLevel * OWASPCategory * string)) :=
  [ ("eval", (CRITICAL, A03_INJECTION, "CWE-95"));
    ("exec", (CRITICAL, A03_INJECTION, "CWE-95"));
    ("compile", (HIGH, A03_INJECTION, "CWE-94"));
    ("__import__", (HIGH, A03_INJECTION, "CWE-470"));
    ("input", (LOW, A03_INJECTION, "CWE-20")) ].

(** [_check_dangerous_function] *)
Definition _check_dangerous_function (func_name : string)
    (lineno col_offset : Z) (self : t) : t :=
  match Text.assoc func_name dangerous_functions with
  | Some (severity, owasp, cwe) =>
      append_finding
        {| SecurityFinding.file_path := file_path self;
           SecurityFinding.line_number := lineno;
           SecurityFinding.column := col_offset;
           SecurityFinding.vulnerability_type := "Dangerous Function";
           SecurityFinding.owasp_category := owasp;
           SecurityFinding.severity := severity;
           SecurityFinding.description :=
             "Use of dangerous function '" +:+ func_name
             +:+ "' that can execute arbitrary code";
           SecurityFinding.recommendation :=
             "Avoid using " +:+ func_name +:+ ". Find a safer alternative";
           SecurityFinding.code_snippet := _get_code_snippet self lineno;
           SecurityFinding.cwe_id := Some cwe;
           SecurityFinding.confidence := 1.0%Q |} self
  | None => self
  end.

(** [_check_sql_injection]: only the shape of the first argument of the
    call is inspected. *)
Definition _check_sql_injection (lineno col_offset : Z) (args : list node)
    (self : t) : t :=
  match args with
  | first_arg :: _ =>
      match first_arg with
      | BinOp _ _ Mod _ =>
          append_finding
            {| SecurityFinding.file_path := file_path self;
               SecurityFinding.line_number := lineno;
               SecurityFinding.column := col_offset;
               SecurityFinding.vulnerability_type := "SQL Injection";
               SecurityFinding.owasp_category := A03_INJECTION;
               SecurityFinding.severity := CRITICAL;
               SecurityFinding.description :=
                 "SQL query uses string formatting which is vulnerable to injection";
               SecurityFinding.recommendation :=
                 "Use parameterized queries with placeholders (?, %s, $1)";
               SecurityFinding.code_snippet := _get_code_snippet self lineno;
               SecurityFinding.cwe_id := Some "CWE-89";
               SecurityFinding.confidence := 0.95%Q |} self
      | JoinedStr _ _ =>
          append_finding
            {| SecurityFinding.file_path := file_path self;
               SecurityFinding.line_number := lineno;
               SecurityFinding.column := col_offset;
               SecurityFinding.vulnerability_type := "SQL Injection";
               SecurityFinding.owasp_category := A03_INJECTION;
               SecurityFinding.severity := CRITICAL;
               SecurityFinding.description :=
                 "SQL query uses f-string formatting which is vulnerable to injection";
               SecurityFinding.recommendation :=
                 "Never use f-strings for SQL. Use parameterized queries";
               SecurityFinding.code_snippet := _get_code_snippet self lineno;
               SecurityFinding.cwe_id := Some "CWE-89";
               SecurityFinding.confidence := 1.0%Q |} self
      | _ => self
      end
  | [] => self
  end.

(** [_check_command_injection]: one finding per keyword [shell=True]. *)
Definition _check_command_injection (lineno col_offset : Z)
    (keywords : list (option string * node)) (self : t) : t :=
  foldl
    (fun self keyword =>
       match keyword with
       | (Some "shell", Constant (CBool true)) =>
           append_finding
             {| SecurityFinding.file_path := file_path self;
                SecurityFinding.line_number := lineno;
                SecurityFinding.column := col_offset;
                SecurityFinding.vulnerability_type := "Command Injection";
                SecurityFinding.owasp_category := A03_INJECTION;
                SecurityFinding.severity := HIGH;
                SecurityFinding.description :=
                  "Using shell=True in subprocess is vulnerable to command injection";
                SecurityFinding.recommendation :=
                  "Use shell=False and pass arguments as a list";
                SecurityFinding.code_snippet := _get_code_snippet self lineno;
                SecurityFinding.cwe_id := Some "CWE-78";
                SecurityFinding.confidence := 0.9%Q |} self
       | _ => self
       end)
    self keywords.

(** [_check_path_traversal] *)
Definition _check_path_traversal (lineno col_offset : Z) (args : list node)
    (self : t) : t :=
  match args with
  | Name _ :: _ =>
      append_finding
        {| SecurityFinding.file_path := file_path self;
           SecurityFinding.line_number := lineno;
           SecurityFinding.column := col_offset;
           SecurityFinding.vulnerability_type := "Path Traversal";
           SecurityFinding.owasp_category := A01_BROKEN_ACCESS_CONTROL;
           SecurityFinding.severity := MEDIUM;
           SecurityFinding.description :=
             "File operation with potentially user-controlled path";
           SecurityFinding.recommendation :=
             "Validate and sanitize file paths. Use os.path.join() and check against allowed directories";
           SecurityFinding.code_snippet := _get_code_snippet self lineno;
           SecurityFinding.cwe_id := Some "CWE-22";
           SecurityFinding.confidence := 0.7%Q |} self
  | _ => self
  end.

(** [_check_ssrf] *)
Definition _check_ssrf (lineno col_offset : Z) (args : list node)
    (self : t) : t :=
  let finding :=
    {| SecurityFinding.file_path := file_path self;
       SecurityFinding.line_number := lineno;
       SecurityFinding.column := col_offset;
       SecurityFinding.vulnerability_type := "SSRF";
       SecurityFinding.owasp_category := A10_SSRF;
       SecurityFinding.severity := MEDIUM;
       SecurityFinding.description :=
         "HTTP request with potentially user-controlled URL";
       SecurityFinding.recommendation :=
         "Validate URLs against an allowlist. Prevent requests to internal networks";
       SecurityFinding.code_snippet := _get_code_snippet self lineno;
       SecurityFinding.cwe_id := Some "CWE-918";
       SecurityFinding.confidence := 0.6%Q |} in
  match args with
  | Name _ :: _ => append_finding finding self
  | JoinedStr _ _ :: _ => append_finding finding self
  | _ => self
  end.

(** [_check_format_string_injection], on the value of a [FormattedValue] *)
Definition _check_format_string_injection (value : node) (line_no : Z)
    (self : t) : t :=
  match value with
  | Name _ =>
      append_finding
        {| SecurityFinding.file_path := file_path self;
           SecurityFinding.line_number := line_no;
           SecurityFinding.column := 0;
           SecurityFinding.vulnerability_type := "Format String Injection";
           SecurityFinding.owasp_category := A03_INJECTION;
           SecurityFinding.severity := LOW;
           SecurityFinding.description :=
             "F-string with potentially user-controlled value";
           SecurityFinding.recommendation :=
             "Ensure user input is properly validated before formatting";
           SecurityFinding.code_snippet := _get_code_snippet self line_no;
           SecurityFinding.cwe_id := Some "CWE-134";
           SecurityFinding.confidence := 0.5%Q |} self
  | _ => self
  end.

(** The [visit_*] methods.  Each ends with [self.generic_visit(node)],
    which visits the child nodes in field order; it is the argument
    [generic_visit] here, given by [visit] below. *)

(** [visit_Import] *)
Definition visit_Import (generic_visit : t -> t) (lineno : Z) (names : list string)
    (self : t) : t :=
  let self :=
    foldl
      (fun self name => _check_vulnerable_import name lineno (add_import name self))
      self names in
  generic_visit self.

(** [visit_ImportFrom]: [None] and the empty string are false. *)
Definition visit_ImportFrom (generic_visit : t -> t) (lineno : Z)
    (module : option string) (self : t) : t :=
  let self :=
    match module with
    | Some m =>
        if Text.nonempty m
        then _check_vulnerable_import m lineno (add_import m self)
        else self
    | None => self
    end in
  generic_visit self.

(** [visit_Call] *)
Definition visit_Call (generic_visit : t -> t) (lineno col_offset : Z) (func : node)
    (args : list node) (keywords : list (option string * node)) (self : t) : t :=
  let self :=
    match _get_function_name func with
    | Some func_name =>
        (* Track function usage *)
        let self := record_call func_name lineno self in
        (* Check for dangerous functions *)
        let self := _check_dangerous_function func_name lineno col_offset self in
        (* Check for SQL injection *)
        let self :=
          if Text.member func_name ["execute"; "executemany"; "raw"; "query"]
          then _check_sql_injection lineno col_offset args self else self in
        (* Check for command injection *)
        let self :=
          if Text.member func_name ["system"; "popen"; "call"; "run"; "exec"; "eval"]
          then _check_command_injection lineno col_offset keywords self else self in
        (* Check for path traversal *)
        let self :=
          if Text.member func_name ["open"; "read"; "write"; "readfile"; "writefile"]
          then _check_path_traversal lineno col_offset args self else self in
        (* Check for SSRF *)
        if Text.member func_name ["get"; "post"; "put"; "delete"; "request"; "urlopen"]
        then _check_ssrf lineno col_offset args self else self
    | None => self
    end in
  generic_visit self.

(** [visit_BinOp] *)
Definition visit_BinOp (generic_visit : t -> t) (lineno : Z) (left : node)
    (op : operator) (right : node) (self : t) : t :=
  let self :=
    match op with
    | Add =>
        let left_str := _is_string_node left in
        let right_str := _is_string_node right in
        if left_str || right_str
        then record_string_operation (lineno, "concatenation") self
        else self
    | _ => self
    end in
  generic_visit self.

(** [visit_JoinedStr] *)
Definition visit_JoinedStr (generic_visit : t -> t) (lineno : Z) (values : list node)
    (self : t) : t :=
  let self := record_string_operation (lineno, "f-string") self in
  (* Check if f-string contains user input *)
  let self :=
    foldl
      (fun self value =>
         match value with
         | FormattedValue v _ => _check_format_string_injection v lineno self
         | _ => self
         end)
      self values in
  generic_visit self.

(** [visit]: [NodeVisitor.visit] calls the [visit_*] method of the class of
    the node when there is one, and [generic_visit] otherwise.  The result
    is the state after a visit that completes: the recursion limit of the
    interpreter, past which the visitor of the code raises [RecursionError],
    is not part of the model. *)
Fixpoint visit (n : node) (self : t) {struct n} : t :=
  let visit_all := fold_left (fun self child => visit child self) in
  let visit_opt o self :=
    match o with Some child => visit child self | None => self end in
  match n with
  | Import lineno names =>
      visit_Import (fun self => self) lineno names self
  | ImportFrom lineno module names =>
      visit_ImportFrom (fun self => self) lineno module self
  | Call lineno col_offset func args keywords =>
      visit_Call
        (fun self =>
           let self := visit func self in
           let self := visit_all args self in
           fold_left (fun self keyword => visit (snd keyword) self) keywords self)
        lineno col_offset func args keywords self
  | BinOp lineno lhs op rhs =>
      visit_BinOp (fun self => visit rhs (visit lhs self)) lineno lhs op rhs self
  | JoinedStr lineno values =>
      visit_JoinedStr (visit_all values) lineno values self
  | BoolOp values => visit_all values self
  | FormattedValue value format_spec => visit_opt format_spec (visit value self)
  | Name _ => self
  | Attribute value _ => visit value self
  | Constant _ => self
  | If test body orelse => visit_all orelse (visit_all body (visit test self))
  | While test body orelse => visit_all orelse (visit_all body (visit test self))
  | For target iter body orelse =>
      visit_all orelse (visit_all body (visit iter (visit target self)))
  | ExceptHandler type body => visit_all body (visit_opt type self)
  | Other children => visit_all children self
  end.

End ASTSecurityAnalyzer.

(** ** Exceptions and the host environment *)

Inductive exception : Type :=
| FileNotFoundError (message : string)
| SyntaxError
| IsADirectoryError
| OtherException (name : string).

(** The result of a call that may raise. *)
Inductive outcome (A : Type) : Type :=
| Ok (a : A)
| Raise (e : exception).
Arguments Ok {A} a.
Arguments Raise {A} e.

(** [ast.parse]: the tree of a source text, or the exception it raises. *)
Definition parser : Type := string -> outcome node.

(** ** Files and directories ([pathlib.Path])

    A path is the list of its components; the file system is the entry at
    the empty path. *)

Module Path.

Definition t : Type := list string.

Inductive entry : Type :=
| File (content : outcome string)       (* what [read_text] gives *)
| Dir (entries : list (string * entry)).

(** [str(path)]; the current directory is [.] *)
Definition str (p : t) : string :=
  match p with
  | [] => "."
  | _ => Text.join "/" p
  end.

(** [path.name] *)
Definition name (p : t) : string := default "" (last p).

(** [path.suffix] *)
Definition suffix (p : t) : string :=
  let name := name p in
  match Text.rfind "."%char name with
  | Some i =>
      if ((0 <? i) && (i <? String.length name - 1))%nat
      then Text.drop i name else ""
  | None => ""
  end.

Fixpoint child (n : string) (entries : list (string * entry)) : option entry :=
  match entries with
  | [] => None
  | (n', e) :: entries' => if String.eqb n n' then Some e else child n entries'
  end.

Fixpoint lookup (fs : entry) (p : t) : option entry :=
  match p with
  | [] => Some fs
  | n :: p' =>
      match fs with
      | Dir entries =>
          match child n entries with
          | Some e => lookup e p'
          | None => None
          end
      | File _ => None
      end
  end.

(** [path.exists()] *)
Definition exists_ (fs : entry) (p : t) : bool :=
  match lookup fs p with Some _ => true | None => false end.

(** [path.is_file()] *)
Definition is_file (fs : entry) (p : t) : bool :=
  match lookup fs p with Some (File _) => true | _ => false end.

(** [path.read_text(encoding='utf-8')] *)
Definition read_text (fs : entry) (p : t) : outcome string :=
  match lookup fs p with
  | Some (File content) => content
  | Some (Dir _) => Raise IsADirectoryError
  | None => Raise (FileNotFoundError (str p))
  end.

(** One component of a glob pattern against a name: [*] followed by
    literal characters, or literal characters only. *)
Definition fnmatch (pattern name : string) : bool :=
  match pattern with
  | String "*" rest => Text.endswith rest name
  | _ => String.eqb pattern name
  end.

(** The directories at and below [e], parents first. *)
Fixpoint directories (p : t) (e : entry) : list (t * entry) :=
  match e with
  | Dir entries =>
      (p, e) :: flat_map (fun ne => directories (p ++ [fst ne]) (snd ne)) entries
  | File _ => []
  end.

Definition is_dir_entry (e : entry) : bool :=
  match e with Dir _ => true | File _ => false end.

(** The selectors of [path.glob]: [parts] are the components of the
    pattern.  [**] stands for the directory itself and every directory
    below it; any other component selects the entries of the directory
    with a matching name, which must be directories unless the component
    is the last one. *)
Fixpoint select (parts : list string) (p : t) (e : entry) : list t :=
  match parts with
  | [] => [p]
  | part :: parts' =>
      if String.eqb part "**" then
        flat_map (fun pe => select parts' (fst pe) (snd pe)) (directories p e)
      else
        match e with
        | Dir entries =>
            flat_map
              (fun ne =>
                 if fnmatch part (fst ne)
                    && (match parts' with [] => true | _ => is_dir_entry (snd ne) end)
                 then select parts' (p ++ [fst ne]) (snd ne)
                 else [])
              entries
        | File _ => []
        end
  end.

(** [path.glob(pattern)] *)
Definition glob (fs : entry) (p : t) (pattern : string) : list t :=
  match lookup fs p with
  | Some (Dir entries) => select (Text.split "/"%char pattern) p (Dir entries)
  | _ => []
  end.

End Path.

(** The dictionary that [scan_directory] returns. *)
Module ScanResult.

(** The value at the key [metrics]. *)
Record metrics_t : Type := {
  total_lines : Z;
  code_lines : Z;
  dependencies : list string;
  health_score : Q
}.

Record t : Type := {
  timestamp : string;
  directory : string;
  files_scanned : Z;
  total_findings : Z;
  severity_distribution : list (string * Z);
  owasp_distribution : list (string * Z);
  findings : list FindingDict.t;
  metrics : metrics_t;
  power_consumed : Q
}.

End ScanResult.

(** ** [class CodeGuardian] *)

Module CodeGuardian.

(** [enumerate(lines, 1)] *)
Definition enumerate1 (lines : list string) : list (Z * string) :=
  zip (seqZ 1 (Z.of_nat (length lines))) lines.

Section Patterns.
Import Re.

Let quote : regex := CSet false [Text.DQ; Text.SQ].
Let not_quote : regex := CSet true [Text.DQ; Text.SQ].
Let sep : regex := CSet false ["_"; "-"]%char.
Let assign : regex := CSet false [":"; "="]%char.

(** [secret_patterns] of [_check_hardcoded_secrets]; with Q for the
    set of the two quote characters and N for its complement:
<<
Q?api[_-]?keyQ?\s*[:=]\s*QN+Q
Q?secret[_-]?keyQ?\s*[:=]\s*QN+Q
Q?passwordQ?\s*[:=]\s*QN+Q
Q?tokenQ?\s*[:=]\s*QN+Q
Q?aws[_-]?access[_-]?keyQ?\s*[:=]\s*QN+Q
>> *)
Definition secret_patterns : list (regex * string) :=
  [ (seq [Opt quote; str "api"; Opt sep; str "key"; Opt quote; Star Space;
          assign; Star Space; quote; Plus not_quote; quote], "API Key");
    (seq [Opt quote; str "secret"; Opt sep; str "key"; Opt quote; Star Space;
          assign; Star Space; quote; Plus not_quote; quote], "Secret Key");
    (seq [Opt quote; str "password"; Opt quote; Star Space;
          assign; Star Space; quote; Plus not_quote; quote], "Hardcoded Password");
    (seq [Opt quote; str "token"; Opt quote; Star Space;
          assign; Star Space; quote; Plus not_quote; quote], "Access Token");
    (seq [Opt quote; str "aws"; Opt sep; str "access"; Opt sep; str "key";
          Opt quote; Star Space;
          assign; Star Space; quote; Plus not_quote; quote], "AWS Credentials") ].

(** [log_patterns] of [_check_logging_issues]:
<<
log.*password
print.*password
console\.log.*password
logger.*credit[_-]?card
log.*ssn
>> *)
Definition log_patterns : list regex :=
  [ seq [str "log"; Star Any; str "password"];
    seq [str "print"; Star Any; str "password"];
    seq [str "console.log"; Star Any; str "password"];
    seq [str "logger"; Star Any; str "credit"; Opt sep; str "card"];
    seq [str "log"; Star Any; str "ssn"] ].

(** [patterns] of [_analyze_javascript]:
<<
eval\s*\(
innerHTML\s*=
document\.write\s*\(
localStorage\.|sessionStorage\.
>> *)
Definition javascript_patterns
  : list (regex * string * VulnerabilityLevel * OWASPCategory) :=
  [ (seq [str "eval"; Star Space; str "("],
       "Eval Usage", HIGH, A03_INJECTION);
    (seq [str "innerHTML"; Star Space; str "="],
       "innerHTML Usage", MEDIUM, A03_INJECTION);
    (seq [str "document.write"; Star Space; str "("],
       "document.write Usage", LOW, A03_INJECTION);
    (Alt (str "localStorage.") (str "sessionStorage."),
       "Client Storage", LOW, A02_CRYPTOGRAPHIC_FAILURES) ].

End Patterns.

(** [_check_hardcoded_secrets] *)
Definition _check_hardcoded_secrets (source_code file_path : string)
  : list SecurityFinding.t :=
  let lines := Text.split Text.LF source_code in
  flat_map
    (fun '(line_no, line) =>
       flat_map
         (fun '(pattern, secret_type) =>
            if Re.search true pattern line then
              [ {| SecurityFinding.file_path := file_path;
                   SecurityFinding.line_number := line_no;
                   SecurityFinding.column := 0;
                   SecurityFinding.vulnerability_type := "Hardcoded Secret";
                   SecurityFinding.owasp_category := A02_CRYPTOGRAPHIC_FAILURES;
                   SecurityFinding.severity := HIGH;
                   SecurityFinding.description :=
                     "Potential hardcoded " +:+ secret_type +:+ " detected";
                   SecurityFinding.recommendation :=
                     "Use environment variables or secure key management";
                   SecurityFinding.code_snippet :=
                     Text.take 50 (Text.strip line) +:+ "...";
                   SecurityFinding.cwe_id := Some "CWE-798";
                   SecurityFinding.confidence := 0.8%Q |} ]
            else [])
         secret_patterns)
    (enumerate1 lines).

(** [weak_crypto] of [_check_weak_crypto] *)
Definition weak_crypto : list (string * string) :=
  [ ("MD5", "CWE-327"); ("SHA1", "CWE-327"); ("DES", "CWE-327"); ("RC4", "CWE-327") ].

(** [_check_weak_crypto]: for each algorithm, the first line that holds
    its name (the inner loop ends at its first finding). *)
Definition _check_weak_crypto (source_code file_path : string)
  : list SecurityFinding.t :=
  flat_map
    (fun '(algo, cwe) =>
       if Text.contains algo source_code then
         let lines := Text.split Text.LF source_code in
         match List.find (fun '(_, line) => Text.contains algo line) (enumerate1 lines) with
         | Some (line_no, line) =>
             [ {| SecurityFinding.file_path := file_path;
                  SecurityFinding.line_number := line_no;
                  SecurityFinding.column := 0;
                  SecurityFinding.vulnerability_type := "Weak Cryptography";
                  SecurityFinding.owasp_category := A02_CRYPTOGRAPHIC_FAILURES;
                  SecurityFinding.severity := MEDIUM;
                  SecurityFinding.description :=
                    "Use of weak cryptographic algorithm: " +:+ algo;
                  SecurityFinding.recommendation :=
                    "Use stronger algorithms (SHA-256, AES, etc.)";
                  SecurityFinding.code_snippet := Text.strip line;
                  SecurityFinding.cwe_id := Some cwe;
                  SecurityFinding.confidence := 0.9%Q |} ]
         | None => []
         end
       else [])
    weak_crypto.

(** [_check_logging_issues]: at most one finding per line (the loop over
    the patterns ends at the first that matches). *)
Definition _check_logging_issues (source_code file_path : string)
  : list SecurityFinding.t :=
  let lines := Text.split Text.LF source_code in
  flat_map
    (fun '(line_no, line) =>
       if existsb (fun pattern => Re.search true pattern line) log_patterns then
         [ {| SecurityFinding.file_path := file_path;
              SecurityFinding.line_number := line_no;
              SecurityFinding.column := 0;
              SecurityFinding.vulnerability_type := "Sensitive Data in Logs";
              SecurityFinding.owasp_category := A09_LOGGING_FAILURES;
              SecurityFinding.severity := MEDIUM;
              SecurityFinding.description :=
                "Potential sensitive data exposure in logs";
              SecurityFinding.recommendation :=
                "Never log passwords, tokens, or PII";
              SecurityFinding.code_snippet := Text.strip line;
              SecurityFinding.cwe_id := Some "CWE-532";
              SecurityFinding.confidence := 0.7%Q |} ]
       else [])
    (enumerate1 lines).

(** The body of the line-counting loop of [_calculate_python_metrics]. *)
Definition count_line (metrics : CodeMetrics.t) (line : string) : CodeMetrics.t :=
  let stripped := Text.strip line in
  if negb (Text.nonempty stripped) then
    CodeMetrics.set_blank_lines (CodeMetrics.blank_lines metrics + 1) metrics
  else if Text.startswith "#" stripped then
    CodeMetrics.set_comment_lines (CodeMetrics.comment_lines metrics + 1) metrics
  else
    CodeMetrics.set_code_lines (CodeMetrics.code_lines metrics + 1) metrics.

(** The body of the loop over [ast.walk(tree)]. *)
Definition count_node (metrics : CodeMetrics.t) (n : node) : CodeMetrics.t :=
  match n with
  | If _ _ _ | While _ _ _ | For _ _ _ _ | ExceptHandler _ _ =>
      CodeMetrics.set_cyclomatic_complexity
        (CodeMetrics.cyclomatic_complexity metrics + 1) metrics
  | BoolOp values =>
      CodeMetrics.set_cyclomatic_complexity
        (CodeMetrics.cyclomatic_complexity metrics + (Z.of_nat (length values) - 1))
        metrics
  | _ => metrics
  end.

(** [_calculate_python_metrics] *)
Definition _calculate_python_metrics (tree : node) (source_code : string)
  : CodeMetrics.t :=
  let metrics := CodeMetrics.new in
  let lines := Text.split Text.LF source_code in
  let metrics := CodeMetrics.set_total_lines (Z.of_nat (length lines)) metrics in
  (* Count different line types *)
  let metrics := foldl count_line metrics lines in
  (* Calculate cyclomatic complexity (simplified) *)
  let metrics := foldl count_node metrics (walk tree) in
  (* Maintainability Index (simplified Microsoft formula) *)
  if 0 <? CodeMetrics.code_lines metrics then
    CodeMetrics.set_maintainability_index
      (Qmax 0
         (171 - 5.2 * (inject_Z (CodeMetrics.cyclomatic_complexity metrics)
                       / inject_Z (Z.max 1 (CodeMetrics.code_lines metrics))) * 10))%Q
      metrics
  else metrics.

(** [_analyze_javascript] *)
Definition _analyze_javascript (file_path : Path.t) (source_code : string)
  : list SecurityFinding.t * CodeMetrics.t :=
  let metrics := CodeMetrics.new in
  let lines := Text.split Text.LF source_code in
  let findings :=
    flat_map
      (fun '(line_no, line) =>
         flat_map
           (fun '(pattern, vuln_type, severity, owasp) =>
              if Re.search false pattern line then
                [ {| SecurityFinding.file_path := Path.str file_path;
                     SecurityFinding.line_number := line_no;
                     SecurityFinding.column := 0;
                     SecurityFinding.vulnerability_type := vuln_type;
                     SecurityFinding.owasp_category := owasp;
                     SecurityFinding.severity := severity;
                     SecurityFinding.description :=
                       "Potential security issue: " +:+ vuln_type;
                     SecurityFinding.recommendation :=
                       "Review and ensure secure usage";
                     SecurityFinding.code_snippet := Text.strip line;
                     SecurityFinding.cwe_id := None;
                     SecurityFinding.confidence := 1.0%Q |} ]
              else [])
           javascript_patterns)
      (enumerate1 lines) in
  (* Basic metrics *)
  let metrics := CodeMetrics.set_total_lines (Z.of_nat (length lines)) metrics in
  let metrics :=
    CodeMetrics.set_code_lines
      (Z.of_nat (length (filter
         (fun line =>
            Text.nonempty (Text.strip line)
            && negb (Text.startswith "//" (Text.strip line)) = true)
         lines)))
      metrics in
  (findings, metrics).

(** The attributes of a [CodeGuardian] object. *)
Record t : Type := {
  workspace : Path.t;
  scan_history : list ScanResult.t;
  vulnerability_database : gmap string (list SecurityFinding.t);
  metrics_cache : gmap string CodeMetrics.t;
  power_cost : Q;
  consciousness_sync : bool
}.

(** [__init__] *)
Definition init (workspace_root : Path.t) : t :=
  {| workspace := workspace_root;
     scan_history := [];
     vulnerability_database := ∅;
     metrics_cache := ∅;
     power_cost := 0.008%Q;
     consciousness_sync := true |}.

(** The two cache assignments at the end of [scan_file]. *)
Definition cache_results (cache_key : string) (findings : list SecurityFinding.t)
    (metrics : CodeMetrics.t) (self : t) : t :=
  {| workspace := workspace self;
     scan_history := scan_history self;
     vulnerability_database := <[ cache_key := findings ]> (vulnerability_database self);
     metrics_cache := <[ cache_key := metrics ]> (metrics_cache self);
     power_cost := power_cost self;
     consciousness_sync := consciousness_sync self |}.

(** [self.scan_history.append(scan_result)] *)
Definition append_history (scan_result : ScanResult.t) (self : t) : t :=
  {| workspace := workspace self;
     scan_history := scan_history self ++ [scan_result];
     vulnerability_database := vulnerability_database self;
     metrics_cache := metrics_cache self;
     power_cost := power_cost self;
     consciousness_sync := consciousness_sync self |}.

Section Host.

(** The host: the parser and the file system. *)
Variable ast_parse : parser.
Variable fs : Path.entry.

(** [_analyze_python]: a [SyntaxError] of the parser is caught (and
    logged), every other exception is passed on.  The [RecursionError] of
    the visit of a tree nested deeper than the interpreter allows, which
    the code passes on as well, is outside the model: [Ok] is what the
    analysis returns when it returns. *)
Definition _analyze_python (file_path : Path.t) (source_code : string)
  : outcome (list SecurityFinding.t * CodeMetrics.t) :=
  let findings : list SecurityFinding.t := [] in
  let metrics := CodeMetrics.new in
  match ast_parse source_code with
  | Ok tree =>
      (* Security analysis *)
      let analyzer := ASTSecurityAnalyzer.init (Path.str file_path) source_code in
      let analyzer := ASTSecurityAnalyzer.visit tree analyzer in
      let findings := ASTSecurityAnalyzer.findings analyzer in
      (* Calculate metrics *)
      let metrics := _calculate_python_metrics tree source_code in
      let metrics :=
        CodeMetrics.set_dependencies (ASTSecurityAnalyzer.imports analyzer) metrics in
      (* Additional security checks *)
      let findings :=
        findings ++ _check_hardcoded_secrets source_code (Path.str file_path) in
      let findings :=
        findings ++ _check_weak_crypto source_code (Path.str file_path) in
      let findings :=
        findings ++ _check_logging_issues source_code (Path.str file_path) in
      Ok (findings, metrics)
  | Raise SyntaxError => Ok (findings, metrics)
  | Raise e => Raise e
  end.

(** The file types that [scan_file] accepts. *)
Definition supported_suffixes : list string :=
  [".py"; ".js"; ".ts"; ".jsx"; ".tsx"].

(** [scan_file]: the result, or the exception raised, and the object
    after the call. *)
Definition scan_file (self : t) (file_path : Path.t)
  : outcome (list SecurityFinding.t * CodeMetrics.t) * t :=
  if negb (Path.exists_ fs file_path) then
    (Raise (FileNotFoundError ("File not found: " +:+ Path.str file_path)), self)
  else if negb (Text.member (Path.suffix file_path) supported_suffixes) then
    (Ok ([], CodeMetrics.new), self)
  else
    match Path.read_text fs file_path with
    | Raise e => (Raise e, self)
    | Ok source_code =>
        let result :=
          if String.eqb (Path.suffix file_path) ".py"
          then _analyze_python file_path source_code       (* Python AST analysis *)
          else Ok (_analyze_javascript file_path source_code) in
        match result with
        | Raise e => (Raise e, self)
        | Ok (findings, metrics) =>
            (* Cache results *)
            let cache_key := Path.str file_path in
            (Ok (findings, metrics), cache_results cache_key findings metrics self)
        end
    end.

(** The metric statements of the loop of [scan_directory]. *)
Definition aggregate (aggregated_metrics metrics : CodeMetrics.t) : CodeMetrics.t :=
  let aggregated_metrics :=
    CodeMetrics.set_total_lines
      (CodeMetrics.total_lines aggregated_metrics + CodeMetrics.total_lines metrics)
      aggregated_metrics in
  let aggregated_metrics :=
    CodeMetrics.set_code_lines
      (CodeMetrics.code_lines aggregated_metrics + CodeMetrics.code_lines metrics)
      aggregated_metrics in
  let aggregated_metrics :=
    CodeMetrics.set_comment_lines
      (CodeMetrics.comment_lines aggregated_metrics + CodeMetrics.comment_lines metrics)
      aggregated_metrics in
  CodeMetrics.set_dependencies
    (CodeMetrics.dependencies aggregated_metrics ∪ CodeMetrics.dependencies metrics)
    aggregated_metrics.

(** The local state of the loop of [scan_directory]. *)
Record progress : Type := {
  guardian : t;
  files_scanned : Z;
  total_findings : list SecurityFinding.t;
  aggregated_metrics : CodeMetrics.t
}.

(** The body of the loop of [scan_directory]: an exception of
    [scan_file] is caught (and logged) and the file is left out. *)
Definition scan_one (st : progress) (file_path : Path.t) : progress :=
  if Path.is_file fs file_path then
    match scan_file (guardian st) file_path with
    | (Ok (findings, metrics), self) =>
        {| guardian := self;
           files_scanned := files_scanned st + 1;
           total_findings := total_findings st ++ findings;
           aggregated_metrics := aggregate (aggregated_metrics st) metrics |}
    | (Raise _, self) =>
        {| guardian := self;
           files_scanned := files_scanned st;
           total_findings := total_findings st;
           aggregated_metrics := aggregated_metrics st |}
    end
  else st.

(** Supported file patterns *)
Definition patterns : list string := ["*.py"; "*.js"; "*.ts"; "*.jsx"; "*.tsx"].

(** The paths that the two nested loops of [scan_directory] go through. *)
Definition enumerate_files (directory : Path.t) (recursive : bool) : list Path.t :=
  let pattern := if recursive then "**/*" else "*" in
  flat_map
    (fun pattern_str =>
       Path.glob fs directory
         (if recursive then pattern +:+ "/" +:+ pattern_str else pattern_str))
    patterns.

(** The two nested loops of [scan_directory], from the initial values
    of its local variables. *)
Definition scan_loop (self : t) (directory : Path.t) (recursive : bool)
  : progress :=
  foldl scan_one
    {| guardian := self; files_scanned := 0; total_findings := [];
       aggregated_metrics := CodeMetrics.new |}
    (enumerate_files directory recursive).

(** [owasp_dist[category].append(finding)], the key being created with
    an empty list when it is missing; keys stay in insertion order. *)
Fixpoint dict_append {A} (k : string) (v : A) (d : list (string * list A))
  : list (string * list A) :=
  match d with
  | [] => [(k, [v])]
  | (k', vs) :: d' =>
      if String.eqb k k' then (k', vs ++ [v]) :: d'
      else (k', vs) :: dict_append k v d'
  end.

(** [scan_directory]; [now] is [datetime.now().isoformat()]. *)
Definition scan_directory (now : string) (self : t) (directory : Path.t)
    (recursive : bool) : outcome ScanResult.t * t :=
  if negb (Path.exists_ fs directory) then
    (Raise (FileNotFoundError ("Directory not found: " +:+ Path.str directory)), self)
  else
    let st := scan_loop self directory recursive in
    let self := guardian st in
    let total_findings := total_findings st in
    (* Calculate severity distribution *)
    let severity_dist :=
      (fun level =>
         (VulnerabilityLevel_value level,
          Z.of_nat (length (filter (fun f => SecurityFinding.severity f = level)
                                   total_findings))))
      <$> VulnerabilityLevel_members in
    (* Group by OWASP category *)
    let owasp_dist :=
      foldl
        (fun owasp_dist finding =>
           dict_append (OWASPCategory_value (SecurityFinding.owasp_category finding))
             finding owasp_dist)
        [] total_findings in
    let scan_result :=
      {| ScanResult.timestamp := now;
         ScanResult.directory := Path.str directory;
         ScanResult.files_scanned := files_scanned st;
         ScanResult.total_findings := Z.of_nat (length total_findings);
         ScanResult.severity_distribution := severity_dist;
         ScanResult.owasp_distribution :=
           (fun '(k, v) => (k, Z.of_nat (length v))) <$> owasp_dist;
         ScanResult.findings := to_dict <$> total_findings;
         ScanResult.metrics :=
           {| ScanResult.total_lines := CodeMetrics.total_lines (aggregated_metrics st);
              ScanResult.code_lines := CodeMetrics.code_lines (aggregated_metrics st);
              ScanResult.dependencies :=
                elements (CodeMetrics.dependencies (aggregated_metrics st));
              ScanResult.health_score :=
                CodeMetrics.calculate_health_score (aggregated_metrics st) |};
         ScanResult.power_consumed :=
           (power_cost self * (inject_Z (files_scanned st) / 100))%Q |} in
    (* Store in history *)
    (Ok scan_result, append_history scan_result self).

End Host.

(** The texts of [get_recommendations]; the symbol at the head of each is
    kept as the bytes of its UTF-8 encoding. *)
Definition rec_urgent : string :=
  "🔴 URGENT: Address all CRITICAL vulnerabilities immediately".
Definition rec_high_priority : string :=
  "🟠 HIGH PRIORITY: Fix HIGH severity issues within 24 hours".
Definition rec_parameterized_queries : string :=
  "📝 Implement parameterized queries for all database operations".
Definition rec_access_control : string :=
  "🔐 Review and strengthen access control mechanisms".
Definition rec_strong_crypto : string :=
  "🔒 Upgrade to strong cryptographic algorithms (AES-256, SHA-256)".
Definition rec_improve_quality : string :=
  "📊 Improve code quality - current health score below 70".
Definition rec_review_dependencies : string :=
  "📦 Review dependencies - consider reducing external packages".
Definition rec_no_issues : string :=
  "✅ No critical issues detected. Maintain vigilance.".
Definition rec_initial_scan : string := "Perform initial security scan".

(** [d.get(key, 0)] *)
Definition dict_get0 (key : string) (d : list (string * Z)) : Z :=
  default 0 (Text.assoc key d).

(** [get_recommendations] *)
Definition get_recommendations (self : t) : list string :=
  match last (scan_history self) with
  | None => [rec_initial_scan]
  | Some latest =>
      let recommendations : list string := [] in
      (* Critical issues first *)
      let recommendations :=
        if 0 <? dict_get0 "critical" (ScanResult.severity_distribution latest)
        then recommendations ++ [rec_urgent] else recommendations in
      let recommendations :=
        if 0 <? dict_get0 "high" (ScanResult.severity_distribution latest)
        then recommendations ++ [rec_high_priority] else recommendations in
      (* OWASP-specific recommendations *)
      let owasp_dist := ScanResult.owasp_distribution latest in
      let recommendations :=
        if 0 <? dict_get0 "Injection" owasp_dist
        then recommendations ++ [rec_parameterized_queries] else recommendations in
      let recommendations :=
        if 0 <? dict_get0 "Broken Access Control" owasp_dist
        then recommendations ++ [rec_access_control] else recommendations in
      let recommendations :=
        if 0 <? dict_get0 "Cryptographic Failures" owasp_dist
        then recommendations ++ [rec_strong_crypto] else recommendations in
      (* General recommendations *)
      let recommendations :=
        if Qlt_le_dec (ScanResult.health_score (ScanResult.metrics latest)) 70
        then recommendations ++ [rec_improve_quality] else recommendations in
      let recommendations :=
        if (50 <? length (ScanResult.dependencies (ScanResult.metrics latest)))%nat
        then recommendations ++ [rec_review_dependencies] else recommendations in
      match recommendations with
      | [] => [rec_no_issues]
      | _ :: _ => recommendations
      end
  end.

End CodeGuardian.

(** ** What the specification says, in its own words *)

Module Spec.

(** Maintainability index = max(0, 171 - 52 * (complexity / max(1, code_lines))) *)
Definition maintainability_index (complexity code_lines : Z) : Q :=
  Qmax 0 (171 - 52 * (inject_Z complexity / inject_Z (Z.max 1 code_lines)))%Q.

(** The Textual-Analyzer-only results for a file: hardcoded secrets,
    weak-crypto names and sensitive data in logs, on the raw text. *)
Definition textual_findings (source_code file_path : string)
  : list SecurityFinding.t :=
  CodeGuardian._check_hardcoded_secrets source_code file_path
  ++ CodeGuardian._check_weak_crypto source_code file_path
  ++ CodeGuardian._check_logging_issues source_code file_path.

(** [sum(d.values())] *)
Definition sum_values (d : list (string * Z)) : Z := foldr Z.add 0 (snd <$> d).

End Spec.

(** What a statement needs of a finding: line, type, severity, category,
    CWE identifier. *)
Definition brief (f : SecurityFinding.t)
  : Z * string * VulnerabilityLevel * OWASPCategory * option string :=
  (SecurityFinding.line_number f, SecurityFinding.vulnerability_type f,
   SecurityFinding.severity f, SecurityFinding.owasp_category f,
   SecurityFinding.cwe_id f).

(** The findings of a call of [scan_file], in brief. *)
Definition scan_brief (r : outcome (list SecurityFinding.t * CodeMetrics.t) * CodeGuardian.t)
  : outcome (list (Z * string * VulnerabilityLevel * OWASPCategory * option string)) :=
  match fst r with
  | Ok (findings, _) => Ok (brief <$> findings)
  | Raise e => Raise e
  end.

(** The code snippets of the findings of a call of [scan_file]. *)
Definition scan_snippets (r : outcome (list SecurityFinding.t * CodeMetrics.t) * CodeGuardian.t)
  : outcome (list string) :=
  match fst r with
  | Ok (findings, _) => Ok (SecurityFinding.code_snippet <$> findings)
  | Raise e => Raise e
  end.

(** The metrics of a call of [scan_file]. *)
Definition scan_metrics (r : outcome (list SecurityFinding.t * CodeMetrics.t) * CodeGuardian.t)
  : option CodeMetrics.t :=
  match fst r with
  | Ok (_, metrics) => Some metrics
  | Raise _ => None
  end.

(** ** The files of the test suite ([tests/test_M2_code_guardian.py]) and
    a few more, with the trees that [ast.parse] gives for them *)

Module Files.

Definition quoted (s : string) : string :=
  Text.chr Text.DQ +:+ s +:+ Text.chr Text.DQ.

Definition text (lines : list string) : string :=
  Text.join (Text.chr Text.LF) lines.

(** [test_sql_injection_detection]: [vulnerable.py] *)
Definition vulnerable_py : string :=
  text [ "";
         "def get_user(user_id):";
         "    query = f" +:+ quoted "SELECT * FROM users WHERE id = {user_id}"
           +:+ "  # SQL Injection!";
         "    cursor.execute(query)";
         "    return cursor.fetchone()";
         "" ].

Definition vulnerable_py_tree : node :=
  Other (* Module *)
    [ Other (* FunctionDef get_user *)
        [ Other (* arguments *) [ Other (* arg user_id *) [] ];
          Other (* Assign *)
            [ Name "query";
              JoinedStr 3
                [ Constant (CStr "SELECT * FROM users WHERE id = ");
                  FormattedValue (Name "user_id") None ] ];
          Other (* Expr *)
            [ Call 4 4 (Attribute (Name "cursor") "execute") [Name "query"] [] ];
          Other (* Return *)
            [ Call 5 11 (Attribute (Name "cursor") "fetchone") [] [] ] ] ].

(** [test_hardcoded_secret_detection]: [secrets.py] *)
Definition secrets_py : string :=
  text [ "";
         "API_KEY = " +:+ quoted "sk-1234567890abcdef";
         "PASSWORD = " +:+ quoted "admin123";
         "SECRET_KEY = " +:+ quoted "super_secret_key_123";
         "" ].

Definition secrets_py_tree : node :=
  Other (* Module *)
    [ Other (* Assign *) [ Name "API_KEY"; Constant (CStr "sk-1234567890abcdef") ];
      Other (* Assign *) [ Name "PASSWORD"; Constant (CStr "admin123") ];
      Other (* Assign *) [ Name "SECRET_KEY"; Constant (CStr "super_secret_key_123") ] ].

(** [test_weak_crypto_detection]: [crypto.py] *)
Definition crypto_py : string :=
  text [ "";
         "import hashlib";
         "";
         "def hash_password(password):";
         "    return hashlib.md5(password.encode()).hexdigest()  # Weak!";
         "";
         "def encrypt_data(data):";
         "    # Using SHA1 - also weak";
         "    return hashlib.sha1(data.encode()).hexdigest()";
         "" ].

Definition crypto_py_tree : node :=
  Other (* Module *)
    [ Import 2 ["hashlib"];
      Other (* FunctionDef hash_password *)
        [ Other (* arguments *) [ Other (* arg password *) [] ];
          Other (* Return *)
            [ Call 5 11
                (Attribute
                   (Call 5 11 (Attribute (Name "hashlib") "md5")
                      [ Call 5 23 (Attribute (Name "password") "encode") [] [] ] [])
                   "hexdigest")
                [] [] ] ];
      Other (* FunctionDef encrypt_data *)
        [ Other (* arguments *) [ Other (* arg data *) [] ];
          Other (* Return *)
            [ Call 9 11
                (Attribute
                   (Call 9 11 (Attribute (Name "hashlib") "sha1")
                      [ Call 9 24 (Attribute (Name "data") "encode") [] [] ] [])
                   "hexdigest")
                [] [] ] ] ].

(** The two calls of the weak-crypto scenario alone, one per line. *)
Definition hashes_py : string :=
  text [ "hashlib.md5(data)"; "hashlib.sha1(data)" ].

Definition hashes_py_tree : node :=
  Other (* Module *)
    [ Other (* Expr *) [ Call 1 0 (Attribute (Name "hashlib") "md5") [Name "data"] [] ];
      Other (* Expr *) [ Call 2 0 (Attribute (Name "hashlib") "sha1") [Name "data"] [] ] ].

(** [test_power_consumption]: [file0.py] ... [file4.py] *)
Definition file_py (i : Z) : string :=
  text [ "# Test file " +:+ pretty i; "print('hello')" ].

Definition file_py_tree : node :=
  Other (* Module *)
    [ Other (* Expr *) [ Call 2 0 (Name "print") [Constant (CStr "hello")] [] ] ].

(** A secret above a line that is not Python. *)
Definition broken_py : string :=
  text [ "API_KEY = " +:+ quoted "sk-1234567890abcdef"; "def broken(:" ].

(** An empty file. *)
Definition empty_py : string := "".

Definition empty_py_tree : node := Other (* Module *) [].

(** One branch, and a line feed at the end of the file. *)
Definition branch_py : string := text [ "if x:"; "    pass"; "" ].

Definition branch_py_tree : node :=
  Other (* Module *) [ If (Name "x") [ Other (* Pass *) [] ] [] ].

(** A script with a line feed at its end. *)
Definition app_js : string := text [ "eval(input);"; "" ].

(** [ast.parse] on the sources above. *)
Definition sources : list (string * outcome node) :=
  [ (vulnerable_py, Ok vulnerable_py_tree);
    (secrets_py, Ok secrets_py_tree);
    (crypto_py, Ok crypto_py_tree);
    (hashes_py, Ok hashes_py_tree);
    (file_py 0, Ok file_py_tree);
    (file_py 1, Ok file_py_tree);
    (file_py 2, Ok file_py_tree);
    (file_py 3, Ok file_py_tree);
    (file_py 4, Ok file_py_tree);
    (broken_py, Raise SyntaxError);
    (empty_py, Ok empty_py_tree);
    (branch_py, Ok branch_py_tree) ].

Definition ast_parse : parser :=
  fun source => default (Raise SyntaxError) (Text.assoc source sources).

(** The temporary directory of a test, with the given entries. *)
Definition test_dir (entries : list (string * Path.entry)) : Path.entry :=
  Path.Dir [ ("tmp", Path.Dir entries) ].

Definition file (source : string) : Path.entry := Path.File (Ok source).

(** A fresh [CodeGuardian()]. *)
Definition guardian : CodeGuardian.t := CodeGuardian.init ["G:"; "Command-Center"].

Definition five_files : list (string * Path.entry) :=
  [ ("file0.py", file (file_py 0)); ("file1.py", file (file_py 1));
    ("file2.py", file (file_py 2)); ("file3.py", file (file_py 3));
    ("file4.py", file (file_py 4)) ].

End Files.

(** ** Notions used in the statements *)

(** The fields that the loop of [scan_directory] never assigns. *)
Definition untouched (m : CodeMetrics.t) : Prop :=
  CodeMetrics.blank_lines m = 0
  /\ CodeMetrics.cyclomatic_complexity m = 0
  /\ CodeMetrics.maintainability_index m = 0%Q
  /\ CodeMetrics.technical_debt_hours m = 0%Q
  /\ CodeMetrics.test_coverage m = 0%Q.

(** The number of files scanned and of findings in the result of a call of
    [scan_directory]. *)
Definition scan_counts (r : outcome ScanResult.t * CodeGuardian.t) : outcome (Z * Z) :=
  match fst r with
  | Ok result => Ok (ScanResult.files_scanned result, ScanResult.total_findings result)
  | Raise e => Raise e
  end.

(** The lines that [count_line] has put into one of its three classes. *)
Definition classified (m : CodeMetrics.t) : Z :=
  CodeMetrics.code_lines m + CodeMetrics.comment_lines m + CodeMetrics.blank_lines m.

(** The metrics before the last statement of [_calculate_python_metrics]. *)
Definition counted (tree : node) (source_code : string) : CodeMetrics.t :=
  let lines := Text.split Text.LF source_code in
  foldl CodeGuardian.count_node
    (foldl CodeGuardian.count_line
       (CodeMetrics.set_total_lines (Z.of_nat (length lines)) CodeMetrics.new) lines)
    (walk tree).


(** The maintainability index in binary64, for counts below 2^53 (which
    [float] holds exactly, and for which the division of two [int]s is the
    division of their [float]s): the expression of
    [_calculate_python_metrics], in its order, and the formula of the
    specification. *)
Module Binary64.
Import PrimFloat.
Local Open Scope float_scope.

(** [float(z)] *)
Definition of_int (z : Z) : float :=
  match z with
  | Z0 => 0
  | Zpos _ => of_uint63 (Uint63.of_Z z)
  | Zneg n => - of_uint63 (Uint63.of_Z (Zpos n))
  end.

(** [max(0, x)] *)
Definition max0 (x : float) : float := if 0 <? x then x else 0.

(** [max(0, 171 - 5.2 * (complexity / max(1, code_lines)) * 10)] *)
Definition maintainability_index (complexity code_lines : Z) : float :=
  max0 (171 - 5.2 * (of_int complexity / of_int (Z.max 1 code_lines)) * 10).

(** max(0, 171 - 52 * (complexity / max(1, code_lines))) *)
Definition spec_maintainability_index (complexity code_lines : Z) : float :=
  max0 (171 - 52 * (of_int complexity / of_int (Z.max 1 code_lines))).

End Binary64.

(** A finding of the file [fp] with a confidence between 0 and 1. *)
Definition well_formed (fp : string) (f : SecurityFinding.t) : Prop :=
  SecurityFinding.file_path f = fp
  /\ (0 <= SecurityFinding.confidence f)%Q /\ (SecurityFinding.confidence f <= 1)%Q.

(** [self'] is [self] after more of the visit: the same file, the findings
    of [self] followed by well-formed ones, no import lost. *)
Definition extends (self self' : ASTSecurityAnalyzer.t) : Prop :=
  ASTSecurityAnalyzer.file_path self' = ASTSecurityAnalyzer.file_path self
  /\ ASTSecurityAnalyzer.source_lines self' = ASTSecurityAnalyzer.source_lines self
  /\ (exists added,
        ASTSecurityAnalyzer.findings self' = ASTSecurityAnalyzer.findings self ++ added
        /\ Forall (well_formed (ASTSecurityAnalyzer.file_path self)) added)
  /\ ASTSecurityAnalyzer.imports self ⊆ ASTSecurityAnalyzer.imports self'.

(** The step [f] of a visit goes through the visit of the node [n]: from
    every analyzer, [f] first extends it to some analyzer, visits [n] from
    there, and extends the result. *)
Definition reaches (n : node) (f : ASTSecurityAnalyzer.t -> ASTSecurityAnalyzer.t) : Prop :=
  forall self, exists self1,
    extends self self1 /\ extends (ASTSecurityAnalyzer.visit n self1) (f self).

(** The first argument of a query is built by [%] formatting or is an
    f-string. *)
Definition formatted_query (arg : node) : bool :=
  match arg with
  | BinOp _ _ Mod _ => true
  | JoinedStr _ _ => true
  | _ => false
  end.

(** The modules that an import statement names. *)
Definition imported_modules (n : node) : list string :=
  match n with
  | Import _ names => names
  | ImportFrom _ (Some module) _ => if Text.nonempty module then [module] else []
  | _ => []
  end.

(** A few more files, with the trees that [ast.parse] gives for them. *)
Module Samples.

Definition eval_py : string := "eval(user_input)".

Definition eval_py_tree : node :=
  Other (* Module *)
    [ Other (* Expr *) [ Call 1 0 (Name "eval") [Name "user_input"] [] ] ].

Definition query_py : string :=
  "cursor.execute(f" +:+ Files.quoted "SELECT * FROM t WHERE id = {uid}" +:+ ")".

Definition query_py_tree : node :=
  Other (* Module *)
    [ Other (* Expr *)
        [ Call 1 0 (Attribute (Name "cursor") "execute")
            [ JoinedStr 1
                [ Constant (CStr "SELECT * FROM t WHERE id = ");
                  FormattedValue (Name "uid") None ] ]
            [] ] ].

Definition pickle_py : string := Files.text [ "import os, pickle"; "from yaml import load" ].

Definition pickle_py_tree : node :=
  Other (* Module *)
    [ Import 1 ["os"; "pickle"]; ImportFrom 2 (Some "yaml") ["load"] ].

Definition open_py : string := "open(filename)".

Definition open_py_tree : node :=
  Other (* Module *)
    [ Other (* Expr *) [ Call 1 0 (Name "open") [Name "filename"] [] ] ].

Definition sources : list (string * outcome node) :=
  [ (eval_py, Ok eval_py_tree);
    (query_py, Ok query_py_tree);
    (pickle_py, Ok pickle_py_tree);
    (open_py, Ok open_py_tree) ].

Definition ast_parse : parser :=
  fun source => default (Raise SyntaxError) (Text.assoc source sources).

End Samples.

(** A string without a line feed. *)
Fixpoint single_line (s : string) : bool :=
  match s with
  | EmptyString => true
  | String c s' => negb (Ascii.eqb c Text.LF) && single_line s'
  end.

(** What the check for weak cryptography makes for one algorithm. *)
Definition weak_crypto_of (source_code file_path algo cwe : string)
  : list SecurityFinding.t :=
  if Text.contains algo source_code then
    match List.find (fun '(_, line) => Text.contains algo line)
            (CodeGuardian.enumerate1 (Text.split Text.LF source_code)) with
    | Some (line_no, line) =>
        [ {| SecurityFinding.file_path := file_path;
             SecurityFinding.line_number := line_no;
             SecurityFinding.column := 0;
             SecurityFinding.vulnerability_type := "Weak Cryptography";
             SecurityFinding.owasp_category := A02_CRYPTOGRAPHIC_FAILURES;
             SecurityFinding.severity := MEDIUM;
             SecurityFinding.description :=
               "Use of weak cryptographic algorithm: " +:+ algo;
             SecurityFinding.recommendation :=
               "Use stronger algorithms (SHA-256, AES, etc.)";
             SecurityFinding.code_snippet := Text.strip line;
             SecurityFinding.cwe_id := Some cwe;
             SecurityFinding.confidence := 0.9%Q |} ]
    | None => []
    end
  else [].

(** The results of the scans of the files among [files] that [scan_file]
    scans without raising, in order.  (What [scan_file] returns does not
    depend on the object that scans.) *)
Definition successful_scans (ast_parse : parser) (fs : Path.entry) (files : list Path.t)
  : list (list SecurityFinding.t * CodeMetrics.t) :=
  omap
    (fun file_path =>
       if Path.is_file fs file_path then
         match fst (CodeGuardian.scan_file ast_parse fs (CodeGuardian.init []) file_path) with
         | Ok scanned => Some scanned
         | Raise _ => None
         end
       else None)
    files.

(** The sum of a list of integers. *)
Definition Zsum (l : list Z) : Z := foldr Z.add 0 l.

(** The number of line feeds of a text. *)
Fixpoint line_feeds (s : string) : nat :=
  match s with
  | EmptyString => 0
  | String c s' => (if Ascii.eqb c Text.LF then 1 else 0) + line_feeds s'
  end.

(** A recommendation that is made when its condition holds. *)
Definition optional (condition : bool) (recommendation : string) : list string :=
  if condition then [recommendation] else [].

(** The recommendations whose rules fire on a scan result, in the order of
    the rules. *)
Definition fired (latest : ScanResult.t) : list string :=
  optional (0 <? CodeGuardian.dict_get0 "critical" (ScanResult.severity_distribution latest))
    CodeGuardian.rec_urgent
  ++ optional (0 <? CodeGuardian.dict_get0 "high" (ScanResult.severity_distribution latest))
       CodeGuardian.rec_high_priority
  ++ optional (0 <? CodeGuardian.dict_get0 "Injection" (ScanResult.owasp_distribution latest))
       CodeGuardian.rec_parameterized_queries
  ++ optional (0 <? CodeGuardian.dict_get0 "Broken Access Control"
                      (ScanResult.owasp_distribution latest))
       CodeGuardian.rec_access_control
  ++ optional (0 <? CodeGuardian.dict_get0 "Cryptographic Failures"
                      (ScanResult.owasp_distribution latest))
       CodeGuardian.rec_strong_crypto
  ++ optional (if Qlt_le_dec (ScanResult.health_score (ScanResult.metrics latest)) 70
               then true else false)
       CodeGuardian.rec_improve_quality
  ++ optional (50 <? length (ScanResult.dependencies (ScanResult.metrics latest)))%nat
       CodeGuardian.rec_review_dependencies.

(** The seven recommendations of the rules, in the order of the rules. *)
Definition rule_recommendations : list string :=
  [ CodeGuardian.rec_urgent; CodeGuardian.rec_high_priority;
    CodeGuardian.rec_parameterized_queries; CodeGuardian.rec_access_control;
    CodeGuardian.rec_strong_crypto; CodeGuardian.rec_improve_quality;
    CodeGuardian.rec_review_dependencies ].

(** No character of [s] is [c]. *)
Fixpoint without (c : ascii) (s : string) : bool :=
  match s with
  | EmptyString => true
  | String a s' => negb (Ascii.eqb a c) && without c s'
  end.

(** * Properties *)

(** ** Findings of single files *)

(** C1 (the code departs from the claim).  A query that is built as an
    f-string, stored in a variable and then passed to [execute] is not
    reported as SQL injection: [_check_sql_injection] looks at the shape of
    the first argument only, and a variable adds no finding whatever the
    call.  On [vulnerable.py] of [test_sql_injection_detection] the scan
    returns one finding, which is the LOW "Format String Injection"
    (CWE-134) of the f-string on line 3, where the test and the claim expect
    a CRITICAL "SQL Injection" (CWE-89). *)
Theorem sql_injection_through_variable_not_reported :
  (forall lineno col_offset id args self,
     ASTSecurityAnalyzer._check_sql_injection lineno col_offset (Name id :: args) self
     = self)
  /\ scan_brief
       (CodeGuardian.scan_file Files.ast_parse
          (Files.test_dir [("vulnerable.py", Files.file Files.vulnerable_py)])
          Files.guardian ["tmp"; "vulnerable.py"])
     = Ok [(3, "Format String Injection", LOW, A03_INJECTION, Some "CWE-134")].
Proof.
  split.
  - intros. reflexivity.
  - vm_compute. reflexivity.
Qed.

(** C9 (the code departs from the claim).  On [secrets.py] of
    [test_hardcoded_secret_detection] the scan reports the line of
    [API_KEY] as a HIGH "Hardcoded Secret" with CWE-798, as claimed, but the
    snippet is the first 50 characters of the stripped line followed by
    three dots: the line has 31 characters, so the snippet holds the whole
    secret value. *)
Theorem hardcoded_secret_snippet_keeps_secret :
  let r :=
    CodeGuardian.scan_file Files.ast_parse
      (Files.test_dir [("secrets.py", Files.file Files.secrets_py)])
      Files.guardian ["tmp"; "secrets.py"] in
  let snippet := "API_KEY = " +:+ Files.quoted "sk-1234567890abcdef" +:+ "..." in
  scan_brief r
  = Ok [ (2, "Hardcoded Secret", HIGH, A02_CRYPTOGRAPHIC_FAILURES, Some "CWE-798");
         (3, "Hardcoded Secret", HIGH, A02_CRYPTOGRAPHIC_FAILURES, Some "CWE-798");
         (4, "Hardcoded Secret", HIGH, A02_CRYPTOGRAPHIC_FAILURES, Some "CWE-798") ]
  /\ scan_snippets r
     = Ok [ snippet;
            "PASSWORD = " +:+ Files.quoted "admin123" +:+ "...";
            "SECRET_KEY = " +:+ Files.quoted "super_secret_key_123" +:+ "..." ]
  /\ Text.contains "sk-1234567890abcdef" snippet = true.
Proof.
  cbv zeta. repeat split; vm_compute; reflexivity.
Qed.

(** C3 (the code departs from the claim).  The weak-crypto check looks for
    the upper-case names MD5, SHA1, DES and RC4, case-sensitively, and keeps
    one line per name.  On [crypto.py] of [test_weak_crypto_detection] the
    only finding is on line 8, the comment that spells SHA1 in capitals;
    neither the call of [hashlib.md5] on line 5 nor that of [hashlib.sha1]
    on line 9 is reported.  A file with these two calls alone has no finding
    at all. *)
Theorem weak_crypto_lowercase_not_reported :
  scan_brief
    (CodeGuardian.scan_file Files.ast_parse
       (Files.test_dir [("crypto.py", Files.file Files.crypto_py)])
       Files.guardian ["tmp"; "crypto.py"])
  = Ok [(8, "Weak Cryptography", MEDIUM, A02_CRYPTOGRAPHIC_FAILURES, Some "CWE-327")]
  /\ scan_brief
       (CodeGuardian.scan_file Files.ast_parse
          (Files.test_dir [("hashes.py", Files.file Files.hashes_py)])
          Files.guardian ["tmp"; "hashes.py"])
     = Ok [].
Proof.
  split; vm_compute; reflexivity.
Qed.

(** ** Errors of the single-file scan *)

Lemma is_file_exists fs p : Path.is_file fs p = true -> Path.exists_ fs p = true.
Proof.
  unfold Path.is_file, Path.exists_.
  destruct (Path.lookup fs p) as [[c|es]|]; congruence.
Qed.

Lemma read_text_exists fs p source_code :
  Path.read_text fs p = Ok source_code -> Path.exists_ fs p = true.
Proof.
  unfold Path.read_text, Path.exists_.
  destruct (Path.lookup fs p) as [[c|es]|]; congruence.
Qed.

(** C10.  [scan_file] on a path that does not exist raises
    [FileNotFoundError] and leaves the object as it was; on an existing file
    whose suffix is not one of the five supported ones it returns the empty
    list of findings and [CodeMetrics()], without raising. *)
Theorem scan_file_missing_or_unsupported
    (ast_parse : parser) (fs : Path.entry) (self : CodeGuardian.t) (p : Path.t) :
  (Path.exists_ fs p = false ->
   CodeGuardian.scan_file ast_parse fs self p
   = (Raise (FileNotFoundError ("File not found: " +:+ Path.str p)), self))
  /\ (Path.is_file fs p = true ->
      Text.member (Path.suffix p) CodeGuardian.supported_suffixes = false ->
      CodeGuardian.scan_file ast_parse fs self p = (Ok ([], CodeMetrics.new), self)).
Proof.
  split.
  - intros Hmissing. unfold CodeGuardian.scan_file. now rewrite Hmissing.
  - intros Hfile Hsuffix. unfold CodeGuardian.scan_file.
    rewrite (is_file_exists _ _ Hfile), Hsuffix. reflexivity.
Qed.

Lemma scan_file_missing_or_unsupported_witness :
  CodeGuardian.scan_file Files.ast_parse
    (Files.test_dir [("notes.txt", Files.file "API_KEY = 'abc'")])
    Files.guardian ["tmp"; "absent.py"]
  = (Raise (FileNotFoundError "File not found: tmp/absent.py"), Files.guardian)
  /\ CodeGuardian.scan_file Files.ast_parse
       (Files.test_dir [("notes.txt", Files.file "API_KEY = 'abc'")])
       Files.guardian ["tmp"; "notes.txt"]
     = (Ok ([], CodeMetrics.new), Files.guardian).
Proof.
  split.
  - apply (proj1 (scan_file_missing_or_unsupported _ _ _ ["tmp"; "absent.py"])).
    reflexivity.
  - apply (proj2 (scan_file_missing_or_unsupported _ _ _ ["tmp"; "notes.txt"]));
      reflexivity.
Defined.

(** C2 (as the code has it).  When [ast.parse] raises [SyntaxError] on the
    text of a [.py] file, [scan_file] returns the empty list of findings and
    [CodeMetrics()]: the three textual checks are inside the [try] block,
    after the parse, and are not applied. *)
Theorem scan_file_syntax_error_is_empty
    (ast_parse : parser) (fs : Path.entry) (self : CodeGuardian.t) (p : Path.t)
    (source_code : string) :
  Path.suffix p = ".py" ->
  Path.read_text fs p = Ok source_code ->
  ast_parse source_code = Raise SyntaxError ->
  CodeGuardian.scan_file ast_parse fs self p
  = (Ok ([], CodeMetrics.new),
     CodeGuardian.cache_results (Path.str p) [] CodeMetrics.new self).
Proof.
  intros Hsuffix Hread Hparse. unfold CodeGuardian.scan_file.
  rewrite (read_text_exists _ _ _ Hread), Hsuffix, Hread. simpl.
  unfold CodeGuardian._analyze_python. rewrite Hparse. reflexivity.
Qed.

Lemma scan_file_syntax_error_is_empty_witness :
  CodeGuardian.scan_file Files.ast_parse
    (Files.test_dir [("broken.py", Files.file Files.broken_py)])
    Files.guardian ["tmp"; "broken.py"]
  = (Ok ([], CodeMetrics.new),
     CodeGuardian.cache_results "tmp/broken.py" [] CodeMetrics.new Files.guardian).
Proof.
  apply (scan_file_syntax_error_is_empty _ _ _ ["tmp"; "broken.py"] Files.broken_py);
    reflexivity.
Defined.

(** C2, the claim as stated fails: [broken.py] does not parse, its first
    line is a hardcoded secret that the textual checks report, and the scan
    of the file returns no finding. *)
Lemma syntax_error_textual_fallback_counterexample :
  Files.ast_parse Files.broken_py = Raise SyntaxError
  /\ brief <$> Spec.textual_findings Files.broken_py "tmp/broken.py"
     = [(1, "Hardcoded Secret", HIGH, A02_CRYPTOGRAPHIC_FAILURES, Some "CWE-798")]
  /\ scan_brief
       (CodeGuardian.scan_file Files.ast_parse
          (Files.test_dir [("broken.py", Files.file Files.broken_py)])
          Files.guardian ["tmp"; "broken.py"])
     = Ok [].
Proof.
  repeat split; vm_compute; reflexivity.
Qed.

(** ** The directory scan *)

(** Every finding has one of the five severities, so the five counts add
    up to the number of findings. *)
Lemma severity_counts_total (l : list SecurityFinding.t) :
  Spec.sum_values
    ((fun level =>
        (VulnerabilityLevel_value level,
         Z.of_nat (length (filter (fun f => SecurityFinding.severity f = level) l))))
     <$> VulnerabilityLevel_members)
  = Z.of_nat (length l).
Proof.
  unfold Spec.sum_values, VulnerabilityLevel_members. cbn [fmap list_fmap foldr snd].
  induction l as [|f l IH]; [reflexivity|].
  rewrite !filter_cons.
  destruct (SecurityFinding.severity f);
    repeat case_decide; try congruence; cbn [length]; lia.
Qed.

(** C8.  In every result of [scan_directory] the values of
    [severity_distribution] add up to [total_findings], which is the length
    of the list [findings]. *)
Theorem severity_distribution_totals
    (ast_parse : parser) (fs : Path.entry) (now : string) (self self' : CodeGuardian.t)
    (directory : Path.t) (recursive : bool) (r : ScanResult.t) :
  CodeGuardian.scan_directory ast_parse fs now self directory recursive = (Ok r, self') ->
  Spec.sum_values (ScanResult.severity_distribution r) = ScanResult.total_findings r
  /\ ScanResult.total_findings r = Z.of_nat (length (ScanResult.findings r)).
Proof.
  unfold CodeGuardian.scan_directory.
  destruct (negb (Path.exists_ fs directory)); [discriminate|].
  intros Hscan. injection Hscan as <- _.
  cbn [ScanResult.severity_distribution ScanResult.total_findings ScanResult.findings].
  split.
  - apply severity_counts_total.
  - now rewrite length_fmap.
Qed.

Lemma severity_distribution_totals_witness :
  let r :=
    {| ScanResult.timestamp := "2024-01-01T00:00:00";
       ScanResult.directory := "tmp";
       ScanResult.files_scanned := 1;
       ScanResult.total_findings := 1;
       ScanResult.severity_distribution :=
         [("critical", 0); ("high", 0); ("medium", 1); ("low", 0); ("info", 0)];
       ScanResult.owasp_distribution := [("Cryptographic Failures", 1)];
       ScanResult.findings :=
         [ {| FindingDict.file_path := "tmp/pkg/crypto.py";
              FindingDict.location := "L8:C0";
              FindingDict.type := "Weak Cryptography";
              FindingDict.owasp := "Cryptographic Failures";
              FindingDict.severity := "medium";
              FindingDict.description := "Use of weak cryptographic algorithm: SHA1";
              FindingDict.recommendation := "Use stronger algorithms (SHA-256, AES, etc.)";
              FindingDict.snippet := "# Using SHA1 - also weak";
              FindingDict.cwe := Some "CWE-327";
              FindingDict.confidence := 0.9%Q |} ];
       ScanResult.metrics :=
         {| ScanResult.total_lines := 10;
            ScanResult.code_lines := 5;
            ScanResult.dependencies := ["hashlib"];
            ScanResult.health_score := CodeMetrics.calculate_health_score CodeMetrics.new |};
       ScanResult.power_consumed := (0.008 * (1 / 100))%Q |} in
  Spec.sum_values (ScanResult.severity_distribution r) = ScanResult.total_findings r
  /\ ScanResult.total_findings r = Z.of_nat (length (ScanResult.findings r)).
Proof.
  intros r.
  apply (severity_distribution_totals Files.ast_parse
           (Files.test_dir [("pkg", Path.Dir [("crypto.py", Files.file Files.crypto_py)])])
           "2024-01-01T00:00:00" Files.guardian
           (CodeGuardian.append_history r
              (CodeGuardian.cache_results "tmp/pkg/crypto.py"
                 (ASTSecurityAnalyzer.findings
                    (ASTSecurityAnalyzer.init "tmp/pkg/crypto.py" Files.crypto_py)
                  ++ Spec.textual_findings Files.crypto_py "tmp/pkg/crypto.py")
                 (CodeMetrics.set_dependencies {[ "hashlib" ]}
                    (CodeGuardian._calculate_python_metrics Files.crypto_py_tree
                       Files.crypto_py))
                 Files.guardian))
           ["tmp"] true r).
  vm_compute. reflexivity.
Defined.

Lemma scan_one_untouched ast_parse fs st file_path :
  untouched (CodeGuardian.aggregated_metrics st) ->
  untouched (CodeGuardian.aggregated_metrics (CodeGuardian.scan_one ast_parse fs st file_path)).
Proof.
  intros Hst. unfold CodeGuardian.scan_one.
  destruct (Path.is_file fs file_path); [|exact Hst].
  destruct (CodeGuardian.scan_file ast_parse fs (CodeGuardian.guardian st) file_path)
    as [[[findings metrics]|e] self']; exact Hst.
Qed.

Lemma scan_files_untouched ast_parse fs files st :
  untouched (CodeGuardian.aggregated_metrics st) ->
  untouched (CodeGuardian.aggregated_metrics (foldl (CodeGuardian.scan_one ast_parse fs) st files)).
Proof.
  revert st. induction files as [|file_path files IH]; intros st Hst; [exact Hst|].
  cbn [foldl]. apply IH, scan_one_untouched, Hst.
Qed.

Lemma untouched_health_score m :
  untouched m -> (CodeMetrics.calculate_health_score m == 45)%Q.
Proof.
  destruct m; unfold untouched; cbn. intros (-> & -> & -> & -> & ->).
  vm_compute. reflexivity.
Qed.

(** C6 (the code departs from the claim).  The loop of [scan_directory]
    adds up [total_lines], [code_lines] and [comment_lines] and unites the
    dependencies, and nothing else: whatever is scanned, the aggregate has
    zero blank lines and zero cyclomatic complexity, and its health score is
    the score of these defaults, 45.  With [branch.py] (one blank line, one
    branch, health score 74.4) as the only file, the aggregate counts its 3
    lines and 2 code lines, but neither its blank line nor its branch. *)
Theorem aggregate_omits_blank_lines_and_complexity :
  (forall ast_parse fs self directory recursive,
     let aggregated :=
       CodeGuardian.aggregated_metrics
         (CodeGuardian.scan_loop ast_parse fs self directory recursive) in
     CodeMetrics.blank_lines aggregated = 0
     /\ CodeMetrics.cyclomatic_complexity aggregated = 0
     /\ (CodeMetrics.calculate_health_score aggregated == 45)%Q)
  /\ (let fs :=
        Files.test_dir [("pkg", Path.Dir [("branch.py", Files.file Files.branch_py)])] in
      let st := CodeGuardian.scan_loop Files.ast_parse fs Files.guardian ["tmp"] true in
      exists metrics,
        scan_metrics
          (CodeGuardian.scan_file Files.ast_parse fs Files.guardian
             ["tmp"; "pkg"; "branch.py"]) = Some metrics
        /\ CodeMetrics.blank_lines metrics = 1
        /\ CodeMetrics.cyclomatic_complexity metrics = 1
        /\ (CodeMetrics.calculate_health_score metrics == 74.4)%Q
        /\ CodeGuardian.files_scanned st = 1
        /\ CodeMetrics.total_lines (CodeGuardian.aggregated_metrics st) = 3
        /\ CodeMetrics.code_lines (CodeGuardian.aggregated_metrics st) = 2).
Proof.
  split.
  - intros ast_parse fs self directory recursive aggregated.
    assert (Hkept : untouched aggregated).
    { apply scan_files_untouched. repeat split; reflexivity. }
    pose proof (untouched_health_score _ Hkept) as Hscore.
    destruct Hkept as (Hblank & Hcomplexity & _). auto.
  - cbv zeta.
    exists (CodeMetrics.set_dependencies ∅
              (CodeGuardian._calculate_python_metrics Files.branch_py_tree Files.branch_py)).
    repeat split; vm_compute; reflexivity.
Qed.

(** The directories below [p] have paths at least as long as [p]. *)
Lemma directories_length :
  forall (e : Path.entry) (p p' : Path.t) (e' : Path.entry),
    In (p', e') (Path.directories p e) -> (length p <= length p')%nat.
Proof.
  fix IH 1. intros [content|entries] p p' e' Hin; cbn in Hin; [contradiction|].
  destruct Hin as [Heq|Hin]; [injection Heq as <- _; lia|].
  induction entries as [|[n c] entries IHentries]; cbn in Hin; [contradiction|].
  apply in_app_or in Hin as [Hin|Hin].
  - apply IH in Hin. rewrite length_app in Hin. cbn in Hin. lia.
  - apply IHentries, Hin.
Qed.

Lemma select_everywhere (parts : list string) (p : Path.t) (e : Path.entry) :
  Path.select ("**" :: parts) p e
  = flat_map (fun pe => Path.select parts (fst pe) (snd pe)) (Path.directories p e).
Proof. reflexivity. Qed.

(** A pattern of two name components selects paths two levels down. *)
Lemma select_two_levels (a b : string) (p : Path.t) (e : Path.entry) (f : Path.t) :
  a <> "**" -> b <> "**" ->
  In f (Path.select [a; b] p e) -> length f = (length p + 2)%nat.
Proof.
  intros Ha Hb. cbn [Path.select].
  rewrite (proj2 (String.eqb_neq a "**") Ha).
  destruct e as [content|entries]; [contradiction|].
  rewrite in_flat_map. intros ((n & c) & _ & Hin). cbn [fst snd] in Hin.
  destruct (Path.fnmatch a n && Path.is_dir_entry c); [|contradiction].
  rewrite (proj2 (String.eqb_neq b "**") Hb) in Hin.
  destruct c as [content|entries']; [contradiction|].
  rewrite in_flat_map in Hin. destruct Hin as ((m & c') & _ & Hin). cbn [fst snd] in Hin.
  destruct (Path.fnmatch b m && true); [|contradiction].
  destruct Hin as [<-|[]]. rewrite !length_app. cbn. lia.
Qed.

(** Every path of the recursive enumeration is at least two levels below
    the directory. *)
Lemma enumerate_files_recursive_depth (fs : Path.entry) (directory f : Path.t) :
  In f (CodeGuardian.enumerate_files fs directory true) ->
  (length directory + 2 <= length f)%nat.
Proof.
  unfold CodeGuardian.enumerate_files. rewrite in_flat_map.
  intros (pattern_str & Hpattern & Hin). unfold Path.glob in Hin.
  destruct (Path.lookup fs directory) as [[content|entries]|]; try contradiction.
  assert (Hsplit : exists b, b <> "**" /\
            Text.split "/" ("**/*" +:+ "/" +:+ pattern_str) = ["**"; "*"; b]).
  { unfold CodeGuardian.patterns in Hpattern. cbn in Hpattern.
    destruct Hpattern as [<-|[<-|[<-|[<-|[<-|[]]]]]];
      eexists; (split; [|vm_compute; reflexivity]); discriminate. }
  destruct Hsplit as (b & Hb & Hsplit).
  cbv beta iota zeta in Hin. rewrite Hsplit, select_everywhere in Hin.
  rewrite in_flat_map in Hin. destruct Hin as ((p' & e') & Hdir & Hin).
  apply directories_length in Hdir.
  apply select_two_levels in Hin; [cbn [fst] in Hin; lia|discriminate|exact Hb].
Qed.

(** C5 (the code departs from the claim).  A recursive scan goes through
    the paths of [directory.glob("**/*/" + pattern)], which are all at
    least two levels below the directory: the files of the directory itself
    are not among them.  For the five files that [test_power_consumption]
    writes into its directory, the recursive scan, which is the default,
    scans no file, where a scan that is not recursive scans the five, as
    does the recursive scan when they are in a subdirectory. *)
Theorem recursive_scan_skips_files_of_root :
  (forall fs directory name,
     ~ In (directory ++ [name]) (CodeGuardian.enumerate_files fs directory true))
  /\ CodeGuardian.enumerate_files (Files.test_dir Files.five_files) ["tmp"] true = []
  /\ scan_counts
       (CodeGuardian.scan_directory Files.ast_parse (Files.test_dir Files.five_files)
          "2024-01-01T00:00:00" Files.guardian ["tmp"] true)
     = Ok (0, 0)
  /\ scan_counts
       (CodeGuardian.scan_directory Files.ast_parse (Files.test_dir Files.five_files)
          "2024-01-01T00:00:00" Files.guardian ["tmp"] false)
     = Ok (5, 0)
  /\ scan_counts
       (CodeGuardian.scan_directory Files.ast_parse
          (Files.test_dir [("pkg", Path.Dir Files.five_files)])
          "2024-01-01T00:00:00" Files.guardian ["tmp"] true)
     = Ok (5, 0).
Proof.
  split.
  - intros fs directory name Hin.
    apply enumerate_files_recursive_depth in Hin.
    rewrite length_app in Hin. cbn in Hin. lia.
  - repeat split; vm_compute; reflexivity.
Qed.

(** ** Metrics of single files *)

Lemma count_line_fields m line :
  classified (CodeGuardian.count_line m line) = classified m + 1
  /\ CodeMetrics.total_lines (CodeGuardian.count_line m line) = CodeMetrics.total_lines m
  /\ CodeMetrics.cyclomatic_complexity (CodeGuardian.count_line m line)
     = CodeMetrics.cyclomatic_complexity m
  /\ CodeMetrics.maintainability_index (CodeGuardian.count_line m line)
     = CodeMetrics.maintainability_index m.
Proof.
  unfold CodeGuardian.count_line, classified.
  destruct (negb (Text.nonempty (Text.strip line)));
    [|destruct (Text.startswith "#" (Text.strip line))]; cbn; repeat split; lia.
Qed.

Lemma count_lines_fields lines m :
  classified (foldl CodeGuardian.count_line m lines)
  = classified m + Z.of_nat (length lines)
  /\ CodeMetrics.total_lines (foldl CodeGuardian.count_line m lines)
     = CodeMetrics.total_lines m
  /\ CodeMetrics.cyclomatic_complexity (foldl CodeGuardian.count_line m lines)
     = CodeMetrics.cyclomatic_complexity m
  /\ CodeMetrics.maintainability_index (foldl CodeGuardian.count_line m lines)
     = CodeMetrics.maintainability_index m.
Proof.
  revert m. induction lines as [|line lines IH]; intros m.
  - cbn. repeat split; lia.
  - cbn [foldl length]. destruct (IH (CodeGuardian.count_line m line)) as (-> & -> & -> & ->).
    destruct (count_line_fields m line) as (-> & -> & -> & ->). repeat split; lia.
Qed.

Lemma count_node_fields m n :
  classified (CodeGuardian.count_node m n) = classified m
  /\ CodeMetrics.code_lines (CodeGuardian.count_node m n) = CodeMetrics.code_lines m
  /\ CodeMetrics.total_lines (CodeGuardian.count_node m n) = CodeMetrics.total_lines m
  /\ CodeMetrics.maintainability_index (CodeGuardian.count_node m n)
     = CodeMetrics.maintainability_index m.
Proof. destruct n; cbn; repeat split; reflexivity. Qed.

Lemma count_nodes_fields nodes m :
  classified (foldl CodeGuardian.count_node m nodes) = classified m
  /\ CodeMetrics.code_lines (foldl CodeGuardian.count_node m nodes) = CodeMetrics.code_lines m
  /\ CodeMetrics.total_lines (foldl CodeGuardian.count_node m nodes)
     = CodeMetrics.total_lines m
  /\ CodeMetrics.maintainability_index (foldl CodeGuardian.count_node m nodes)
     = CodeMetrics.maintainability_index m.
Proof.
  revert m. induction nodes as [|n nodes IH]; intros m; [repeat split; reflexivity|].
  cbn [foldl]. destruct (IH (CodeGuardian.count_node m n)) as (-> & -> & -> & ->).
  apply count_node_fields.
Qed.

Lemma counted_fields tree source_code :
  CodeMetrics.total_lines (counted tree source_code) = classified (counted tree source_code)
  /\ CodeMetrics.maintainability_index (counted tree source_code) = 0%Q.
Proof.
  unfold counted.
  destruct (count_nodes_fields (walk tree)
              (foldl CodeGuardian.count_line
                 (CodeMetrics.set_total_lines
                    (Z.of_nat (length (Text.split Text.LF source_code))) CodeMetrics.new)
                 (Text.split Text.LF source_code))) as (-> & _ & -> & ->).
  destruct (count_lines_fields (Text.split Text.LF source_code)
              (CodeMetrics.set_total_lines
                 (Z.of_nat (length (Text.split Text.LF source_code))) CodeMetrics.new))
    as (-> & -> & _ & ->).
  split; reflexivity.
Qed.

Lemma python_metrics_unfold tree source_code :
  CodeGuardian._calculate_python_metrics tree source_code
  = if 0 <? CodeMetrics.code_lines (counted tree source_code) then
      CodeMetrics.set_maintainability_index
        (Qmax 0
           (171 - 5.2 * (inject_Z (CodeMetrics.cyclomatic_complexity (counted tree source_code))
                         / inject_Z (Z.max 1 (CodeMetrics.code_lines (counted tree source_code))))
                  * 10))%Q
        (counted tree source_code)
    else counted tree source_code.
Proof. reflexivity. Qed.

Lemma python_metrics_lines tree source_code :
  let metrics := CodeGuardian._calculate_python_metrics tree source_code in
  CodeMetrics.total_lines metrics = classified metrics.
Proof.
  cbv zeta. rewrite python_metrics_unfold.
  destruct (0 <? CodeMetrics.code_lines (counted tree source_code));
    apply (counted_fields tree source_code).
Qed.

(** In exact arithmetic the expression of the code is the formula of the
    specification. *)
Lemma formula_agrees (x : Q) :
  (Qmax 0 (171 - 5.2 * x * 10) == Qmax 0 (171 - 52 * x))%Q.
Proof.
  assert (H : (171 - 5.2 * x * 10 == 171 - 52 * x)%Q) by field.
  now rewrite H.
Qed.

Section Rounding.
Import PrimFloat.

(** In binary64 it is not: for complexity 2 and three lines of code the
    expression of the code and the formula differ in the last place. *)
Lemma formula_rounding :
  Binary64.maintainability_index 2 3 = 136.33333333333331%float
  /\ Binary64.spec_maintainability_index 2 3 = 136.33333333333334%float
  /\ Binary64.maintainability_index 2 3 <> Binary64.spec_maintainability_index 2 3.
Proof.
  split; [|split]; vm_compute; [reflexivity|reflexivity|discriminate].
Qed.

End Rounding.






Lemma javascript_metrics file_path source_code :
  let metrics := snd (CodeGuardian._analyze_javascript file_path source_code) in
  CodeMetrics.total_lines metrics
  = Z.of_nat (length (Text.split Text.LF source_code))
  /\ CodeMetrics.comment_lines metrics = 0
  /\ CodeMetrics.blank_lines metrics = 0
  /\ 0 <= CodeMetrics.code_lines metrics <= CodeMetrics.total_lines metrics.
Proof.
  cbn. repeat split; try lia.
  apply inj_le, length_filter.
Qed.

Lemma analyze_python_lines ast_parse file_path source_code findings metrics :
  CodeGuardian._analyze_python ast_parse file_path source_code = Ok (findings, metrics) ->
  CodeMetrics.total_lines metrics = classified metrics.
Proof.
  unfold CodeGuardian._analyze_python.
  destruct (ast_parse source_code) as [tree|[]]; try discriminate.
  - intros [= _ <-]. apply (python_metrics_lines tree source_code).
  - intros [= _ <-]. reflexivity.
Qed.

(** C7 (as the code has it).  For a scanned Python file, parsed or not,
    [total_lines] is the sum of [code_lines], [comment_lines] and
    [blank_lines].  For every other file (JavaScript, TypeScript, and files
    of a type that is not supported) [comment_lines] and [blank_lines] stay
    0 and [code_lines] is at most [total_lines]. *)
Theorem line_counts_of_scanned_file
    (ast_parse : parser) (fs : Path.entry) (self self' : CodeGuardian.t) (p : Path.t)
    (findings : list SecurityFinding.t) (metrics : CodeMetrics.t) :
  CodeGuardian.scan_file ast_parse fs self p = (Ok (findings, metrics), self') ->
  (Path.suffix p = ".py" ->
   CodeMetrics.total_lines metrics
   = CodeMetrics.code_lines metrics + CodeMetrics.comment_lines metrics
     + CodeMetrics.blank_lines metrics)
  /\ (Path.suffix p <> ".py" ->
      CodeMetrics.comment_lines metrics = 0
      /\ CodeMetrics.blank_lines metrics = 0
      /\ 0 <= CodeMetrics.code_lines metrics <= CodeMetrics.total_lines metrics).
Proof.
  unfold CodeGuardian.scan_file.
  destruct (negb (Path.exists_ fs p)); [discriminate|].
  destruct (negb (Text.member (Path.suffix p) CodeGuardian.supported_suffixes)).
  { intros [= _ <- _]. cbn. split; intros _; lia. }
  destruct (Path.read_text fs p) as [source_code|e]; [|discriminate].
  destruct (String.eqb_spec (Path.suffix p) ".py") as [Hpy|Hother].
  - destruct (CodeGuardian._analyze_python ast_parse p source_code)
      as [[findings0 metrics0]|e] eqn:Hanalyze; [|discriminate].
    intros [= _ <- _]. split; [|congruence].
    intros _. apply (analyze_python_lines _ _ _ _ _ Hanalyze).
  - destruct (CodeGuardian._analyze_javascript p source_code)
      as [findings0 metrics0] eqn:Hanalyze.
    intros [= _ <- _]. split; [congruence|]. intros _.
    pose proof (javascript_metrics p source_code) as Hmetrics.
    rewrite Hanalyze in Hmetrics. apply Hmetrics.
Qed.

Lemma line_counts_of_scanned_file_witness :
  let python :=
    CodeMetrics.set_dependencies ∅
      (CodeGuardian._calculate_python_metrics Files.branch_py_tree Files.branch_py) in
  let javascript := CodeGuardian._analyze_javascript ["tmp"; "app.js"] Files.app_js in
  CodeMetrics.total_lines python
  = CodeMetrics.code_lines python + CodeMetrics.comment_lines python
    + CodeMetrics.blank_lines python
  /\ CodeMetrics.comment_lines (snd javascript) = 0
  /\ CodeMetrics.blank_lines (snd javascript) = 0
  /\ 0 <= CodeMetrics.code_lines (snd javascript)
       <= CodeMetrics.total_lines (snd javascript).
Proof.
  intros python javascript. split.
  - apply (proj1 (line_counts_of_scanned_file Files.ast_parse
                    (Files.test_dir [("branch.py", Files.file Files.branch_py)])
                    Files.guardian
                    (CodeGuardian.cache_results "tmp/branch.py" [] python Files.guardian)
                    ["tmp"; "branch.py"] [] python ltac:(vm_compute; reflexivity))).
    reflexivity.
  - apply (proj2 (line_counts_of_scanned_file Files.ast_parse
                    (Files.test_dir [("app.js", Files.file Files.app_js)])
                    Files.guardian
                    (CodeGuardian.cache_results "tmp/app.js" (fst javascript)
                       (snd javascript) Files.guardian)
                    ["tmp"; "app.js"] (fst javascript) (snd javascript)
                    ltac:(vm_compute; reflexivity))).
    vm_compute. discriminate.
Defined.

(** C7, the claim as stated fails for JavaScript: [app.js] is one line of
    code and a line feed, hence two lines for [split], of which one is
    code and none is counted as blank. *)
Lemma line_counts_javascript_counterexample :
  (fun m => (CodeMetrics.total_lines m, CodeMetrics.code_lines m,
             CodeMetrics.comment_lines m, CodeMetrics.blank_lines m))
  <$> scan_metrics
        (CodeGuardian.scan_file Files.ast_parse
           (Files.test_dir [("app.js", Files.file Files.app_js)])
           Files.guardian ["tmp"; "app.js"])
  = Some (2, 1, 0, 0)
  /\ 2 <> 1 + 0 + 0.
Proof.
  split; [vm_compute; reflexivity|lia].
Qed.

(** * More properties of the scanner *)

(** ** The visitor *)

(** Induction on a tree, with the property for all child nodes. *)
Lemma node_rect_children (P : node -> Prop) :
  (forall lineno names, P (Import lineno names)) ->
  (forall lineno module names, P (ImportFrom lineno module names)) ->
  (forall lineno col_offset func args keywords,
     P func -> Forall P args -> Forall (fun keyword => P (snd keyword)) keywords ->
     P (Call lineno col_offset func args keywords)) ->
  (forall lineno lhs op rhs, P lhs -> P rhs -> P (BinOp lineno lhs op rhs)) ->
  (forall values, Forall P values -> P (BoolOp values)) ->
  (forall lineno values, Forall P values -> P (JoinedStr lineno values)) ->
  (forall value format_spec,
     P value -> (forall spec, format_spec = Some spec -> P spec) ->
     P (FormattedValue value format_spec)) ->
  (forall id, P (Name id)) ->
  (forall value attr, P value -> P (Attribute value attr)) ->
  (forall value, P (Constant value)) ->
  (forall test body orelse,
     P test -> Forall P body -> Forall P orelse -> P (If test body orelse)) ->
  (forall test body orelse,
     P test -> Forall P body -> Forall P orelse -> P (While test body orelse)) ->
  (forall target iter body orelse,
     P target -> P iter -> Forall P body -> Forall P orelse ->
     P (For target iter body orelse)) ->
  (forall type body,
     (forall t, type = Some t -> P t) -> Forall P body -> P (ExceptHandler type body)) ->
  (forall children, Forall P children -> P (Other children)) ->
  forall n, P n.
Proof.
  intros HImport HImportFrom HCall HBinOp HBoolOp HJoinedStr HFormatted HName
    HAttribute HConstant HIf HWhile HFor HHandler HOther.
  fix IH 1.
  assert (Hall : forall l, Forall P l).
  { fix IHl 1. intros [|c l]; [constructor|]. constructor; [apply IH|apply IHl]. }
  assert (Hkeywords : forall l : list (option string * node),
             Forall (fun keyword => P (snd keyword)) l).
  { fix IHl 1. intros [|[arg c] l]; [constructor|].
    constructor; [apply IH|apply IHl]. }
  assert (Hopt : forall o : option node, forall c, o = Some c -> P c).
  { intros [c'|] c [= <-]. apply IH. }
  intros [lineno names|lineno module names|lineno col_offset func args keywords
         |lineno lhs op rhs|values|lineno values|value format_spec|id|value attr
         |value|test body orelse|test body orelse|target iter body orelse
         |type body|children].
  - apply HImport.
  - apply HImportFrom.
  - apply HCall; [apply IH|apply Hall|apply Hkeywords].
  - apply HBinOp; apply IH.
  - apply HBoolOp, Hall.
  - apply HJoinedStr, Hall.
  - apply HFormatted; [apply IH|apply Hopt].
  - apply HName.
  - apply HAttribute, IH.
  - apply HConstant.
  - apply HIf; [apply IH|apply Hall|apply Hall].
  - apply HWhile; [apply IH|apply Hall|apply Hall].
  - apply HFor; [apply IH|apply IH|apply Hall|apply Hall].
  - apply HHandler; [apply Hopt|apply Hall].
  - apply HOther, Hall.
Qed.

Lemma extends_refl self : extends self self.
Proof.
  repeat split; try reflexivity.
  exists []. split; [now rewrite app_nil_r|constructor].
Qed.

Lemma extends_trans self1 self2 self3 :
  extends self1 self2 -> extends self2 self3 -> extends self1 self3.
Proof.
  intros (Hpath12 & Hlines12 & (added12 & Hfindings12 & Hadded12) & Himports12)
         (Hpath23 & Hlines23 & (added23 & Hfindings23 & Hadded23) & Himports23).
  repeat split; try congruence.
  - exists (added12 ++ added23). split.
    + rewrite Hfindings23, Hfindings12. now rewrite app_assoc.
    + apply Forall_app. split; [exact Hadded12|]. now rewrite <- Hpath12.
  - set_solver.
Qed.

Lemma extends_append_finding f self :
  well_formed (ASTSecurityAnalyzer.file_path self) f ->
  extends self (ASTSecurityAnalyzer.append_finding f self).
Proof.
  intros Hf. repeat split; try reflexivity.
  exists [f]. split; [reflexivity|]. constructor; [exact Hf|constructor].
Qed.

Lemma extends_add_import name self :
  extends self (ASTSecurityAnalyzer.add_import name self).
Proof.
  repeat split; try reflexivity.
  - exists []. split; [cbn; now rewrite app_nil_r|constructor].
  - cbn. set_solver.
Qed.

Lemma extends_record_call func_name lineno self :
  extends self (ASTSecurityAnalyzer.record_call func_name lineno self).
Proof.
  repeat split; try reflexivity.
  exists []. split; [cbn; now rewrite app_nil_r|constructor].
Qed.

Lemma extends_record_string_operation op self :
  extends self (ASTSecurityAnalyzer.record_string_operation op self).
Proof.
  repeat split; try reflexivity.
  exists []. split; [cbn; now rewrite app_nil_r|constructor].
Qed.

(** The findings that the checks build are well formed. *)
Ltac well_formed_literal :=
  split; [reflexivity|split; unfold Qle; cbn; lia].

Lemma extends_check_vulnerable_import module line_no self :
  extends self (ASTSecurityAnalyzer._check_vulnerable_import module line_no self).
Proof.
  unfold ASTSecurityAnalyzer._check_vulnerable_import.
  destruct (Text.assoc module ASTSecurityAnalyzer.vulnerable_packages)
    as [[[severity cwe] description]|]; [|apply extends_refl].
  apply extends_append_finding. well_formed_literal.
Qed.

Lemma extends_check_dangerous_function func_name lineno col_offset self :
  extends self
    (ASTSecurityAnalyzer._check_dangerous_function func_name lineno col_offset self).
Proof.
  unfold ASTSecurityAnalyzer._check_dangerous_function.
  destruct (Text.assoc func_name ASTSecurityAnalyzer.dangerous_functions)
    as [[[severity owasp] cwe]|]; [|apply extends_refl].
  apply extends_append_finding. well_formed_literal.
Qed.

Lemma extends_check_sql_injection lineno col_offset args self :
  extends self (ASTSecurityAnalyzer._check_sql_injection lineno col_offset args self).
Proof.
  destruct args as [|[] args]; try apply extends_refl.
  - destruct op; try apply extends_refl.
    apply extends_append_finding. well_formed_literal.
  - apply extends_append_finding. well_formed_literal.
Qed.

Lemma extends_check_path_traversal lineno col_offset args self :
  extends self (ASTSecurityAnalyzer._check_path_traversal lineno col_offset args self).
Proof.
  destruct args as [|[] args]; try apply extends_refl.
  apply extends_append_finding. well_formed_literal.
Qed.

Lemma extends_check_ssrf lineno col_offset args self :
  extends self (ASTSecurityAnalyzer._check_ssrf lineno col_offset args self).
Proof.
  destruct args as [|[] args]; try apply extends_refl;
    apply extends_append_finding; well_formed_literal.
Qed.

Lemma extends_check_format_string_injection value line_no self :
  extends self (ASTSecurityAnalyzer._check_format_string_injection value line_no self).
Proof.
  destruct value; try apply extends_refl.
  apply extends_append_finding. well_formed_literal.
Qed.

(** A loop whose body extends the analyzer extends it. *)
Lemma extends_foldl {A} (step : ASTSecurityAnalyzer.t -> A -> ASTSecurityAnalyzer.t)
    (l : list A) :
  Forall (fun x => forall self, extends self (step self x)) l ->
  forall self, extends self (foldl step self l).
Proof.
  induction 1 as [|x l Hx _ IH]; intros self; [apply extends_refl|].
  cbn [foldl]. eapply extends_trans; [apply Hx|apply IH].
Qed.

(** What one keyword adds in [_check_command_injection]. *)
Lemma command_injection_step lineno col_offset self (keyword : option string * node) :
  extends self
    (match keyword with
     | (Some "shell", Constant (CBool true)) =>
         ASTSecurityAnalyzer.append_finding
           {| SecurityFinding.file_path := ASTSecurityAnalyzer.file_path self;
              SecurityFinding.line_number := lineno;
              SecurityFinding.column := col_offset;
              SecurityFinding.vulnerability_type := "Command Injection";
              SecurityFinding.owasp_category := A03_INJECTION;
              SecurityFinding.severity := HIGH;
              SecurityFinding.description :=
                "Using shell=True in subprocess is vulnerable to command injection";
              SecurityFinding.recommendation :=
                "Use shell=False and pass arguments as a list";
              SecurityFinding.code_snippet :=
                ASTSecurityAnalyzer._get_code_snippet self lineno;
              SecurityFinding.cwe_id := Some "CWE-78";
              SecurityFinding.confidence := 0.9%Q |} self
     | _ => self
     end).
Proof.
  repeat case_match; try apply extends_refl.
  apply extends_append_finding. well_formed_literal.
Qed.

Lemma extends_check_command_injection lineno col_offset keywords self :
  extends self
    (ASTSecurityAnalyzer._check_command_injection lineno col_offset keywords self).
Proof.
  unfold ASTSecurityAnalyzer._check_command_injection.
  apply extends_foldl. apply Forall_forall. intros keyword _ self'.
  apply command_injection_step.
Qed.

(** What [visit_Call] does before [generic_visit]. *)
Lemma extends_visit_Call_checks lineno col_offset func args keywords self :
  extends self
    (ASTSecurityAnalyzer.visit_Call (fun self => self) lineno col_offset func args
       keywords self).
Proof.
  unfold ASTSecurityAnalyzer.visit_Call.
  destruct (ASTSecurityAnalyzer._get_function_name func) as [func_name|];
    [|apply extends_refl].
  cbv zeta. repeat destruct (Text.member func_name _);
    repeat first
      [ apply extends_record_call
      | eapply extends_trans; [|apply extends_check_ssrf]
      | eapply extends_trans; [|apply extends_check_path_traversal]
      | eapply extends_trans; [|apply extends_check_command_injection]
      | eapply extends_trans; [|apply extends_check_sql_injection]
      | eapply extends_trans; [|apply extends_check_dangerous_function] ].
Qed.

Lemma visit_Call_generic generic_visit lineno col_offset func args keywords self :
  ASTSecurityAnalyzer.visit_Call generic_visit lineno col_offset func args keywords self
  = generic_visit
      (ASTSecurityAnalyzer.visit_Call (fun self => self) lineno col_offset func args
         keywords self).
Proof. reflexivity. Qed.

Lemma extends_visit_JoinedStr_checks lineno values self :
  extends self (ASTSecurityAnalyzer.visit_JoinedStr (fun self => self) lineno values self).
Proof.
  unfold ASTSecurityAnalyzer.visit_JoinedStr.
  eapply extends_trans; [apply extends_record_string_operation|].
  apply extends_foldl, Forall_forall. intros value _ self'.
  destruct value; try apply extends_refl.
  apply extends_check_format_string_injection.
Qed.

Lemma visit_JoinedStr_generic generic_visit lineno values self :
  ASTSecurityAnalyzer.visit_JoinedStr generic_visit lineno values self
  = generic_visit
      (ASTSecurityAnalyzer.visit_JoinedStr (fun self => self) lineno values self).
Proof. reflexivity. Qed.

Lemma extends_visit_BinOp_checks lineno lhs op rhs self :
  extends self (ASTSecurityAnalyzer.visit_BinOp (fun self => self) lineno lhs op rhs self).
Proof.
  unfold ASTSecurityAnalyzer.visit_BinOp.
  destruct op; try apply extends_refl.
  destruct (_ || _); [apply extends_record_string_operation|apply extends_refl].
Qed.

Lemma visit_BinOp_generic generic_visit lineno lhs op rhs self :
  ASTSecurityAnalyzer.visit_BinOp generic_visit lineno lhs op rhs self
  = generic_visit
      (ASTSecurityAnalyzer.visit_BinOp (fun self => self) lineno lhs op rhs self).
Proof. reflexivity. Qed.

Lemma extends_visit_Import lineno names self :
  extends self (ASTSecurityAnalyzer.visit_Import (fun self => self) lineno names self).
Proof.
  unfold ASTSecurityAnalyzer.visit_Import.
  apply extends_foldl, Forall_forall. intros name _ self'.
  eapply extends_trans; [apply extends_add_import|apply extends_check_vulnerable_import].
Qed.

Lemma extends_visit_ImportFrom lineno module self :
  extends self (ASTSecurityAnalyzer.visit_ImportFrom (fun self => self) lineno module self).
Proof.
  unfold ASTSecurityAnalyzer.visit_ImportFrom.
  destruct module as [m|]; [|apply extends_refl].
  destruct (Text.nonempty m); [|apply extends_refl].
  eapply extends_trans; [apply extends_add_import|apply extends_check_vulnerable_import].
Qed.

Lemma extends_fold_left {A} (step : ASTSecurityAnalyzer.t -> A -> ASTSecurityAnalyzer.t)
    (l : list A) :
  Forall (fun x => forall self, extends self (step self x)) l ->
  forall self, extends self (fold_left step l self).
Proof.
  induction 1 as [|x l Hx _ IH]; intros self; [apply extends_refl|].
  cbn [fold_left]. eapply extends_trans; [apply Hx|apply IH].
Qed.

(** Visiting a list of nodes, each of which extends the analyzer. *)
Lemma extends_visit_all (children : list node) :
  Forall (fun child => forall self, extends self (ASTSecurityAnalyzer.visit child self))
    children ->
  forall self,
    extends self
      (fold_left (fun self child => ASTSecurityAnalyzer.visit child self) children self).
Proof.
  apply (extends_fold_left (fun self child => ASTSecurityAnalyzer.visit child self)).
Qed.

Lemma extends_visit_keywords (keywords : list (option string * node)) :
  Forall (fun keyword => forall self,
            extends self (ASTSecurityAnalyzer.visit (snd keyword) self)) keywords ->
  forall self,
    extends self
      (fold_left (fun self keyword => ASTSecurityAnalyzer.visit (snd keyword) self)
         keywords self).
Proof.
  apply (extends_fold_left
           (fun self keyword => ASTSecurityAnalyzer.visit (snd keyword) self)).
Qed.

(** The visit of a tree extends the analyzer. *)
Lemma extends_visit (n : node) :
  forall self, extends self (ASTSecurityAnalyzer.visit n self).
Proof.
  induction n using node_rect_children; intros self; cbn [ASTSecurityAnalyzer.visit];
    rewrite ?visit_Call_generic, ?visit_BinOp_generic, ?visit_JoinedStr_generic;
    try destruct format_spec as [spec|]; try destruct type as [t|];
    repeat first
      [ apply extends_refl
      | apply extends_visit_Import
      | apply extends_visit_ImportFrom
      | eapply extends_trans; [|apply extends_visit_keywords; assumption]
      | eapply extends_trans; [|apply extends_visit_all; assumption]
      | eapply extends_trans; [|solve [eauto]]
      | eapply extends_trans; [|apply extends_visit_Call_checks]
      | eapply extends_trans; [|apply extends_visit_BinOp_checks]
      | eapply extends_trans; [|apply extends_visit_JoinedStr_checks] ].
Qed.

Lemma extends_In self self' f :
  extends self self' ->
  In f (ASTSecurityAnalyzer.findings self) -> In f (ASTSecurityAnalyzer.findings self').
Proof.
  intros (_ & _ & (added & -> & _) & _) Hin. apply in_or_app. now left.
Qed.

Lemma reaches_self n : reaches n (ASTSecurityAnalyzer.visit n).
Proof. intros self. exists self. split; apply extends_refl. Qed.

(** A step that goes through [n], followed by a step that extends. *)
Lemma reaches_then n f g :
  reaches n f -> (forall self, extends self (g self)) ->
  reaches n (fun self => g (f self)).
Proof.
  intros Hf Hg self. destruct (Hf self) as (self1 & Hbefore & Hafter).
  exists self1. split; [exact Hbefore|]. eapply extends_trans; [exact Hafter|apply Hg].
Qed.

(** A step that extends, followed by a step that goes through [n]. *)
Lemma reaches_after n f g :
  (forall self, extends self (g self)) -> reaches n f ->
  reaches n (fun self => f (g self)).
Proof.
  intros Hg Hf self. destruct (Hf (g self)) as (self1 & Hbefore & Hafter).
  exists self1. split; [|exact Hafter]. eapply extends_trans; [apply Hg|exact Hbefore].
Qed.

(** A loop over nodes goes through every node below one of them. *)
Lemma reaches_fold_left {A} (proj : A -> node) (l : list A) (n : node) :
  Forall (fun x => forall n, In n (walk (proj x)) ->
                   reaches n (ASTSecurityAnalyzer.visit (proj x))) l ->
  In n (flat_map (fun x => walk (proj x)) l) ->
  reaches n (fold_left (fun self x => ASTSecurityAnalyzer.visit (proj x) self) l).
Proof.
  induction 1 as [|x l Hx _ IH]; cbn [flat_map fold_left]; [contradiction|].
  intros Hin. apply in_app_or in Hin as [Hin|Hin].
  - apply (reaches_then n (ASTSecurityAnalyzer.visit (proj x))
             (fold_left (fun self x => ASTSecurityAnalyzer.visit (proj x) self) l)).
    + apply Hx, Hin.
    + apply (extends_fold_left (fun self x => ASTSecurityAnalyzer.visit (proj x) self)).
      apply Forall_forall. intros y _ self. apply extends_visit.
  - apply (reaches_after n
             (fold_left (fun self x => ASTSecurityAnalyzer.visit (proj x) self) l)
             (ASTSecurityAnalyzer.visit (proj x))).
    + apply extends_visit.
    + apply IH, Hin.
Qed.

Lemma reaches_visit_all (children : list node) (n : node) :
  Forall (fun child => forall n, In n (walk child) ->
                       reaches n (ASTSecurityAnalyzer.visit child)) children ->
  In n (flat_map walk children) ->
  reaches n (fold_left (fun self child => ASTSecurityAnalyzer.visit child self) children).
Proof. apply (reaches_fold_left (fun child => child)). Qed.

Lemma reaches_visit_keywords (keywords : list (option string * node)) (n : node) :
  Forall (fun keyword => forall n, In n (walk (snd keyword)) ->
                         reaches n (ASTSecurityAnalyzer.visit (snd keyword))) keywords ->
  In n (flat_map (fun keyword => walk (snd keyword)) keywords) ->
  reaches n
    (fold_left (fun self keyword => ASTSecurityAnalyzer.visit (snd keyword) self) keywords).
Proof. apply (reaches_fold_left snd). Qed.

Lemma extends_visit_list (children : list node) self :
  extends self
    (fold_left (fun self child => ASTSecurityAnalyzer.visit child self) children self).
Proof.
  apply extends_visit_all, Forall_forall. intros child _ self'. apply extends_visit.
Qed.

Lemma extends_visit_keyword_list (keywords : list (option string * node)) self :
  extends self
    (fold_left (fun self keyword => ASTSecurityAnalyzer.visit (snd keyword) self)
       keywords self).
Proof.
  apply extends_visit_keywords, Forall_forall. intros keyword _ self'. apply extends_visit.
Qed.

(** The visit of a tree goes through the visit of each of its nodes. *)
Lemma visit_reaches (tree : node) :
  forall n, In n (walk tree) -> reaches n (ASTSecurityAnalyzer.visit tree).
Proof.
  induction tree using node_rect_children; intros n' Hin;
    cbn [walk] in Hin; destruct Hin as [<-|Hin]; try apply reaches_self;
    try contradiction;
    repeat (apply in_app_or in Hin as [Hin|Hin]).
  (* Call: func, args, keywords *)
  - apply (reaches_then n' (fun self =>
             ASTSecurityAnalyzer.visit tree
               (ASTSecurityAnalyzer.visit_Call (fun self => self) lineno col_offset tree
                  args keywords self))
             (fun self =>
                fold_left (fun self keyword => ASTSecurityAnalyzer.visit (snd keyword) self)
                  keywords
                  (fold_left (fun self child => ASTSecurityAnalyzer.visit child self)
                     args self))).
    + apply (reaches_after n' (ASTSecurityAnalyzer.visit tree)); [|apply IHtree, Hin].
      apply extends_visit_Call_checks.
    + intros self. eapply extends_trans;
        [apply extends_visit_list|apply extends_visit_keyword_list].
  - apply (reaches_then n' (fun self =>
             fold_left (fun self child => ASTSecurityAnalyzer.visit child self) args
               (ASTSecurityAnalyzer.visit tree
                  (ASTSecurityAnalyzer.visit_Call (fun self => self) lineno col_offset
                     tree args keywords self)))
             (fold_left (fun self keyword => ASTSecurityAnalyzer.visit (snd keyword) self)
                keywords)).
    + apply (reaches_after n'
               (fold_left (fun self child => ASTSecurityAnalyzer.visit child self) args)).
      * intros self. eapply extends_trans;
          [apply extends_visit_Call_checks|apply extends_visit].
      * apply reaches_visit_all; assumption.
    + apply extends_visit_keyword_list.
  - apply (reaches_after n'
             (fold_left (fun self keyword => ASTSecurityAnalyzer.visit (snd keyword) self)
                keywords)).
    + intros self. eapply extends_trans; [apply extends_visit_Call_checks|].
      eapply extends_trans; [apply extends_visit|apply extends_visit_list].
    + apply reaches_visit_keywords; assumption.
  (* BinOp: left, right *)
  - apply (reaches_then n' (fun self =>
             ASTSecurityAnalyzer.visit tree1
               (ASTSecurityAnalyzer.visit_BinOp (fun self => self) lineno tree1 op tree2
                  self))
             (ASTSecurityAnalyzer.visit tree2)); [|apply extends_visit].
    apply (reaches_after n' (ASTSecurityAnalyzer.visit tree1)); [|apply IHtree1, Hin].
    apply extends_visit_BinOp_checks.
  - apply (reaches_after n' (ASTSecurityAnalyzer.visit tree2)); [|apply IHtree2, Hin].
    intros self. eapply extends_trans; [apply extends_visit_BinOp_checks|apply extends_visit].
  (* BoolOp *)
  - apply reaches_visit_all; assumption.
  (* JoinedStr *)
  - apply (reaches_after n'
             (fold_left (fun self child => ASTSecurityAnalyzer.visit child self) values)).
    + apply extends_visit_JoinedStr_checks.
    + apply reaches_visit_all; assumption.
  (* FormattedValue: value, format_spec *)
  - apply (reaches_then n' (ASTSecurityAnalyzer.visit tree)
             (fun self =>
                match format_spec with
                | Some child => ASTSecurityAnalyzer.visit child self
                | None => self
                end)); [apply IHtree, Hin|].
    intros self. destruct format_spec; [apply extends_visit|apply extends_refl].
  - destruct format_spec as [spec|]; [|contradiction].
    apply (reaches_after n' (ASTSecurityAnalyzer.visit spec)); [apply extends_visit|].
    eauto.
  (* Attribute *)
  - apply IHtree, Hin.
  (* If: test, body, orelse *)
  - apply (reaches_then n' (ASTSecurityAnalyzer.visit tree)
             (fun self =>
                fold_left (fun self child => ASTSecurityAnalyzer.visit child self) orelse
                  (fold_left (fun self child => ASTSecurityAnalyzer.visit child self) body
                     self))); [apply IHtree, Hin|].
    intros self. eapply extends_trans; apply extends_visit_list.
  - apply (reaches_then n' (fun self =>
             fold_left (fun self child => ASTSecurityAnalyzer.visit child self) body
               (ASTSecurityAnalyzer.visit tree self))
             (fold_left (fun self child => ASTSecurityAnalyzer.visit child self) orelse));
      [|apply extends_visit_list].
    apply (reaches_after n'
             (fold_left (fun self child => ASTSecurityAnalyzer.visit child self) body));
      [apply extends_visit|apply reaches_visit_all; assumption].
  - apply (reaches_after n'
             (fold_left (fun self child => ASTSecurityAnalyzer.visit child self) orelse));
      [|apply reaches_visit_all; assumption].
    intros self. eapply extends_trans; [apply extends_visit|apply extends_visit_list].
  (* While: test, body, orelse *)
  - apply (reaches_then n' (ASTSecurityAnalyzer.visit tree)
             (fun self =>
                fold_left (fun self child => ASTSecurityAnalyzer.visit child self) orelse
                  (fold_left (fun self child => ASTSecurityAnalyzer.visit child self) body
                     self))); [apply IHtree, Hin|].
    intros self. eapply extends_trans; apply extends_visit_list.
  - apply (reaches_then n' (fun self =>
             fold_left (fun self child => ASTSecurityAnalyzer.visit child self) body
               (ASTSecurityAnalyzer.visit tree self))
             (fold_left (fun self child => ASTSecurityAnalyzer.visit child self) orelse));
      [|apply extends_visit_list].
    apply (reaches_after n'
             (fold_left (fun self child => ASTSecurityAnalyzer.visit child self) body));
      [apply extends_visit|apply reaches_visit_all; assumption].
  - apply (reaches_after n'
             (fold_left (fun self child => ASTSecurityAnalyzer.visit child self) orelse));
      [|apply reaches_visit_all; assumption].
    intros self. eapply extends_trans; [apply extends_visit|apply extends_visit_list].
  (* For: target, iter, body, orelse *)
  - apply (reaches_then n' (ASTSecurityAnalyzer.visit tree1)
             (fun self =>
                fold_left (fun self child => ASTSecurityAnalyzer.visit child self) orelse
                  (fold_left (fun self child => ASTSecurityAnalyzer.visit child self) body
                     (ASTSecurityAnalyzer.visit tree2 self)))); [apply IHtree1, Hin|].
    intros self. eapply extends_trans; [apply extends_visit|].
    eapply extends_trans; apply extends_visit_list.
  - apply (reaches_then n' (fun self =>
             ASTSecurityAnalyzer.visit tree2 (ASTSecurityAnalyzer.visit tree1 self))
             (fun self =>
                fold_left (fun self child => ASTSecurityAnalyzer.visit child self) orelse
                  (fold_left (fun self child => ASTSecurityAnalyzer.visit child self) body
                     self))).
    + apply (reaches_after n' (ASTSecurityAnalyzer.visit tree2));
        [apply extends_visit|apply IHtree2, Hin].
    + intros self. eapply extends_trans; apply extends_visit_list.
  - apply (reaches_then n' (fun self =>
             fold_left (fun self child => ASTSecurityAnalyzer.visit child self) body
               (ASTSecurityAnalyzer.visit tree2 (ASTSecurityAnalyzer.visit tree1 self)))
             (fold_left (fun self child => ASTSecurityAnalyzer.visit child self) orelse));
      [|apply extends_visit_list].
    apply (reaches_after n'
             (fold_left (fun self child => ASTSecurityAnalyzer.visit child self) body));
      [|apply reaches_visit_all; assumption].
    intros self. eapply extends_trans; apply extends_visit.
  - apply (reaches_after n'
             (fold_left (fun self child => ASTSecurityAnalyzer.visit child self) orelse));
      [|apply reaches_visit_all; assumption].
    intros self. eapply extends_trans; [apply extends_visit|].
    eapply extends_trans; [apply extends_visit|apply extends_visit_list].
  (* ExceptHandler: type, body *)
  - destruct type as [t|]; [|contradiction].
    apply (reaches_then n' (ASTSecurityAnalyzer.visit t)
             (fold_left (fun self child => ASTSecurityAnalyzer.visit child self) body));
      [eauto|].
    apply extends_visit_list.
  - apply (reaches_after n'
             (fold_left (fun self child => ASTSecurityAnalyzer.visit child self) body));
      [|apply reaches_visit_all; assumption].
    intros self. destruct type; [apply extends_visit|apply extends_refl].
  (* Other *)
  - apply reaches_visit_all; assumption.
Qed.

(** X1.  Visiting a tree only appends findings: the findings recorded
    before are kept, in their order, every finding added carries the path of
    the analyzer and a confidence between 0 and 1, the path and the source
    lines of the analyzer do not change, and no import is lost. *)
Theorem visit_only_appends (tree : node) (self : ASTSecurityAnalyzer.t) :
  ASTSecurityAnalyzer.file_path (ASTSecurityAnalyzer.visit tree self)
  = ASTSecurityAnalyzer.file_path self
  /\ ASTSecurityAnalyzer.source_lines (ASTSecurityAnalyzer.visit tree self)
     = ASTSecurityAnalyzer.source_lines self
  /\ (exists added,
        ASTSecurityAnalyzer.findings (ASTSecurityAnalyzer.visit tree self)
        = ASTSecurityAnalyzer.findings self ++ added
        /\ forall f, In f added ->
             SecurityFinding.file_path f = ASTSecurityAnalyzer.file_path self
             /\ (0 <= SecurityFinding.confidence f)%Q
             /\ (SecurityFinding.confidence f <= 1)%Q)
  /\ ASTSecurityAnalyzer.imports self
     ⊆ ASTSecurityAnalyzer.imports (ASTSecurityAnalyzer.visit tree self).
Proof.
  destruct (extends_visit tree self) as (Hpath & Hlines & (added & Hfindings & Hadded) & Himports).
  repeat split; try assumption.
  exists added. split; [exact Hfindings|].
  intros f Hin. rewrite Forall_forall in Hadded. apply Hadded.
  now apply list_elem_of_In.
Qed.

(** The stages of [visit_Call] for a call of a function with a name. *)
Lemma visit_Call_stages lineno col_offset func args keywords func_name self :
  ASTSecurityAnalyzer._get_function_name func = Some func_name ->
  let dangerous :=
    ASTSecurityAnalyzer._check_dangerous_function func_name lineno col_offset
      (ASTSecurityAnalyzer.record_call func_name lineno self) in
  let sql :=
    if Text.member func_name ["execute"; "executemany"; "raw"; "query"]
    then ASTSecurityAnalyzer._check_sql_injection lineno col_offset args dangerous
    else dangerous in
  let checked :=
    ASTSecurityAnalyzer.visit_Call (fun self => self) lineno col_offset func args
      keywords self in
  extends dangerous sql /\ extends sql checked.
Proof.
  intros Hname dangerous sql checked. split.
  - subst sql. destruct (Text.member func_name _);
      [apply extends_check_sql_injection|apply extends_refl].
  - subst checked. unfold ASTSecurityAnalyzer.visit_Call. rewrite Hname. cbv zeta.
    fold dangerous. fold sql.
    repeat destruct (Text.member func_name _);
      repeat first
        [ apply extends_refl
        | eapply extends_trans; [|apply extends_check_ssrf]
        | eapply extends_trans; [|apply extends_check_path_traversal]
        | eapply extends_trans; [|apply extends_check_command_injection] ].
Qed.

(** A stage of the visit of a node is a stage of the visit of every tree
    with that node. *)
Lemma visit_keeps_stage tree n (stage : ASTSecurityAnalyzer.t -> ASTSecurityAnalyzer.t) :
  In n (walk tree) ->
  (forall self, extends (stage self) (ASTSecurityAnalyzer.visit n self)) ->
  forall self, exists self1,
    extends self self1
    /\ extends (stage self1) (ASTSecurityAnalyzer.visit tree self).
Proof.
  intros Hnode Hstage self.
  destruct (visit_reaches tree n Hnode self) as (self1 & Hbefore & Hafter).
  exists self1. split; [exact Hbefore|].
  eapply extends_trans; [apply Hstage|exact Hafter].
Qed.

Lemma extends_visit_Call_generic lineno col_offset func args keywords self :
  extends
    (ASTSecurityAnalyzer.visit_Call (fun self => self) lineno col_offset func args
       keywords self)
    (ASTSecurityAnalyzer.visit (Call lineno col_offset func args keywords) self).
Proof.
  set (checked :=
         ASTSecurityAnalyzer.visit_Call (fun self => self) lineno col_offset func args
           keywords self).
  change (extends checked
            (fold_left (fun self keyword => ASTSecurityAnalyzer.visit (snd keyword) self)
               keywords
               (fold_left (fun self child => ASTSecurityAnalyzer.visit child self) args
                  (ASTSecurityAnalyzer.visit func checked)))).
  eapply extends_trans; [apply extends_visit|].
  eapply extends_trans; [apply extends_visit_list|apply extends_visit_keyword_list].
Qed.

(** What [_analyze_python] returns for a text that parses. *)
Lemma analyze_python_parsed ast_parse file_path source_code tree :
  ast_parse source_code = Ok tree ->
  let analyzer :=
    ASTSecurityAnalyzer.visit tree
      (ASTSecurityAnalyzer.init (Path.str file_path) source_code) in
  CodeGuardian._analyze_python ast_parse file_path source_code
  = Ok (((ASTSecurityAnalyzer.findings analyzer
          ++ CodeGuardian._check_hardcoded_secrets source_code (Path.str file_path))
         ++ CodeGuardian._check_weak_crypto source_code (Path.str file_path))
        ++ CodeGuardian._check_logging_issues source_code (Path.str file_path),
        CodeMetrics.set_dependencies (ASTSecurityAnalyzer.imports analyzer)
          (CodeGuardian._calculate_python_metrics tree source_code)).
Proof.
  intros Hparse analyzer. unfold CodeGuardian._analyze_python. now rewrite Hparse.
Qed.

(** A finding of a stage of the visit of a node of the tree is a finding
    of the analysis of the file, when the analysis returns. *)
Lemma analyze_python_stage_finding ast_parse file_path source_code tree n stage
    (Q : SecurityFinding.t -> Prop) findings metrics :
  ast_parse source_code = Ok tree ->
  CodeGuardian._analyze_python ast_parse file_path source_code = Ok (findings, metrics) ->
  In n (walk tree) ->
  (forall self, extends (stage self) (ASTSecurityAnalyzer.visit n self)) ->
  (forall self,
     ASTSecurityAnalyzer.file_path self = Path.str file_path ->
     exists f, In f (ASTSecurityAnalyzer.findings (stage self)) /\ Q f) ->
  exists f, In f findings /\ Q f.
Proof.
  intros Hparse Hreturned Hnode Hstage Hfinding.
  pose proof (analyze_python_parsed _ file_path _ _ Hparse) as Hresult.
  cbv zeta in Hresult. rewrite Hresult in Hreturned. injection Hreturned as <- <-.
  destruct (visit_keeps_stage tree n stage Hnode Hstage
              (ASTSecurityAnalyzer.init (Path.str file_path) source_code))
    as (self1 & Hbefore & Hafter).
  destruct (Hfinding self1) as (f & Hin & HQ).
  { destruct Hbefore as (-> & _). reflexivity. }
  exists f. split; [|exact HQ].
  apply in_or_app. left. apply in_or_app. left. apply in_or_app. left.
  apply (extends_In _ _ _ Hafter), Hin.
Qed.

(** X2.  Whenever the analysis of a Python file returns, every call of a
    function of the table of dangerous functions ([eval], [exec],
    [compile], [__import__], [input]), by its name or as an attribute,
    anywhere in the tree of the file, has among the findings returned a
    "Dangerous Function" finding at the position of the call, with the
    severity, category and CWE identifier of the table and confidence 1. *)
Theorem dangerous_call_is_reported
    (ast_parse : parser) (file_path : Path.t) (source_code : string) (tree : node)
    (findings : list SecurityFinding.t) (metrics : CodeMetrics.t)
    (lineno col_offset : Z) (func : node) (args : list node)
    (keywords : list (option string * node)) (func_name : string)
    (severity : VulnerabilityLevel) (owasp : OWASPCategory) (cwe : string) :
  ast_parse source_code = Ok tree ->
  CodeGuardian._analyze_python ast_parse file_path source_code = Ok (findings, metrics) ->
  In (Call lineno col_offset func args keywords) (walk tree) ->
  ASTSecurityAnalyzer._get_function_name func = Some func_name ->
  Text.assoc func_name ASTSecurityAnalyzer.dangerous_functions = Some (severity, owasp, cwe) ->
  exists f,
    In f findings
    /\ (brief f = (lineno, "Dangerous Function", severity, owasp, Some cwe)
        /\ SecurityFinding.column f = col_offset
        /\ SecurityFinding.file_path f = Path.str file_path
        /\ (SecurityFinding.confidence f == 1)%Q).
Proof.
  intros Hparse Hreturned Hnode Hname Htable.
  apply (analyze_python_stage_finding ast_parse file_path source_code tree
           (Call lineno col_offset func args keywords)
           (fun self =>
              ASTSecurityAnalyzer._check_dangerous_function func_name lineno col_offset
                (ASTSecurityAnalyzer.record_call func_name lineno self))) with metrics;
    [exact Hparse|exact Hreturned|exact Hnode| |].
  - intros self.
    destruct (visit_Call_stages lineno col_offset func args keywords func_name self Hname)
      as (Hsql & Hchecked).
    eapply extends_trans; [exact Hsql|].
    eapply extends_trans; [exact Hchecked|apply extends_visit_Call_generic].
  - intros self Hpath. unfold ASTSecurityAnalyzer._check_dangerous_function.
    rewrite Htable. eexists. split; [apply in_or_app; right; left; reflexivity|].
    cbn. rewrite Hpath. repeat split; reflexivity.
Qed.

Lemma dangerous_call_is_reported_witness :
  exists findings metrics f,
    CodeGuardian._analyze_python Samples.ast_parse ["tmp"; "eval.py"] Samples.eval_py
    = Ok (findings, metrics)
    /\ In f findings
    /\ (brief f = (1, "Dangerous Function", CRITICAL, A03_INJECTION, Some "CWE-95")
        /\ SecurityFinding.column f = 0
        /\ SecurityFinding.file_path f = "tmp/eval.py"
        /\ (SecurityFinding.confidence f == 1)%Q).
Proof.
  assert (Hreturned :
    exists r,
      CodeGuardian._analyze_python Samples.ast_parse ["tmp"; "eval.py"] Samples.eval_py
      = Ok r) by (eexists; reflexivity).
  destruct Hreturned as ([findings metrics] & Hreturned).
  destruct (dangerous_call_is_reported Samples.ast_parse ["tmp"; "eval.py"]
              Samples.eval_py Samples.eval_py_tree findings metrics 1 0 (Name "eval")
              [Name "user_input"] [] "eval" CRITICAL A03_INJECTION "CWE-95")
    as (f & Hin & Hf).
  - reflexivity.
  - exact Hreturned.
  - cbn. auto.
  - reflexivity.
  - reflexivity.
  - exists findings, metrics, f. auto.
Defined.

(** X3.  Whenever the analysis of a Python file returns, every call of
    [execute], [executemany], [raw] or [query] whose first argument is
    itself an f-string or a [%] formatting, anywhere in the tree of the
    file, has among the findings returned a CRITICAL "SQL Injection" finding
    (Injection, CWE-89) at the position of the call. *)
Theorem formatted_query_is_reported
    (ast_parse : parser) (file_path : Path.t) (source_code : string) (tree : node)
    (findings : list SecurityFinding.t) (metrics : CodeMetrics.t)
    (lineno col_offset : Z) (func first_arg : node) (args : list node)
    (keywords : list (option string * node)) (func_name : string) :
  ast_parse source_code = Ok tree ->
  CodeGuardian._analyze_python ast_parse file_path source_code = Ok (findings, metrics) ->
  In (Call lineno col_offset func (first_arg :: args) keywords) (walk tree) ->
  ASTSecurityAnalyzer._get_function_name func = Some func_name ->
  Text.member func_name ["execute"; "executemany"; "raw"; "query"] = true ->
  formatted_query first_arg = true ->
  exists f,
    In f findings
    /\ (brief f = (lineno, "SQL Injection", CRITICAL, A03_INJECTION, Some "CWE-89")
        /\ SecurityFinding.column f = col_offset
        /\ SecurityFinding.file_path f = Path.str file_path).
Proof.
  intros Hparse Hreturned Hnode Hname Hmember Hformatted.
  apply (analyze_python_stage_finding ast_parse file_path source_code tree
           (Call lineno col_offset func (first_arg :: args) keywords)
           (fun self =>
              ASTSecurityAnalyzer._check_sql_injection lineno col_offset (first_arg :: args)
                (ASTSecurityAnalyzer._check_dangerous_function func_name lineno col_offset
                   (ASTSecurityAnalyzer.record_call func_name lineno self)))) with metrics;
    [exact Hparse|exact Hreturned|exact Hnode| |].
  - intros self.
    destruct (visit_Call_stages lineno col_offset func (first_arg :: args) keywords
                func_name self Hname) as (_ & Hchecked).
    rewrite Hmember in Hchecked.
    eapply extends_trans; [exact Hchecked|apply extends_visit_Call_generic].
  - intros self Hpath.
    assert (Hkept :
      ASTSecurityAnalyzer.file_path
        (ASTSecurityAnalyzer._check_dangerous_function func_name lineno col_offset
           (ASTSecurityAnalyzer.record_call func_name lineno self))
      = Path.str file_path).
    { destruct (extends_check_dangerous_function func_name lineno col_offset
                  (ASTSecurityAnalyzer.record_call func_name lineno self)) as (-> & _).
      exact Hpath. }
    destruct first_arg; try discriminate Hformatted.
    + destruct op; try discriminate Hformatted.
      eexists. split; [apply in_or_app; right; left; reflexivity|].
      cbn. rewrite Hkept. repeat split; reflexivity.
    + eexists. split; [apply in_or_app; right; left; reflexivity|].
      cbn. rewrite Hkept. repeat split; reflexivity.
Qed.

Lemma formatted_query_is_reported_witness :
  exists findings metrics f,
    CodeGuardian._analyze_python Samples.ast_parse ["tmp"; "query.py"] Samples.query_py
    = Ok (findings, metrics)
    /\ In f findings
    /\ (brief f = (1, "SQL Injection", CRITICAL, A03_INJECTION, Some "CWE-89")
        /\ SecurityFinding.column f = 0
        /\ SecurityFinding.file_path f = "tmp/query.py").
Proof.
  assert (Hreturned :
    exists r,
      CodeGuardian._analyze_python Samples.ast_parse ["tmp"; "query.py"] Samples.query_py
      = Ok r) by (eexists; reflexivity).
  destruct Hreturned as ([findings metrics] & Hreturned).
  destruct (formatted_query_is_reported Samples.ast_parse ["tmp"; "query.py"]
              Samples.query_py Samples.query_py_tree findings metrics 1 0
              (Attribute (Name "cursor") "execute")
              (JoinedStr 1
                 [ Constant (CStr "SELECT * FROM t WHERE id = ");
                   FormattedValue (Name "uid") None ])
              [] [] "execute")
    as (f & Hin & Hf).
  - reflexivity.
  - exact Hreturned.
  - cbn. auto.
  - reflexivity.
  - reflexivity.
  - reflexivity.
  - exists findings, metrics, f. auto.
Defined.

Lemma visit_Import_names lineno names name :
  In name names ->
  forall self,
    name ∈ ASTSecurityAnalyzer.imports
             (ASTSecurityAnalyzer.visit_Import (fun self => self) lineno names self).
Proof.
  unfold ASTSecurityAnalyzer.visit_Import.
  induction names as [|name' names IH]; intros Hin self; [contradiction|].
  cbn [foldl]. destruct Hin as [->|Hin]; [|apply IH, Hin].
  pose proof (extends_visit_Import lineno names
                (ASTSecurityAnalyzer._check_vulnerable_import name lineno
                   (ASTSecurityAnalyzer.add_import name self))) as (_ & _ & _ & Hkept).
  apply Hkept.
  pose proof (extends_check_vulnerable_import name lineno
                (ASTSecurityAnalyzer.add_import name self)) as (_ & _ & _ & Hkept').
  apply Hkept'. cbn. set_solver.
Qed.

Lemma imported_modules_visited n name :
  In name (imported_modules n) ->
  forall self, name ∈ ASTSecurityAnalyzer.imports (ASTSecurityAnalyzer.visit n self).
Proof.
  destruct n; try contradiction; cbn [imported_modules ASTSecurityAnalyzer.visit].
  - intros Hin self. apply visit_Import_names, Hin.
  - destruct module as [m|]; [|contradiction].
    unfold ASTSecurityAnalyzer.visit_ImportFrom.
    destruct (Text.nonempty m); [|contradiction].
    intros [<-|[]] self.
    pose proof (extends_check_vulnerable_import m lineno
                  (ASTSecurityAnalyzer.add_import m self)) as (_ & _ & _ & Hkept).
    apply Hkept. cbn. set_solver.
Qed.

(** X4.  Whenever the analysis of a Python file returns, every module
    that an [import] or [from ... import] statement names, anywhere in the
    tree of the file, is in the dependencies of the metrics returned. *)
Theorem imported_modules_are_dependencies
    (ast_parse : parser) (file_path : Path.t) (source_code : string) (tree n : node)
    (findings : list SecurityFinding.t) (metrics : CodeMetrics.t) (name : string) :
  ast_parse source_code = Ok tree ->
  CodeGuardian._analyze_python ast_parse file_path source_code = Ok (findings, metrics) ->
  In n (walk tree) ->
  In name (imported_modules n) ->
  name ∈ CodeMetrics.dependencies metrics.
Proof.
  intros Hparse Hreturned Hnode Hname.
  pose proof (analyze_python_parsed _ file_path _ _ Hparse) as Hresult.
  cbv zeta in Hresult. rewrite Hresult in Hreturned. injection Hreturned as <- <-.
  cbn [CodeMetrics.dependencies CodeMetrics.set_dependencies].
  destruct (visit_reaches tree n Hnode
              (ASTSecurityAnalyzer.init (Path.str file_path) source_code))
    as (self1 & _ & (_ & _ & _ & Hkept)).
  apply Hkept, imported_modules_visited, Hname.
Qed.

Lemma imported_modules_are_dependencies_witness :
  exists findings metrics,
    CodeGuardian._analyze_python Samples.ast_parse ["tmp"; "pickle.py"] Samples.pickle_py
    = Ok (findings, metrics)
    /\ "yaml" ∈ CodeMetrics.dependencies metrics.
Proof.
  assert (Hreturned :
    exists r,
      CodeGuardian._analyze_python Samples.ast_parse ["tmp"; "pickle.py"] Samples.pickle_py
      = Ok r) by (eexists; reflexivity).
  destruct Hreturned as ([findings metrics] & Hreturned).
  exists findings, metrics. split; [exact Hreturned|].
  apply (imported_modules_are_dependencies Samples.ast_parse ["tmp"; "pickle.py"]
           Samples.pickle_py Samples.pickle_py_tree (ImportFrom 2 (Some "yaml") ["load"])
           findings metrics).
  - reflexivity.
  - exact Hreturned.
  - cbn. auto.
  - cbn. auto.
Defined.

Lemma visit_Import_vulnerable lineno names name severity cwe description :
  In name names ->
  Text.assoc name ASTSecurityAnalyzer.vulnerable_packages = Some (severity, cwe, description) ->
  forall self, exists f,
    In f (ASTSecurityAnalyzer.findings
            (ASTSecurityAnalyzer.visit_Import (fun self => self) lineno names self))
    /\ brief f = (lineno, "Vulnerable Import", severity, A06_VULNERABLE_COMPONENTS, Some cwe)
    /\ SecurityFinding.column f = 0
    /\ SecurityFinding.file_path f = ASTSecurityAnalyzer.file_path self.
Proof.
  intros Hin Htable. unfold ASTSecurityAnalyzer.visit_Import.
  induction names as [|name' names IH]; intros self; [contradiction|].
  cbn [foldl]. destruct Hin as [->|Hin].
  - pose proof (extends_visit_Import lineno names
                  (ASTSecurityAnalyzer._check_vulnerable_import name lineno
                     (ASTSecurityAnalyzer.add_import name self))) as Hrest.
    unfold ASTSecurityAnalyzer.visit_Import in Hrest.
    unfold ASTSecurityAnalyzer._check_vulnerable_import in *. rewrite Htable in *.
    eexists. split; [apply (extends_In _ _ _ Hrest), in_or_app; right; left; reflexivity|].
    cbn. repeat split; reflexivity.
  - destruct (IH Hin (ASTSecurityAnalyzer._check_vulnerable_import name' lineno
                        (ASTSecurityAnalyzer.add_import name' self)))
      as (f & Hf & Hbrief & Hcolumn & Hpath).
    exists f. repeat split; try assumption. rewrite Hpath.
    pose proof (extends_check_vulnerable_import name' lineno
                  (ASTSecurityAnalyzer.add_import name' self)) as (-> & _).
    reflexivity.
Qed.

(** X5.  Whenever the analysis of a Python file returns, every [import]
    of a module of the table of vulnerable packages ([pickle], [yaml],
    [xml.etree.ElementTree], [telnetlib]), anywhere in the tree of the file,
    has among the findings returned a "Vulnerable Import" finding at the
    line of the statement, column 0, with the severity and CWE identifier of
    the table; so has every [from ... import] of such a module. *)
Theorem vulnerable_import_is_reported
    (ast_parse : parser) (file_path : Path.t) (source_code : string) (tree : node)
    (findings : list SecurityFinding.t) (metrics : CodeMetrics.t)
    (lineno : Z) (n : node) (name : string)
    (severity : VulnerabilityLevel) (cwe description : string) :
  ast_parse source_code = Ok tree ->
  CodeGuardian._analyze_python ast_parse file_path source_code = Ok (findings, metrics) ->
  In n (walk tree) ->
  (exists names, n = Import lineno names /\ In name names)
  \/ (exists names, n = ImportFrom lineno (Some name) names /\ name <> "") ->
  Text.assoc name ASTSecurityAnalyzer.vulnerable_packages = Some (severity, cwe, description) ->
  exists f,
    In f findings
    /\ (brief f = (lineno, "Vulnerable Import", severity, A06_VULNERABLE_COMPONENTS, Some cwe)
        /\ SecurityFinding.column f = 0
        /\ SecurityFinding.file_path f = Path.str file_path).
Proof.
  intros Hparse Hreturned Hnode Hshape Htable.
  apply (analyze_python_stage_finding ast_parse file_path source_code tree n
           (ASTSecurityAnalyzer.visit n)) with metrics;
    [exact Hparse|exact Hreturned|exact Hnode|intros self; apply extends_refl|].
  intros self Hpath. rewrite <- Hpath.
  destruct Hshape as [(names & -> & Hin)|(names & -> & Hname)].
  - apply (visit_Import_vulnerable lineno names name severity cwe description Hin Htable).
  - cbn [ASTSecurityAnalyzer.visit]. unfold ASTSecurityAnalyzer.visit_ImportFrom.
    destruct name as [|c name]; [congruence|]. cbn [Text.nonempty].
    unfold ASTSecurityAnalyzer._check_vulnerable_import. rewrite Htable.
    eexists. split; [apply in_or_app; right; left; reflexivity|].
    cbn. repeat split; reflexivity.
Qed.

Lemma vulnerable_import_is_reported_witness :
  exists findings metrics f,
    CodeGuardian._analyze_python Samples.ast_parse ["tmp"; "pickle.py"] Samples.pickle_py
    = Ok (findings, metrics)
    /\ In f findings
    /\ (brief f = (1, "Vulnerable Import", HIGH, A06_VULNERABLE_COMPONENTS, Some "CWE-502")
        /\ SecurityFinding.column f = 0
        /\ SecurityFinding.file_path f = "tmp/pickle.py").
Proof.
  assert (Hreturned :
    exists r,
      CodeGuardian._analyze_python Samples.ast_parse ["tmp"; "pickle.py"] Samples.pickle_py
      = Ok r) by (eexists; reflexivity).
  destruct Hreturned as ([findings metrics] & Hreturned).
  destruct (vulnerable_import_is_reported Samples.ast_parse ["tmp"; "pickle.py"]
              Samples.pickle_py Samples.pickle_py_tree findings metrics 1
              (Import 1 ["os"; "pickle"]) "pickle" HIGH "CWE-502"
              "Pickle can execute arbitrary code during deserialization")
    as (f & Hin & Hf).
  - reflexivity.
  - exact Hreturned.
  - cbn. auto.
  - left. exists ["os"; "pickle"]. split; [reflexivity|cbn; auto].
  - reflexivity.
  - exists findings, metrics, f. auto.
Defined.

(** ** The checks on the text *)

(** [enumerate(lines, 1)] pairs each line with its number. *)
Lemma enumerate1_spec lines i line :
  In (i, line) (CodeGuardian.enumerate1 lines) ->
  1 <= i <= Z.of_nat (length lines) /\ lines !! Z.to_nat (i - 1) = Some line.
Proof.
  unfold CodeGuardian.enumerate1. intros Hin.
  apply list_elem_of_In, list_elem_of_lookup in Hin as (k & Hk).
  apply lookup_zip_with_Some in Hk as (i' & line' & [= -> ->] & Hi & Hline).
  apply lookup_seqZ in Hi as (-> & Hk).
  split; [lia|]. replace (Z.to_nat (1 + Z.of_nat k - 1)) with k by lia. exact Hline.
Qed.

Lemma enumerate1_length lines :
  length (CodeGuardian.enumerate1 lines) = length lines.
Proof.
  unfold CodeGuardian.enumerate1. rewrite length_zip_with, length_seqZ. lia.
Qed.

Lemma enumerate1_numbers lines :
  fst <$> CodeGuardian.enumerate1 lines = seqZ 1 (Z.of_nat (length lines)).
Proof.
  unfold CodeGuardian.enumerate1. apply fst_zip. rewrite length_seqZ. lia.
Qed.

(** A loop over numbered lines that makes at most [k] findings per line. *)
Lemma flat_map_length_le {A B} (g : A -> list B) (k : nat) (l : list A) :
  (forall x, length (g x) <= k)%nat -> (length (flat_map g l) <= k * length l)%nat.
Proof.
  intros Hg. induction l as [|x l IH]; cbn [flat_map length]; [lia|].
  rewrite length_app. specialize (Hg x). lia.
Qed.

Lemma filter_none {B} (P : B -> Prop) `{forall b, Decision (P b)} (l : list B) :
  (forall b, In b l -> ~ P b) -> filter P l = [].
Proof.
  induction l as [|b l IH]; intros Hnone; [reflexivity|].
  rewrite filter_cons. destruct (decide (P b)) as [Hb|_].
  - exfalso. apply (Hnone b); [now left|exact Hb].
  - apply IH. intros b' Hin. apply Hnone. now right.
Qed.

(** A loop over numbered lines that makes at most [k] findings for a line,
    each with the number of that line, makes at most [k] findings with any
    one number. *)
Lemma per_line_bound {B} (key : B -> Z) (g : Z * string -> list B) (k : nat)
    (l : list (Z * string)) :
  NoDup (fst <$> l) ->
  (forall x, length (g x) <= k)%nat ->
  (forall x b, In b (g x) -> key b = fst x) ->
  forall n, (length (filter (fun b => key b = n) (flat_map g l)) <= k)%nat.
Proof.
  intros Hnodup Hg Hkey n. induction l as [|x l IH]; cbn [flat_map]; [cbn; lia|].
  rewrite fmap_cons in Hnodup. apply NoDup_cons in Hnodup as [Hnotin Hnodup].
  rewrite filter_app, length_app.
  destruct (decide (fst x = n)) as [<-|Hother].
  - rewrite (filter_none _ (flat_map g l)).
    + pose proof (length_filter (fun b => key b = fst x) (g x)) as Hle.
      specialize (Hg x). cbn [length]. lia.
    + intros b Hb Hkeyb. apply in_flat_map in Hb as (y & Hy & Hb).
      apply Hkey in Hb. apply Hnotin, list_elem_of_fmap. exists y.
      split; [congruence|]. apply list_elem_of_In, Hy.
  - rewrite (filter_none _ (g x)).
    + cbn [length]. apply IH, Hnodup.
    + intros b Hb Hkeyb. apply Hkey in Hb. congruence.
Qed.

Lemma enumerate1_NoDup lines : NoDup (fst <$> CodeGuardian.enumerate1 lines).
Proof. rewrite enumerate1_numbers. apply NoDup_seqZ. Qed.

Lemma take_length n s : (String.length (Text.take n s) <= n)%nat.
Proof.
  revert s. induction n as [|n IH]; intros [|c s]; cbn; try lia.
  specialize (IH s). lia.
Qed.

Lemma append_length s1 s2 :
  String.length (s1 +:+ s2) = (String.length s1 + String.length s2)%nat.
Proof.
  induction s1 as [|c s1 IH]; [reflexivity|].
  change (S (String.length (s1 +:+ s2)) = S (String.length s1 + String.length s2)).
  now rewrite IH.
Qed.

Lemma take_short n s : (String.length s <= n)%nat -> Text.take n s = s.
Proof.
  revert s. induction n as [|n IH]; intros [|c s]; cbn; try reflexivity; try lia.
  intros Hle. rewrite IH; [reflexivity|lia].
Qed.

(** The fields of a finding that is given by its record. *)
Ltac finding_fields :=
  cbn [brief SecurityFinding.line_number SecurityFinding.vulnerability_type
       SecurityFinding.severity SecurityFinding.owasp_category SecurityFinding.cwe_id
       SecurityFinding.column SecurityFinding.file_path SecurityFinding.code_snippet
       SecurityFinding.confidence SecurityFinding.description].

(** X6.  Every finding of the check for hardcoded secrets is a HIGH
    "Hardcoded Secret" (Cryptographic Failures, CWE-798) at column 0 of a
    line of the text, numbered from 1; its snippet is the first 50
    characters of that line without the spaces around it, followed by three
    dots, hence at most 53 characters long, and the whole of the line when
    the line is that short.  There are at most five findings per line. *)
Theorem hardcoded_secret_findings (source_code file_path : string) :
  let lines := Text.split Text.LF source_code in
  let findings := CodeGuardian._check_hardcoded_secrets source_code file_path in
  (length findings <= 5 * length lines)%nat
  /\ (forall line_no,
        length (filter (fun f => SecurityFinding.line_number f = line_no) findings) <= 5)%nat
  /\ forall f, In f findings ->
       brief f
       = (SecurityFinding.line_number f, "Hardcoded Secret", HIGH,
          A02_CRYPTOGRAPHIC_FAILURES, Some "CWE-798")
       /\ SecurityFinding.column f = 0
       /\ SecurityFinding.file_path f = file_path
       /\ 1 <= SecurityFinding.line_number f <= Z.of_nat (length lines)
       /\ (exists line,
             lines !! Z.to_nat (SecurityFinding.line_number f - 1) = Some line
             /\ SecurityFinding.code_snippet f
                = Text.take 50 (Text.strip line) +:+ "..."
             /\ ((String.length (Text.strip line) <= 50)%nat ->
                 SecurityFinding.code_snippet f = Text.strip line +:+ "..."))
       /\ (String.length (SecurityFinding.code_snippet f) <= 53)%nat.
Proof.
  intros lines findings. split; [|split].
  - subst findings. unfold CodeGuardian._check_hardcoded_secrets. fold lines.
    rewrite <- (enumerate1_length lines). apply flat_map_length_le.
    intros [line_no line].
    etransitivity; [apply (flat_map_length_le _ 1)|cbn; lia].
    intros [pattern secret_type]. destruct (Re.search true pattern line); cbn; lia.
  - subst findings. unfold CodeGuardian._check_hardcoded_secrets. fold lines.
    apply per_line_bound; [apply enumerate1_NoDup| |].
    + intros [line_no line].
      etransitivity; [apply (flat_map_length_le _ 1)|cbn; lia].
      intros [pattern secret_type]. destruct (Re.search true pattern line); cbn; lia.
    + intros [line_no line] f Hin.
      apply in_flat_map in Hin as ([pattern secret_type] & _ & Hin).
      destruct (Re.search true pattern line); [|contradiction].
      destruct Hin as [<-|[]]. reflexivity.
  - intros f Hin. subst findings. unfold CodeGuardian._check_hardcoded_secrets in Hin.
    fold lines in Hin.
    apply in_flat_map in Hin as ([line_no line] & Hline & Hin).
    apply in_flat_map in Hin as ([pattern secret_type] & _ & Hin).
    destruct (Re.search true pattern line); [|contradiction].
    destruct Hin as [<-|[]]. finding_fields.
    apply enumerate1_spec in Hline as (Hrange & Hlookup).
    repeat split; try lia.
    + exists line. repeat split; [exact Hlookup|].
      intros Hshort. now rewrite take_short.
    + rewrite append_length. pose proof (take_length 50 (Text.strip line)) as Hle.
      change (String.length "...") with 3%nat. lia.
Qed.

Lemma split_cons sep s : exists h t, Text.split sep s = h :: t.
Proof.
  destruct s as [|c s]; cbn; [eauto|].
  destruct (Ascii.eqb c sep); [eauto|]. destruct (Text.split sep s); eauto.
Qed.

(** A string without a line feed at the start of a text is at the start
    of its first line. *)
Lemma startswith_first_line sub :
  single_line sub = true ->
  forall s h t,
    Text.split Text.LF s = h :: t ->
    Text.startswith sub s = true -> Text.startswith sub h = true.
Proof.
  induction sub as [|a sub IH]; intros Hsingle s h t Hsplit Hstarts;
    [destruct h; reflexivity|].
  destruct s as [|b s]; [discriminate|].
  cbn in Hsingle, Hstarts.
  apply andb_prop in Hsingle as [Ha Hsingle], Hstarts as [Hab Hstarts].
  apply Ascii.eqb_eq in Hab as <-. apply negb_true_iff in Ha.
  cbn [Text.split] in Hsplit. rewrite Ha in Hsplit.
  destruct (split_cons Text.LF s) as (h' & t' & Hsplit'). rewrite Hsplit' in Hsplit.
  injection Hsplit as <- <-. cbn. rewrite Ascii.eqb_refl. cbn.
  apply (IH Hsingle s h' t' Hsplit' Hstarts).
Qed.

(** A string without a line feed that is in a text is in one of its
    lines. *)
Lemma contains_some_line sub :
  single_line sub = true ->
  forall s, Text.contains sub s = true ->
  exists line, In line (Text.split Text.LF s) /\ Text.contains sub line = true.
Proof.
  intros Hsingle s. induction s as [|c s IH]; intros Hcontains.
  - exists "". split; [now left|exact Hcontains].
  - destruct (split_cons Text.LF (String c s)) as (h & t & Hsplit).
    cbn [Text.contains] in Hcontains. apply orb_prop in Hcontains as [Hstarts|Hcontains].
    + exists h. rewrite Hsplit. split; [now left|].
      pose proof (startswith_first_line sub Hsingle _ _ _ Hsplit Hstarts) as Hh.
      destruct h; cbn [Text.contains]; now rewrite Hh.
    + destruct (IH Hcontains) as (line & Hin & Hline).
      cbn [Text.split]. destruct (Ascii.eqb c Text.LF).
      * exists line. split; [now right|exact Hline].
      * destruct (Text.split Text.LF s) as [|h' t']; [contradiction|].
        destruct Hin as [<-|Hin].
        -- exists (String c h'). split; [now left|].
           cbn [Text.contains]. rewrite Hline. apply orb_true_r.
        -- exists line. split; [now right|exact Hline].
Qed.

Lemma enumerate1_complete lines line :
  In line lines -> exists i, In (i, line) (CodeGuardian.enumerate1 lines).
Proof.
  intros Hin. apply list_elem_of_In, list_elem_of_lookup in Hin as (k & Hk).
  exists (1 + Z.of_nat k). apply list_elem_of_In, list_elem_of_lookup. exists k.
  unfold CodeGuardian.enumerate1. apply lookup_zip_with_Some.
  exists (1 + Z.of_nat k), line. repeat split; [|exact Hk].
  apply lookup_seqZ. split; [reflexivity|]. apply lookup_lt_Some in Hk. lia.
Qed.

Lemma check_weak_crypto_unfold source_code file_path :
  CodeGuardian._check_weak_crypto source_code file_path
  = weak_crypto_of source_code file_path "MD5" "CWE-327"
    ++ weak_crypto_of source_code file_path "SHA1" "CWE-327"
    ++ weak_crypto_of source_code file_path "DES" "CWE-327"
    ++ weak_crypto_of source_code file_path "RC4" "CWE-327".
Proof.
  unfold CodeGuardian._check_weak_crypto, CodeGuardian.weak_crypto.
  cbn [flat_map]. now rewrite app_nil_r.
Qed.

Lemma weak_crypto_of_length source_code file_path algo cwe :
  (length (weak_crypto_of source_code file_path algo cwe) <= 1)%nat.
Proof.
  unfold weak_crypto_of. destruct (Text.contains algo source_code); [|cbn; lia].
  destruct (List.find _ _) as [[line_no line]|]; cbn; lia.
Qed.

Lemma weak_crypto_of_finding source_code file_path algo cwe f :
  In f (weak_crypto_of source_code file_path algo cwe) ->
  brief f
  = (SecurityFinding.line_number f, "Weak Cryptography", MEDIUM,
     A02_CRYPTOGRAPHIC_FAILURES, Some cwe)
  /\ SecurityFinding.column f = 0
  /\ SecurityFinding.file_path f = file_path
  /\ SecurityFinding.description f = "Use of weak cryptographic algorithm: " +:+ algo
  /\ 1 <= SecurityFinding.line_number f
     <= Z.of_nat (length (Text.split Text.LF source_code))
  /\ exists line,
       Text.split Text.LF source_code !! Z.to_nat (SecurityFinding.line_number f - 1)
       = Some line
       /\ Text.contains algo line = true
       /\ SecurityFinding.code_snippet f = Text.strip line.
Proof.
  unfold weak_crypto_of. destruct (Text.contains algo source_code); [|contradiction].
  destruct (List.find _ _) as [[line_no line]|] eqn:Hfind; [|contradiction].
  intros [<-|[]]. finding_fields.
  apply find_some in Hfind as (Hin & Hline).
  apply enumerate1_spec in Hin as (Hrange & Hlookup).
  repeat split; try lia. exists line. repeat split; assumption.
Qed.

Lemma weak_crypto_of_found source_code file_path algo cwe :
  single_line algo = true ->
  Text.contains algo source_code = true ->
  exists f, weak_crypto_of source_code file_path algo cwe = [f].
Proof.
  intros Hsingle Hcontains. unfold weak_crypto_of. rewrite Hcontains.
  destruct (List.find _ _) as [[line_no line]|] eqn:Hfind; [eauto|].
  destruct (contains_some_line algo Hsingle source_code Hcontains) as (line & Hin & Hline).
  destruct (enumerate1_complete _ _ Hin) as (i & Hi).
  pose proof (find_none _ _ Hfind _ Hi) as Hnone. cbn in Hnone. congruence.
Qed.

(** X7.  The check for weak cryptography makes at most four findings,
    however long the text: for each of the names MD5, SHA1, DES and RC4
    that the text contains, in this order, exactly one finding.  Each is a
    MEDIUM "Weak Cryptography" finding (Cryptographic Failures, CWE-327) at
    column 0 of a line that contains the name, with that line, without the
    spaces around it, as its snippet. *)
Theorem weak_crypto_findings (source_code file_path : string) :
  let lines := Text.split Text.LF source_code in
  let findings := CodeGuardian._check_weak_crypto source_code file_path in
  (length findings <= 4)%nat
  /\ length findings
     = length (filter (fun algo => Text.contains algo source_code = true)
                 ["MD5"; "SHA1"; "DES"; "RC4"])
  /\ SecurityFinding.description <$> findings
     = (fun algo => "Use of weak cryptographic algorithm: " +:+ algo)
       <$> filter (fun algo => Text.contains algo source_code = true)
             ["MD5"; "SHA1"; "DES"; "RC4"]
  /\ forall f, In f findings ->
       brief f
       = (SecurityFinding.line_number f, "Weak Cryptography", MEDIUM,
          A02_CRYPTOGRAPHIC_FAILURES, Some "CWE-327")
       /\ SecurityFinding.column f = 0
       /\ SecurityFinding.file_path f = file_path
       /\ 1 <= SecurityFinding.line_number f <= Z.of_nat (length lines)
       /\ exists line algo,
            lines !! Z.to_nat (SecurityFinding.line_number f - 1) = Some line
            /\ In algo ["MD5"; "SHA1"; "DES"; "RC4"]
            /\ Text.contains algo line = true
            /\ SecurityFinding.code_snippet f = Text.strip line.
Proof.
  intros lines findings.
  assert (Hdescriptions :
    SecurityFinding.description <$> findings
    = (fun algo => "Use of weak cryptographic algorithm: " +:+ algo)
      <$> filter (fun algo => Text.contains algo source_code = true)
            ["MD5"; "SHA1"; "DES"; "RC4"]).
  { subst findings. rewrite check_weak_crypto_unfold.
    rewrite !fmap_app, !filter_cons, filter_nil.
    assert (Hone : forall algo,
      single_line algo = true ->
      SecurityFinding.description <$> weak_crypto_of source_code file_path algo "CWE-327"
      = if decide (Text.contains algo source_code = true)
        then ["Use of weak cryptographic algorithm: " +:+ algo] else []).
    { intros algo Hsingle. case_decide as Hcontains.
      - destruct (weak_crypto_of_found source_code file_path algo "CWE-327" Hsingle
                    Hcontains) as (f & Hf).
        pose proof (weak_crypto_of_finding source_code file_path algo "CWE-327" f) as Hfields.
        rewrite Hf in *. destruct Hfields as (_ & _ & _ & Hdescription & _); [now left|].
        cbn. now rewrite Hdescription.
      - unfold weak_crypto_of. now destruct (Text.contains algo source_code). }
    rewrite !Hone by reflexivity.
    repeat case_decide; reflexivity. }
  assert (Hlength :
    length findings
    = length (filter (fun algo => Text.contains algo source_code = true)
                ["MD5"; "SHA1"; "DES"; "RC4"])).
  { rewrite <- (length_fmap SecurityFinding.description findings), Hdescriptions.
    now rewrite length_fmap. }
  split; [|split; [exact Hlength|split; [exact Hdescriptions|]]].
  - rewrite Hlength. etransitivity; [apply length_filter|]. cbn. lia.
  - intros f Hin. subst findings lines. rewrite check_weak_crypto_unfold in Hin.
    repeat (apply in_app_or in Hin as [Hin|Hin]);
      apply weak_crypto_of_finding in Hin
        as (Hbrief & Hcolumn & Hpath & _ & Hrange & line & Hlookup & Hcontains & Hsnippet);
      (split; [exact Hbrief|]); (split; [exact Hcolumn|]); (split; [exact Hpath|]);
      (split; [exact Hrange|]);
      eexists line, _; (repeat split; [exact Hlookup| |exact Hcontains|exact Hsnippet]);
      cbn; auto.
Qed.

(** A loop that makes at most one item per element, with the key of the
    element, makes a sublist of the keys. *)
Lemma flat_map_keys_sublist {A B K} (g : A -> list B) (key : B -> K) (key' : A -> K)
    (l : list A) :
  (forall x, g x = [] \/ exists y, g x = [y] /\ key y = key' x) ->
  sublist (key <$> flat_map g l) (key' <$> l).
Proof.
  intros Hg. induction l as [|x l IH]; cbn [flat_map fmap list_fmap]; [constructor|].
  destruct (Hg x) as [->|(y & -> & <-)]; cbn.
  - now apply sublist_cons.
  - now apply sublist_skip.
Qed.

(** X8.  The check for sensitive data in logs makes at most one finding per
    line, in the order of the lines: the line numbers of its findings are a
    sublist of 1, ..., n for a text of n lines.  Each is a MEDIUM "Sensitive
    Data in Logs" finding (Logging Failures, CWE-532) at column 0, with the
    line, without the spaces around it, as its snippet. *)
Theorem logging_findings (source_code file_path : string) :
  let lines := Text.split Text.LF source_code in
  let findings := CodeGuardian._check_logging_issues source_code file_path in
  sublist (SecurityFinding.line_number <$> findings) (seqZ 1 (Z.of_nat (length lines)))
  /\ (length findings <= length lines)%nat
  /\ NoDup (SecurityFinding.line_number <$> findings)
  /\ forall f, In f findings ->
       brief f
       = (SecurityFinding.line_number f, "Sensitive Data in Logs", MEDIUM,
          A09_LOGGING_FAILURES, Some "CWE-532")
       /\ SecurityFinding.column f = 0
       /\ SecurityFinding.file_path f = file_path
       /\ exists line,
            lines !! Z.to_nat (SecurityFinding.line_number f - 1) = Some line
            /\ SecurityFinding.code_snippet f = Text.strip line.
Proof.
  intros lines findings.
  assert (Hsublist :
    sublist (SecurityFinding.line_number <$> findings)
      (seqZ 1 (Z.of_nat (length lines)))).
  { subst findings. unfold CodeGuardian._check_logging_issues. fold lines.
    rewrite <- enumerate1_numbers. apply flat_map_keys_sublist.
    intros [line_no line]. destruct (existsb _ _); [right|left; reflexivity].
    eexists. split; reflexivity. }
  split; [exact Hsublist|split; [|split]].
  - apply sublist_length in Hsublist. rewrite length_fmap, length_seqZ in Hsublist. lia.
  - eapply sublist_NoDup; [apply NoDup_seqZ|exact Hsublist].
  - intros f Hin. subst findings. unfold CodeGuardian._check_logging_issues in Hin.
    fold lines in Hin. apply in_flat_map in Hin as ([line_no line] & Hline & Hin).
    destruct (existsb _ _); [|contradiction]. destruct Hin as [<-|[]]. finding_fields.
    apply enumerate1_spec in Hline as (_ & Hlookup).
    repeat split. exists line. split; [exact Hlookup|reflexivity].
Qed.

(** X9.  Every finding of the analysis of a JavaScript or TypeScript text
    is one of the four kinds of the table, with the severity and category of
    its kind, at column 0 of a line of the text, with that line, without the
    spaces around it, as its snippet, no CWE identifier and confidence 1.
    There are at most four findings per line. *)
Theorem javascript_findings (file_path : Path.t) (source_code : string) :
  let lines := Text.split Text.LF source_code in
  let findings := fst (CodeGuardian._analyze_javascript file_path source_code) in
  (length findings <= 4 * length lines)%nat
  /\ (forall line_no,
        length (filter (fun f => SecurityFinding.line_number f = line_no) findings) <= 4)%nat
  /\ forall f, In f findings ->
       In (SecurityFinding.vulnerability_type f, SecurityFinding.severity f,
           SecurityFinding.owasp_category f)
          [ ("Eval Usage", HIGH, A03_INJECTION);
            ("innerHTML Usage", MEDIUM, A03_INJECTION);
            ("document.write Usage", LOW, A03_INJECTION);
            ("Client Storage", LOW, A02_CRYPTOGRAPHIC_FAILURES) ]
       /\ SecurityFinding.column f = 0
       /\ SecurityFinding.file_path f = Path.str file_path
       /\ SecurityFinding.cwe_id f = None
       /\ (SecurityFinding.confidence f == 1)%Q
       /\ 1 <= SecurityFinding.line_number f <= Z.of_nat (length lines)
       /\ exists line,
            lines !! Z.to_nat (SecurityFinding.line_number f - 1) = Some line
            /\ SecurityFinding.code_snippet f = Text.strip line.
Proof.
  intros lines findings. subst findings. unfold CodeGuardian._analyze_javascript.
  fold lines. cbn [fst]. split; [|split].
  - rewrite <- (enumerate1_length lines). apply flat_map_length_le.
    intros [line_no line].
    etransitivity; [apply (flat_map_length_le _ 1)|cbn; lia].
    intros [[[pattern vuln_type] severity] owasp].
    destruct (Re.search false pattern line); cbn; lia.
  - apply per_line_bound; [apply enumerate1_NoDup| |].
    + intros [line_no line].
      etransitivity; [apply (flat_map_length_le _ 1)|cbn; lia].
      intros [[[pattern vuln_type] severity] owasp].
      destruct (Re.search false pattern line); cbn; lia.
    + intros [line_no line] f Hin.
      apply in_flat_map in Hin as ([[[pattern vuln_type] severity] owasp] & _ & Hin).
      destruct (Re.search false pattern line); [|contradiction].
      destruct Hin as [<-|[]]. reflexivity.
  - intros f Hin. apply in_flat_map in Hin as ([line_no line] & Hline & Hin).
    apply in_flat_map in Hin as ([[[pattern vuln_type] severity] owasp] & Hrow & Hin).
    destruct (Re.search false pattern line); [|contradiction].
    destruct Hin as [<-|[]]. finding_fields.
    apply enumerate1_spec in Hline as (Hrange & Hlookup).
    split; [|repeat split; try lia; try reflexivity;
             exists line; split; [exact Hlookup|reflexivity]].
    unfold CodeGuardian.javascript_patterns in Hrow. cbn in Hrow.
    destruct Hrow as [[= <- <- <- <-]|[[= <- <- <- <-]|[[= <- <- <- <-]|[[= <- <- <- <-]|[]]]]];
      cbn; auto.
Qed.

(** ** The scan of one file *)

Lemma well_formed_hardcoded_secrets source_code file_path :
  Forall (well_formed file_path)
    (CodeGuardian._check_hardcoded_secrets source_code file_path).
Proof.
  apply Forall_forall. intros f Hin. apply list_elem_of_In in Hin.
  unfold CodeGuardian._check_hardcoded_secrets in Hin.
  apply in_flat_map in Hin as ([line_no line] & _ & Hin).
  apply in_flat_map in Hin as ([pattern secret_type] & _ & Hin).
  destruct (Re.search true pattern line); [|contradiction].
  destruct Hin as [<-|[]]. well_formed_literal.
Qed.

Lemma well_formed_weak_crypto source_code file_path :
  Forall (well_formed file_path) (CodeGuardian._check_weak_crypto source_code file_path).
Proof.
  apply Forall_forall. intros f Hin. apply list_elem_of_In in Hin.
  rewrite check_weak_crypto_unfold in Hin.
  repeat (apply in_app_or in Hin as [Hin|Hin]);
    unfold weak_crypto_of in Hin;
    (destruct (Text.contains _ source_code); [|contradiction]);
    (destruct (List.find _ _) as [[line_no line]|]; [|contradiction]);
    destruct Hin as [<-|[]]; well_formed_literal.
Qed.

Lemma well_formed_logging_issues source_code file_path :
  Forall (well_formed file_path)
    (CodeGuardian._check_logging_issues source_code file_path).
Proof.
  apply Forall_forall. intros f Hin. apply list_elem_of_In in Hin.
  unfold CodeGuardian._check_logging_issues in Hin.
  apply in_flat_map in Hin as ([line_no line] & _ & Hin).
  destruct (existsb _ _); [|contradiction].
  destruct Hin as [<-|[]]. well_formed_literal.
Qed.

Lemma well_formed_javascript file_path source_code :
  Forall (well_formed (Path.str file_path))
    (fst (CodeGuardian._analyze_javascript file_path source_code)).
Proof.
  apply Forall_forall. intros f Hin. apply list_elem_of_In in Hin.
  unfold CodeGuardian._analyze_javascript in Hin. cbn [fst] in Hin.
  apply in_flat_map in Hin as ([line_no line] & _ & Hin).
  apply in_flat_map in Hin as ([[[pattern vuln_type] severity] owasp] & _ & Hin).
  destruct (Re.search false pattern line); [|contradiction].
  destruct Hin as [<-|[]]. well_formed_literal.
Qed.

Lemma well_formed_analyze_python ast_parse file_path source_code findings metrics :
  CodeGuardian._analyze_python ast_parse file_path source_code = Ok (findings, metrics) ->
  Forall (well_formed (Path.str file_path)) findings.
Proof.
  unfold CodeGuardian._analyze_python.
  destruct (ast_parse source_code) as [tree|[]]; try discriminate.
  - intros [= <- _].
    destruct (extends_visit tree
                (ASTSecurityAnalyzer.init (Path.str file_path) source_code))
      as (_ & _ & (added & -> & Hadded) & _).
    apply Forall_app. split; [apply Forall_app; split; [apply Forall_app; split|]|].
    + exact Hadded.
    + apply well_formed_hardcoded_secrets.
    + apply well_formed_weak_crypto.
    + apply well_formed_logging_issues.
  - intros [= <- _]. constructor.
Qed.

(** X10.  Every finding that [scan_file] returns, for a file of any type,
    carries the path of the file and a confidence between 0 and 1. *)
Theorem scan_file_findings_well_formed
    (ast_parse : parser) (fs : Path.entry) (self self' : CodeGuardian.t) (p : Path.t)
    (findings : list SecurityFinding.t) (metrics : CodeMetrics.t) :
  CodeGuardian.scan_file ast_parse fs self p = (Ok (findings, metrics), self') ->
  forall f, In f findings ->
    SecurityFinding.file_path f = Path.str p
    /\ (0 <= SecurityFinding.confidence f)%Q
    /\ (SecurityFinding.confidence f <= 1)%Q.
Proof.
  intros Hscan.
  assert (Hall : Forall (well_formed (Path.str p)) findings).
  { unfold CodeGuardian.scan_file in Hscan.
    destruct (negb (Path.exists_ fs p)); [discriminate|].
    destruct (negb (Text.member (Path.suffix p) CodeGuardian.supported_suffixes)).
    { injection Hscan as <- _ _. constructor. }
    destruct (Path.read_text fs p) as [source_code|e]; [|discriminate].
    destruct (String.eqb (Path.suffix p) ".py").
    - destruct (CodeGuardian._analyze_python ast_parse p source_code)
        as [[findings0 metrics0]|e] eqn:Hanalyze; [|discriminate].
      injection Hscan as <- _ _. apply (well_formed_analyze_python _ _ _ _ _ Hanalyze).
    - pose proof (well_formed_javascript p source_code) as Hjs.
      destruct (CodeGuardian._analyze_javascript p source_code) as [findings0 metrics0].
      injection Hscan as <- _ _. exact Hjs. }
  intros f Hin. rewrite Forall_forall in Hall. apply Hall. now apply list_elem_of_In.
Qed.

Lemma scan_file_findings_well_formed_witness :
  List.Forall
    (fun f =>
       SecurityFinding.file_path f = "tmp/secrets.py"
       /\ (0 <= SecurityFinding.confidence f)%Q
       /\ (SecurityFinding.confidence f <= 1)%Q)
    (ASTSecurityAnalyzer.findings
       (ASTSecurityAnalyzer.visit Files.secrets_py_tree
          (ASTSecurityAnalyzer.init "tmp/secrets.py" Files.secrets_py))
     ++ Spec.textual_findings Files.secrets_py "tmp/secrets.py").
Proof.
  apply List.Forall_forall.
  apply (scan_file_findings_well_formed Files.ast_parse
           (Files.test_dir [("secrets.py", Files.file Files.secrets_py)])
           Files.guardian
           (CodeGuardian.cache_results "tmp/secrets.py"
              (ASTSecurityAnalyzer.findings
                 (ASTSecurityAnalyzer.visit Files.secrets_py_tree
                    (ASTSecurityAnalyzer.init "tmp/secrets.py" Files.secrets_py))
               ++ Spec.textual_findings Files.secrets_py "tmp/secrets.py")
              (CodeMetrics.set_dependencies ∅
                 (CodeGuardian._calculate_python_metrics Files.secrets_py_tree
                    Files.secrets_py))
              Files.guardian)
           ["tmp"; "secrets.py"] _
           (CodeMetrics.set_dependencies ∅
              (CodeGuardian._calculate_python_metrics Files.secrets_py_tree
                 Files.secrets_py))).
  vm_compute. reflexivity.
Defined.

(** X11.  The caches of [scan_file].  After the scan of a file of a
    supported type that does not raise, the findings and the metrics
    returned are what the two caches hold for the path of the file; the
    other entries of the caches and the scan history are as before.  A scan
    that raises, and the scan of a file of another type, leave the object as
    it was. *)
Theorem scan_file_caches
    (ast_parse : parser) (fs : Path.entry) (self : CodeGuardian.t) (p : Path.t) :
  let r := CodeGuardian.scan_file ast_parse fs self p in
  match fst r with
  | Ok (findings, metrics) =>
      if Text.member (Path.suffix p) CodeGuardian.supported_suffixes then
        CodeGuardian.vulnerability_database (snd r) !! Path.str p = Some findings
        /\ CodeGuardian.metrics_cache (snd r) !! Path.str p = Some metrics
        /\ (forall key, key <> Path.str p ->
              CodeGuardian.vulnerability_database (snd r) !! key
              = CodeGuardian.vulnerability_database self !! key
              /\ CodeGuardian.metrics_cache (snd r) !! key
                 = CodeGuardian.metrics_cache self !! key)
        /\ CodeGuardian.scan_history (snd r) = CodeGuardian.scan_history self
      else snd r = self
  | Raise _ => snd r = self
  end.
Proof.
  cbv zeta. unfold CodeGuardian.scan_file.
  destruct (negb (Path.exists_ fs p)); [reflexivity|].
  destruct (Text.member (Path.suffix p) CodeGuardian.supported_suffixes) eqn:Hsupported;
    cbn [negb]; [|reflexivity].
  destruct (Path.read_text fs p) as [source_code|e]; [|reflexivity].
  destruct (if String.eqb (Path.suffix p) ".py" then _ else _)
    as [[findings metrics]|e]; [|reflexivity].
  cbn [fst snd]. cbn.
  repeat split; try apply lookup_insert_eq;
    intros; apply lookup_insert_ne; congruence.
Qed.

Lemma scan_file_result_independent ast_parse fs self1 self2 p :
  fst (CodeGuardian.scan_file ast_parse fs self1 p)
  = fst (CodeGuardian.scan_file ast_parse fs self2 p).
Proof.
  unfold CodeGuardian.scan_file.
  destruct (negb (Path.exists_ fs p)); [reflexivity|].
  destruct (negb (Text.member (Path.suffix p) CodeGuardian.supported_suffixes));
    [reflexivity|].
  destruct (Path.read_text fs p) as [source_code|e]; [|reflexivity].
  destruct (if String.eqb (Path.suffix p) ".py" then _ else _)
    as [[findings metrics]|e]; reflexivity.
Qed.

(** X12.  What [scan_file] returns does not depend on the caches or on the
    history of the object, and the scan is idempotent: a second scan of the
    same path, right after the first, returns the same result and leaves
    the object as the first scan left it. *)
Theorem scan_file_idempotent
    (ast_parse : parser) (fs : Path.entry) (self other : CodeGuardian.t) (p : Path.t) :
  fst (CodeGuardian.scan_file ast_parse fs other p)
  = fst (CodeGuardian.scan_file ast_parse fs self p)
  /\ CodeGuardian.scan_file ast_parse fs
       (snd (CodeGuardian.scan_file ast_parse fs self p)) p
     = CodeGuardian.scan_file ast_parse fs self p.
Proof.
  split; [apply scan_file_result_independent|].
  unfold CodeGuardian.scan_file.
  destruct (negb (Path.exists_ fs p)); [reflexivity|].
  destruct (negb (Text.member (Path.suffix p) CodeGuardian.supported_suffixes));
    [reflexivity|].
  destruct (Path.read_text fs p) as [source_code|e]; [|reflexivity].
  destruct (if String.eqb (Path.suffix p) ".py" then _ else _)
    as [[findings metrics]|e]; [|reflexivity].
  cbn [snd]. unfold CodeGuardian.cache_results. cbn.
  now rewrite !insert_insert_eq.
Qed.

(** ** The scan of a directory *)

Lemma scan_file_keeps_history ast_parse fs self p :
  CodeGuardian.scan_history (snd (CodeGuardian.scan_file ast_parse fs self p))
  = CodeGuardian.scan_history self
  /\ CodeGuardian.power_cost (snd (CodeGuardian.scan_file ast_parse fs self p))
     = CodeGuardian.power_cost self.
Proof.
  unfold CodeGuardian.scan_file.
  destruct (negb (Path.exists_ fs p)); [split; reflexivity|].
  destruct (negb (Text.member (Path.suffix p) CodeGuardian.supported_suffixes));
    [split; reflexivity|].
  destruct (Path.read_text fs p) as [source_code|e]; [|split; reflexivity].
  destruct (if String.eqb (Path.suffix p) ".py" then _ else _)
    as [[findings metrics]|e]; split; reflexivity.
Qed.

Lemma scan_one_keeps ast_parse fs st p :
  let st' := CodeGuardian.scan_one ast_parse fs st p in
  CodeGuardian.scan_history (CodeGuardian.guardian st')
  = CodeGuardian.scan_history (CodeGuardian.guardian st)
  /\ CodeGuardian.power_cost (CodeGuardian.guardian st')
     = CodeGuardian.power_cost (CodeGuardian.guardian st)
  /\ CodeGuardian.files_scanned st <= CodeGuardian.files_scanned st'
     <= CodeGuardian.files_scanned st + 1.
Proof.
  cbv zeta. unfold CodeGuardian.scan_one.
  destruct (Path.is_file fs p); [|repeat split; lia].
  pose proof (scan_file_keeps_history ast_parse fs (CodeGuardian.guardian st) p)
    as (Hhistory & Hpower).
  destruct (CodeGuardian.scan_file ast_parse fs (CodeGuardian.guardian st) p)
    as [[[findings metrics]|e] self']; cbn in *; repeat split; try assumption; lia.
Qed.

Lemma scan_files_keep ast_parse fs files st :
  let st' := foldl (CodeGuardian.scan_one ast_parse fs) st files in
  CodeGuardian.scan_history (CodeGuardian.guardian st')
  = CodeGuardian.scan_history (CodeGuardian.guardian st)
  /\ CodeGuardian.power_cost (CodeGuardian.guardian st')
     = CodeGuardian.power_cost (CodeGuardian.guardian st)
  /\ CodeGuardian.files_scanned st <= CodeGuardian.files_scanned st'
     <= CodeGuardian.files_scanned st + Z.of_nat (length files).
Proof.
  cbv zeta. revert st. induction files as [|p files IH]; intros st; cbn [foldl length].
  - repeat split; lia.
  - destruct (IH (CodeGuardian.scan_one ast_parse fs st p)) as (-> & -> & Hcount).
    destruct (scan_one_keeps ast_parse fs st p) as (-> & -> & Hstep).
    repeat split; lia.
Qed.

(** X13.  [scan_directory] raises [FileNotFoundError], and leaves the
    object as it was, exactly when the directory does not exist.  Otherwise
    it returns a result, whatever happens to the single files, and appends
    this result, and nothing else, to the scan history; the result carries
    the given time and the path of the directory, a number of scanned files
    between 0 and the number of paths that were enumerated, and a power
    consumption of [power_cost * files_scanned / 100]. *)
Theorem scan_directory_outcome
    (ast_parse : parser) (fs : Path.entry) (now : string) (self : CodeGuardian.t)
    (directory : Path.t) (recursive : bool) :
  let r := CodeGuardian.scan_directory ast_parse fs now self directory recursive in
  if Path.exists_ fs directory then
    exists result,
      fst r = Ok result
      /\ CodeGuardian.scan_history (snd r) = CodeGuardian.scan_history self ++ [result]
      /\ ScanResult.timestamp result = now
      /\ ScanResult.directory result = Path.str directory
      /\ 0 <= ScanResult.files_scanned result
         <= Z.of_nat (length (CodeGuardian.enumerate_files fs directory recursive))
      /\ (ScanResult.power_consumed result
          == CodeGuardian.power_cost self
             * (inject_Z (ScanResult.files_scanned result) / 100))%Q
  else
    r = (Raise (FileNotFoundError ("Directory not found: " +:+ Path.str directory)), self).
Proof.
  cbv zeta. unfold CodeGuardian.scan_directory.
  destruct (Path.exists_ fs directory); cbn [negb]; [|reflexivity].
  eexists. split; [reflexivity|]. cbn.
  destruct (scan_files_keep ast_parse fs
              (CodeGuardian.enumerate_files fs directory recursive)
              {| CodeGuardian.guardian := self; CodeGuardian.files_scanned := 0;
                 CodeGuardian.total_findings := []; 
                 CodeGuardian.aggregated_metrics := CodeMetrics.new |})
    as (Hhistory & Hpower & Hcount).
  cbn in Hhistory, Hpower, Hcount. unfold CodeGuardian.scan_loop.
  rewrite Hhistory, Hpower. repeat split; try lia.
Qed.

Lemma Zsum_app l1 l2 : Zsum (l1 ++ l2) = Zsum l1 + Zsum l2.
Proof. unfold Zsum. induction l1 as [|x l1 IH]; cbn; lia. Qed.

Lemma scan_files_additive ast_parse fs files st :
  let st' := foldl (CodeGuardian.scan_one ast_parse fs) st files in
  let scans := successful_scans ast_parse fs files in
  CodeGuardian.files_scanned st'
  = CodeGuardian.files_scanned st + Z.of_nat (length scans)
  /\ CodeGuardian.total_findings st'
     = CodeGuardian.total_findings st ++ concat (fst <$> scans)
  /\ CodeMetrics.total_lines (CodeGuardian.aggregated_metrics st')
     = CodeMetrics.total_lines (CodeGuardian.aggregated_metrics st)
       + Zsum ((fun scanned => CodeMetrics.total_lines (snd scanned)) <$> scans)
  /\ CodeMetrics.code_lines (CodeGuardian.aggregated_metrics st')
     = CodeMetrics.code_lines (CodeGuardian.aggregated_metrics st)
       + Zsum ((fun scanned => CodeMetrics.code_lines (snd scanned)) <$> scans)
  /\ CodeMetrics.comment_lines (CodeGuardian.aggregated_metrics st')
     = CodeMetrics.comment_lines (CodeGuardian.aggregated_metrics st)
       + Zsum ((fun scanned => CodeMetrics.comment_lines (snd scanned)) <$> scans)
  /\ CodeMetrics.dependencies (CodeGuardian.aggregated_metrics st')
     = CodeMetrics.dependencies (CodeGuardian.aggregated_metrics st)
       ∪ ⋃ ((fun scanned => CodeMetrics.dependencies (snd scanned)) <$> scans).
Proof.
  cbv zeta. revert st. induction files as [|p files IH]; intros st.
  - cbn. rewrite app_nil_r, union_empty_r_L. repeat split; lia.
  - cbn [foldl]. destruct (IH (CodeGuardian.scan_one ast_parse fs st p))
      as (-> & -> & -> & -> & -> & ->).
    unfold successful_scans. cbn [omap list_omap]. fold (successful_scans ast_parse fs files).
    unfold CodeGuardian.scan_one.
    destruct (Path.is_file fs p); [|repeat split; reflexivity].
    rewrite (scan_file_result_independent ast_parse fs (CodeGuardian.init [])
               (CodeGuardian.guardian st) p).
    destruct (CodeGuardian.scan_file ast_parse fs (CodeGuardian.guardian st) p)
      as [[[findings metrics]|e] self']; cbn [fst]; [|repeat split; reflexivity].
    cbn. rewrite <- app_assoc, <- (assoc_L (∪)). unfold Zsum. cbn.
    repeat split; lia.
Qed.

(** X14.  Additivity of the directory scan.  With the files that are
    scanned without raising taken in the order of the enumeration: the
    number of files scanned is their number, the findings are their findings
    one file after the other, the total, code and comment lines of the
    aggregate are the sums of theirs, and its dependencies the union of
    theirs.  A file whose scan raises adds nothing. *)
Theorem scan_directory_additive
    (ast_parse : parser) (fs : Path.entry) (self : CodeGuardian.t)
    (directory : Path.t) (recursive : bool) :
  let st := CodeGuardian.scan_loop ast_parse fs self directory recursive in
  let scans :=
    successful_scans ast_parse fs (CodeGuardian.enumerate_files fs directory recursive) in
  CodeGuardian.files_scanned st = Z.of_nat (length scans)
  /\ CodeGuardian.total_findings st = concat (fst <$> scans)
  /\ CodeMetrics.total_lines (CodeGuardian.aggregated_metrics st)
     = Zsum ((fun scanned => CodeMetrics.total_lines (snd scanned)) <$> scans)
  /\ CodeMetrics.code_lines (CodeGuardian.aggregated_metrics st)
     = Zsum ((fun scanned => CodeMetrics.code_lines (snd scanned)) <$> scans)
  /\ CodeMetrics.comment_lines (CodeGuardian.aggregated_metrics st)
     = Zsum ((fun scanned => CodeMetrics.comment_lines (snd scanned)) <$> scans)
  /\ CodeMetrics.dependencies (CodeGuardian.aggregated_metrics st)
     = ⋃ ((fun scanned => CodeMetrics.dependencies (snd scanned)) <$> scans).
Proof.
  cbv zeta. unfold CodeGuardian.scan_loop.
  destruct (scan_files_additive ast_parse fs
              (CodeGuardian.enumerate_files fs directory recursive)
              {| CodeGuardian.guardian := self; CodeGuardian.files_scanned := 0;
                 CodeGuardian.total_findings := []; 
                 CodeGuardian.aggregated_metrics := CodeMetrics.new |})
    as (-> & -> & -> & -> & -> & ->).
  cbn. rewrite union_empty_l_L. repeat split; lia.
Qed.

(** Lookup after [dict_append]. *)
Lemma assoc_dict_append {A} (k k' : string) (v : A) (d : list (string * list A)) :
  Text.assoc k (CodeGuardian.dict_append k' v d)
  = if String.eqb k k' then Some (default [] (Text.assoc k d) ++ [v])
    else Text.assoc k d.
Proof.
  induction d as [|[k0 vs] d IH]; cbn [CodeGuardian.dict_append Text.assoc].
  - destruct (String.eqb k k'); reflexivity.
  - destruct (String.eqb_spec k' k0) as [->|Hne]; cbn [Text.assoc].
    + destruct (String.eqb k k0); reflexivity.
    + rewrite IH. destruct (String.eqb_spec k k0) as [->|Hne'].
      * destruct (String.eqb_spec k0 k') as [->|_]; [congruence|reflexivity].
      * reflexivity.
Qed.

Lemma keys_dict_append {A} (k : string) (v : A) (d : list (string * list A)) :
  fst <$> CodeGuardian.dict_append k v d
  = if decide (k ∈ fst <$> d) then fst <$> d else (fst <$> d) ++ [k].
Proof.
  induction d as [|[k0 vs] d IH]; cbn [CodeGuardian.dict_append fmap list_fmap fst].
  - case_decide as Hin; [inversion Hin|reflexivity].
  - destruct (String.eqb_spec k k0) as [->|Hne]; cbn [fmap list_fmap fst].
    + rewrite decide_True by constructor. reflexivity.
    + change (list_fmap _ _ fst ?l) with (fst <$> l). rewrite IH.
      repeat case_decide; try reflexivity; exfalso;
        rewrite elem_of_cons in *; tauto.
Qed.

(** The dictionary of the findings by category. *)
Lemma groups_spec {A} (key : A -> string) (l : list A) (d : list (string * list A)) :
  let d' := foldl (fun d x => CodeGuardian.dict_append (key x) x d) d l in
  (forall k, default [] (Text.assoc k d')
             = default [] (Text.assoc k d) ++ filter (fun x => key x = k) l)
  /\ (NoDup (fst <$> d) -> NoDup (fst <$> d'))
  /\ (Forall (fun kv => snd kv <> []) d -> Forall (fun kv => snd kv <> []) d')
  /\ Zsum ((fun kv => Z.of_nat (length (snd kv))) <$> d')
     = Zsum ((fun kv => Z.of_nat (length (snd kv))) <$> d) + Z.of_nat (length l).
Proof.
  cbv zeta. revert d. induction l as [|x l IH]; intros d; cbn [foldl].
  - split; [intros k; now rewrite filter_nil, app_nil_r|]. repeat split; try tauto.
    cbn. lia.
  - destruct (IH (CodeGuardian.dict_append (key x) x d)) as (Hlookup & Hkeys & Hvalues & Hsum).
    split; [|split; [|split]].
    + intros k. rewrite Hlookup, assoc_dict_append, filter_cons.
      destruct (String.eqb_spec k (key x)) as [->|Hne].
      * rewrite decide_True by reflexivity. cbn. now rewrite <- app_assoc.
      * rewrite decide_False by congruence. reflexivity.
    + intros Hd. apply Hkeys. rewrite keys_dict_append.
      case_decide as Hin; [exact Hd|].
      apply NoDup_app. repeat split; [exact Hd| |apply NoDup_singleton].
      intros k Hk Hk'. apply list_elem_of_singleton in Hk' as ->. contradiction.
    + intros Hd. apply Hvalues. clear -Hd.
      induction d as [|[k0 vs] d IHd]; cbn [CodeGuardian.dict_append].
      * constructor; [discriminate|constructor].
      * apply Forall_cons in Hd as [Hhead Htail].
        destruct (String.eqb (key x) k0); constructor; cbn; auto.
        now destruct vs.
    + rewrite Hsum. cbn [length]. clear.
      assert (Hstep :
        Zsum ((fun kv => Z.of_nat (length (snd kv))) <$> CodeGuardian.dict_append (key x) x d)
        = Zsum ((fun kv => Z.of_nat (length (snd kv))) <$> d) + 1).
      { induction d as [|[k0 vs] d IHd]; cbn [CodeGuardian.dict_append].
        - reflexivity.
        - destruct (String.eqb (key x) k0).
          + unfold Zsum. cbn. rewrite length_app. cbn. lia.
          + unfold Zsum in *. cbn in *. lia. }
      lia.
Qed.

Lemma assoc_fmap_length {A} (k : string) (d : list (string * list A)) :
  Text.assoc k ((fun '(k, v) => (k, Z.of_nat (length v))) <$> d)
  = (fun v => Z.of_nat (length v)) <$> Text.assoc k d.
Proof.
  induction d as [|[k0 vs] d IH]; cbn; [reflexivity|].
  destruct (String.eqb k k0); [reflexivity|exact IH].
Qed.

Lemma filter_to_dict_owasp (k : string) (l : list SecurityFinding.t) :
  length (filter (fun d => FindingDict.owasp d = k) (to_dict <$> l))
  = length (filter (fun f => OWASPCategory_value (SecurityFinding.owasp_category f) = k) l).
Proof.
  induction l as [|f l IH]; [reflexivity|].
  cbn [fmap list_fmap]. rewrite !filter_cons. cbn [to_dict FindingDict.owasp].
  change (list_fmap _ _ to_dict l) with (to_dict <$> l).
  case_decide; cbn [length]; now rewrite IH.
Qed.

(** X15.  In every result of [scan_directory], [owasp_distribution] has
    each category at most once, no category with a count of 0, for each
    category the number of findings of the result with that category (0
    for a category that is absent), and counts that add up to
    [total_findings]. *)
Theorem owasp_distribution_counts
    (ast_parse : parser) (fs : Path.entry) (now : string) (self self' : CodeGuardian.t)
    (directory : Path.t) (recursive : bool) (r : ScanResult.t) :
  CodeGuardian.scan_directory ast_parse fs now self directory recursive = (Ok r, self') ->
  NoDup (fst <$> ScanResult.owasp_distribution r)
  /\ (forall category count,
        In (category, count) (ScanResult.owasp_distribution r) -> 1 <= count)
  /\ (forall category,
        CodeGuardian.dict_get0 category (ScanResult.owasp_distribution r)
        = Z.of_nat (length (filter (fun d => FindingDict.owasp d = category)
                              (ScanResult.findings r))))
  /\ Spec.sum_values (ScanResult.owasp_distribution r) = ScanResult.total_findings r.
Proof.
  unfold CodeGuardian.scan_directory.
  destruct (negb (Path.exists_ fs directory)); [discriminate|].
  intros Hscan. injection Hscan as <- _.
  cbn [ScanResult.owasp_distribution ScanResult.total_findings ScanResult.findings].
  set (findings := CodeGuardian.total_findings
                     (CodeGuardian.scan_loop ast_parse fs self directory recursive)).
  destruct (groups_spec
              (fun f => OWASPCategory_value (SecurityFinding.owasp_category f)) findings [])
    as (Hlookup & Hkeys & Hvalues & Hsum).
  set (groups := foldl _ [] findings) in *.
  assert (Hfst : fst <$> ((fun '(k, v) => (k, Z.of_nat (length v))) <$> groups)
                 = fst <$> groups).
  { rewrite <- list_fmap_compose. apply list_fmap_ext. now intros _ [k v] _. }
  assert (Hsnd : snd <$> ((fun '(k, v) => (k, Z.of_nat (length v))) <$> groups)
                 = (fun kv : string * list SecurityFinding.t => Z.of_nat (length (snd kv)))
                   <$> groups).
  { rewrite <- list_fmap_compose. apply list_fmap_ext. now intros _ [k v] _. }
  split; [|split; [|split]].
  - rewrite Hfst. apply Hkeys. constructor.
  - intros category count Hin.
    apply list_elem_of_In, list_elem_of_fmap in Hin as ([k v] & [= -> ->] & Hin).
    specialize (Hvalues ltac:(constructor)). rewrite Forall_forall in Hvalues.
    specialize (Hvalues _ Hin). cbn in Hvalues. destruct v; [congruence|cbn; lia].
  - intros category. unfold CodeGuardian.dict_get0.
    rewrite assoc_fmap_length, filter_to_dict_owasp.
    specialize (Hlookup category). cbn [Text.assoc default app] in Hlookup.
    rewrite <- Hlookup. now destruct (Text.assoc category groups).
  - unfold Spec.sum_values. rewrite Hsnd. fold (Zsum
      ((fun kv : string * list SecurityFinding.t => Z.of_nat (length (snd kv))) <$> groups)).
    rewrite Hsum. cbn. reflexivity.
Qed.

Lemma owasp_distribution_counts_witness :
  exists r,
    fst (CodeGuardian.scan_directory Files.ast_parse
           (Files.test_dir [("pkg", Path.Dir [("crypto.py", Files.file Files.crypto_py)])])
           "2024-01-01T00:00:00" Files.guardian ["tmp"] true) = Ok r
    /\ NoDup (fst <$> ScanResult.owasp_distribution r)
    /\ (forall category count,
          In (category, count) (ScanResult.owasp_distribution r) -> 1 <= count)
    /\ (forall category,
          CodeGuardian.dict_get0 category (ScanResult.owasp_distribution r)
          = Z.of_nat (length (filter (fun d => FindingDict.owasp d = category)
                                (ScanResult.findings r))))
    /\ Spec.sum_values (ScanResult.owasp_distribution r) = ScanResult.total_findings r.
Proof.
  eexists. split; [reflexivity|].
  eapply (owasp_distribution_counts Files.ast_parse
            (Files.test_dir [("pkg", Path.Dir [("crypto.py", Files.file Files.crypto_py)])])
            "2024-01-01T00:00:00" Files.guardian _ ["tmp"] true).
  reflexivity.
Defined.

(** The paths that a pattern of one component [*ext] selects in a
    directory. *)
Lemma glob_direct fs directory pattern f :
  String.eqb pattern "**" = false ->
  Text.split "/" pattern = [pattern] ->
  In f (Path.glob fs directory pattern) <->
  exists entries name e,
    Path.lookup fs directory = Some (Path.Dir entries)
    /\ In (name, e) entries
    /\ f = directory ++ [name]
    /\ Path.fnmatch pattern name = true.
Proof.
  intros Hpattern Hsplit. unfold Path.glob.
  destruct (Path.lookup fs directory) as [[content|entries]|].
  - split; [contradiction|]. intros (? & ? & ? & [=] & _).
  - rewrite Hsplit. cbn [Path.select]. rewrite Hpattern, in_flat_map. split.
    + intros ([name e] & Hin & Hf). cbn [fst snd] in Hf.
      destruct (Path.fnmatch pattern name) eqn:Hmatch; [|contradiction].
      destruct Hf as [<-|[]]. exists entries, name, e. auto.
    + intros (entries' & name & e & [= <-] & Hin & -> & Hmatch).
      exists (name, e). split; [exact Hin|]. cbn [fst snd]. rewrite Hmatch. now left.
  - split; [contradiction|]. intros (? & ? & ? & [=] & _).
Qed.

(** X16.  A scan that is not recursive goes through the entries of the
    directory itself whose names end in [.py], [.js], [.ts], [.jsx] or
    [.tsx], and through nothing else. *)
Theorem enumerate_files_direct (fs : Path.entry) (directory f : Path.t) :
  In f (CodeGuardian.enumerate_files fs directory false) <->
  exists entries name e,
    Path.lookup fs directory = Some (Path.Dir entries)
    /\ In (name, e) entries
    /\ f = directory ++ [name]
    /\ exists extension,
         In extension [".py"; ".js"; ".ts"; ".jsx"; ".tsx"]
         /\ Text.endswith extension name = true.
Proof.
  unfold CodeGuardian.enumerate_files, CodeGuardian.patterns. cbn [flat_map].
  rewrite app_nil_r, !in_app_iff.
  rewrite !glob_direct by reflexivity. split.
  - intros [H|[H|[H|[H|H]]]];
      destruct H as (entries & name & e & Hlookup & Hin & -> & Hmatch);
      exists entries, name, e;
      (split; [exact Hlookup|split; [exact Hin|split; [reflexivity|]]]);
      [exists ".py"|exists ".js"|exists ".ts"|exists ".jsx"|exists ".tsx"];
      (split; [cbn; auto 10|exact Hmatch]).
  - intros (entries & name & e & Hlookup & Hin & -> & extension & Hextension & Hmatch).
    cbn in Hextension.
    destruct Hextension as [<-|[<-|[<-|[<-|[<-|[]]]]]];
      [left|right; left|right; right; left|right; right; right; left
      |right; right; right; right];
      exists entries, name, e; auto.
Qed.

(** ** Metrics and the health score *)

Lemma health_score_closed_form (m : CodeMetrics.t) :
  (CodeMetrics.calculate_health_score m
   == Qmin (Qmax 0 (CodeMetrics.maintainability_index m)) 100 * 0.3
      + inject_Z (Z.max 0 (100 - CodeMetrics.cyclomatic_complexity m * 2)) * 0.3
      + CodeMetrics.test_coverage m * 0.25
      + Qmax 0 (100 - CodeMetrics.technical_debt_hours m * 5) * 0.15)%Q.
Proof.
  unfold CodeMetrics.calculate_health_score, CodeMetrics.Qsum.
  destruct (Qlt_le_dec 0 (CodeMetrics.maintainability_index m)) as [Hpositive|Hzero];
    cbn [app foldl].
  - rewrite (Q.max_r 0 (CodeMetrics.maintainability_index m)) by lra. lra.
  - rewrite (Q.max_l 0 (CodeMetrics.maintainability_index m)) by lra.
    rewrite (Q.min_l 0 100) by lra. lra.
Qed.

(** X17.  The health score is the weighted sum of four terms, each clamped
    to its range before weighting: 0.30 of the maintainability index
    clamped to [0, 100], 0.30 of [max(0, 100 - 2 * complexity)], 0.25 of
    the test coverage and 0.15 of [max(0, 100 - 5 * debt)].  For a
    complexity and a debt that are not negative and a coverage between 0 and
    100 the score is between 0 and 100, and a higher complexity never gives
    a higher score. *)
Theorem health_score_range (m : CodeMetrics.t) :
  0 <= CodeMetrics.cyclomatic_complexity m ->
  (0 <= CodeMetrics.test_coverage m)%Q -> (CodeMetrics.test_coverage m <= 100)%Q ->
  (0 <= CodeMetrics.technical_debt_hours m)%Q ->
  (CodeMetrics.calculate_health_score m
   == Qmin (Qmax 0 (CodeMetrics.maintainability_index m)) 100 * 0.3
      + inject_Z (Z.max 0 (100 - CodeMetrics.cyclomatic_complexity m * 2)) * 0.3
      + CodeMetrics.test_coverage m * 0.25
      + Qmax 0 (100 - CodeMetrics.technical_debt_hours m * 5) * 0.15)%Q
  /\ (0 <= CodeMetrics.calculate_health_score m)%Q
  /\ (CodeMetrics.calculate_health_score m <= 100)%Q
  /\ forall complexity,
       CodeMetrics.cyclomatic_complexity m <= complexity ->
       (CodeMetrics.calculate_health_score
          (CodeMetrics.set_cyclomatic_complexity complexity m)
        <= CodeMetrics.calculate_health_score m)%Q.
Proof.
  intros Hcomplexity Hcoverage0 Hcoverage100 Hdebt.
  split; [apply health_score_closed_form|].
  assert (Hterm : forall c, 0 <= c ->
            (0 <= inject_Z (Z.max 0 (100 - c * 2)))%Q
            /\ (inject_Z (Z.max 0 (100 - c * 2)) <= 100)%Q).
  { intros c Hc. split.
    - change 0%Q with (inject_Z 0). rewrite <- Zle_Qle. lia.
    - change 100%Q with (inject_Z 100). rewrite <- Zle_Qle. lia. }
  destruct (Hterm _ Hcomplexity) as (Hterm0 & Hterm100).
  pose proof (Q.le_max_l 0 (CodeMetrics.maintainability_index m)) as Hindex0.
  pose proof (Q.le_min_r (Qmax 0 (CodeMetrics.maintainability_index m)) 100) as Hindex100.
  assert (Hindex : (0 <= Qmin (Qmax 0 (CodeMetrics.maintainability_index m)) 100)%Q).
  { apply Q.min_glb; [exact Hindex0|lra]. }
  pose proof (Q.le_max_l 0 (100 - CodeMetrics.technical_debt_hours m * 5)) as Hdebt0.
  assert (Hdebt100 : (Qmax 0 (100 - CodeMetrics.technical_debt_hours m * 5) <= 100)%Q).
  { apply Q.max_lub; lra. }
  rewrite health_score_closed_form. split; [lra|]. split; [lra|].
  intros complexity Hhigher.
  rewrite (health_score_closed_form (CodeMetrics.set_cyclomatic_complexity complexity m)).
  cbn [CodeMetrics.set_cyclomatic_complexity CodeMetrics.maintainability_index
       CodeMetrics.cyclomatic_complexity CodeMetrics.test_coverage
       CodeMetrics.technical_debt_hours].
  assert (Hmonotone :
    (inject_Z (Z.max 0 (100 - complexity * 2))
     <= inject_Z (Z.max 0 (100 - CodeMetrics.cyclomatic_complexity m * 2)))%Q).
  { rewrite <- Zle_Qle. lia. }
  rewrite (health_score_closed_form m). lra.
Qed.

Lemma health_score_range_witness :
  let m :=
    CodeMetrics.set_dependencies ∅
      (CodeGuardian._calculate_python_metrics Files.branch_py_tree Files.branch_py) in
  (0 <= CodeMetrics.calculate_health_score m)%Q
  /\ (CodeMetrics.calculate_health_score m <= 100)%Q
  /\ (CodeMetrics.calculate_health_score (CodeMetrics.set_cyclomatic_complexity 7 m)
      <= CodeMetrics.calculate_health_score m)%Q.
Proof.
  intros m.
  pose proof (health_score_range m ltac:(vm_compute; discriminate)
                ltac:(vm_compute; discriminate) ltac:(vm_compute; discriminate)
                ltac:(vm_compute; discriminate)) as (_ & Hlow & Hhigh & Hmonotone).
  split; [exact Hlow|]. split; [exact Hhigh|].
  apply Hmonotone. vm_compute. discriminate.
Defined.

Lemma split_length s : length (Text.split Text.LF s) = S (line_feeds s).
Proof.
  induction s as [|c s IH]; [reflexivity|].
  cbn [Text.split line_feeds]. destruct (Ascii.eqb c Text.LF); cbn [length].
  - now rewrite IH.
  - destruct (Text.split Text.LF s) as [|h t]; cbn [length] in *; lia.
Qed.

Lemma count_lines_nonnegative lines m :
  0 <= CodeMetrics.code_lines m -> 0 <= CodeMetrics.comment_lines m ->
  0 <= CodeMetrics.blank_lines m ->
  0 <= CodeMetrics.code_lines (foldl CodeGuardian.count_line m lines)
  /\ 0 <= CodeMetrics.comment_lines (foldl CodeGuardian.count_line m lines)
  /\ 0 <= CodeMetrics.blank_lines (foldl CodeGuardian.count_line m lines).
Proof.
  revert m. induction lines as [|line lines IH]; intros m Hcode Hcomment Hblank;
    cbn [foldl]; [auto|].
  apply IH; unfold CodeGuardian.count_line;
    (destruct (negb (Text.nonempty (Text.strip line)));
     [|destruct (Text.startswith "#" (Text.strip line))]); cbn; lia.
Qed.

Lemma count_nodes_lines nodes m :
  CodeMetrics.code_lines (foldl CodeGuardian.count_node m nodes) = CodeMetrics.code_lines m
  /\ CodeMetrics.comment_lines (foldl CodeGuardian.count_node m nodes)
     = CodeMetrics.comment_lines m
  /\ CodeMetrics.blank_lines (foldl CodeGuardian.count_node m nodes)
     = CodeMetrics.blank_lines m.
Proof.
  revert m. induction nodes as [|n nodes IH]; intros m; cbn [foldl]; [auto|].
  destruct (IH (CodeGuardian.count_node m n)) as (-> & -> & ->).
  destruct n; cbn; auto.
Qed.

Lemma count_nodes_complexity nodes m :
  (forall values, In (BoolOp values) nodes -> values <> []) ->
  CodeMetrics.cyclomatic_complexity m
  <= CodeMetrics.cyclomatic_complexity (foldl CodeGuardian.count_node m nodes).
Proof.
  revert m. induction nodes as [|n nodes IH]; intros m Hnodes; cbn [foldl]; [lia|].
  etransitivity; [|apply IH; intros values Hin; apply Hnodes; now right].
  destruct n; cbn; try lia.
  assert (values <> []) as Hvalues by (apply Hnodes; now left).
  destruct values; [congruence|cbn [length]; lia].
Qed.

(** X18.  The metrics of a Python text.  [total_lines] is one more than
    the number of line feeds of the text, so that it is at least 1, also for
    the empty text; no count of lines is negative; the maintainability index
    is not negative.  For a tree in which every boolean operation has an
    operand, the cyclomatic complexity is not negative and the
    maintainability index is at most 171. *)
Theorem python_metrics_ranges (tree : node) (source_code : string) :
  let metrics := CodeGuardian._calculate_python_metrics tree source_code in
  CodeMetrics.total_lines metrics = 1 + Z.of_nat (line_feeds source_code)
  /\ 0 <= CodeMetrics.code_lines metrics
  /\ 0 <= CodeMetrics.comment_lines metrics
  /\ 0 <= CodeMetrics.blank_lines metrics
  /\ (0 <= CodeMetrics.maintainability_index metrics)%Q
  /\ ((forall values, In (BoolOp values) (walk tree) -> values <> []) ->
      0 <= CodeMetrics.cyclomatic_complexity metrics
      /\ (CodeMetrics.maintainability_index metrics <= 171)%Q).
Proof.
  cbv zeta. rewrite python_metrics_unfold.
  set (lines := Text.split Text.LF source_code).
  set (m0 := CodeMetrics.set_total_lines (Z.of_nat (length lines)) CodeMetrics.new).
  assert (Hcounted : counted tree source_code
                     = foldl CodeGuardian.count_node
                         (foldl CodeGuardian.count_line m0 lines) (walk tree))
    by reflexivity.
  destruct (count_nodes_fields (walk tree) (foldl CodeGuardian.count_line m0 lines))
    as (_ & _ & Htotal & Hindex).
  destruct (count_lines_fields lines m0) as (_ & Htotal' & Hcomplexity' & Hindex').
  destruct (count_nodes_lines (walk tree) (foldl CodeGuardian.count_line m0 lines))
    as (Hcode & Hcomment & Hblank).
  destruct (count_lines_nonnegative lines m0) as (Hcode0 & Hcomment0 & Hblank0);
    try (cbn; lia).
  rewrite <- Hcounted in *.
  assert (Htotal_lines :
    CodeMetrics.total_lines (counted tree source_code)
    = 1 + Z.of_nat (line_feeds source_code)).
  { rewrite Htotal, Htotal'. cbn. subst lines. rewrite split_length. lia. }
  assert (Hindex_counted :
    CodeMetrics.maintainability_index (counted tree source_code) = 0%Q).
  { rewrite Hindex, Hindex'. reflexivity. }
  assert (Hcomplexity_counted :
    (forall values, In (BoolOp values) (walk tree) -> values <> []) ->
    0 <= CodeMetrics.cyclomatic_complexity (counted tree source_code)).
  { intros Hvalues. rewrite Hcounted.
    etransitivity; [|apply count_nodes_complexity, Hvalues].
    rewrite Hcomplexity'. cbn. lia. }
  destruct (0 <? CodeMetrics.code_lines (counted tree source_code)) eqn:Hguard.
  - cbn. repeat split; try lia; try apply Q.le_max_l.
    + apply Hcomplexity_counted, H.
    + apply Z.ltb_lt in Hguard. apply Hcomplexity_counted in H.
      apply Q.max_lub; [lra|].
      assert (Hratio :
        (0 <= inject_Z (CodeMetrics.cyclomatic_complexity (counted tree source_code))
              / inject_Z (Z.max 1 (CodeMetrics.code_lines (counted tree source_code))))%Q).
      { apply Qle_shift_div_l.
        - change 0%Q with (inject_Z 0). rewrite <- Zlt_Qlt. lia.
        - rewrite Qmult_0_l. change 0%Q with (inject_Z 0). rewrite <- Zle_Qle. exact H. }
      lra.
  - rewrite Hindex_counted. repeat split; try lia; try lra.
    apply Hcomplexity_counted, H.
Qed.

(** ** Recommendations *)

Lemma get_recommendations_fired self latest :
  last (CodeGuardian.scan_history self) = Some latest ->
  CodeGuardian.get_recommendations self
  = match fired latest with
    | [] => [CodeGuardian.rec_no_issues]
    | _ :: _ => fired latest
    end.
Proof.
  intros Hlast. unfold CodeGuardian.get_recommendations, fired. rewrite Hlast.
  destruct (0 <? CodeGuardian.dict_get0 "critical" _);
    destruct (0 <? CodeGuardian.dict_get0 "high" _);
    destruct (0 <? CodeGuardian.dict_get0 "Injection" _);
    destruct (0 <? CodeGuardian.dict_get0 "Broken Access Control" _);
    destruct (0 <? CodeGuardian.dict_get0 "Cryptographic Failures" _);
    destruct (Qlt_le_dec _ 70);
    destruct (50 <? length _)%nat; reflexivity.
Qed.

Lemma in_optional x condition recommendation :
  In x (optional condition recommendation) <-> condition = true /\ x = recommendation.
Proof.
  destruct condition; cbn; [|intuition discriminate].
  split; [intros [<-|[]]; auto|intros [_ ->]; auto].
Qed.

Lemma sublist_optional condition recommendation rest rest' :
  sublist rest rest' ->
  sublist (optional condition recommendation ++ rest) (recommendation :: rest').
Proof.
  intros Hrest. destruct condition; cbn; [now apply sublist_skip|now apply sublist_cons].
Qed.

Lemma fired_sublist latest : sublist (fired latest) rule_recommendations.
Proof.
  unfold fired, rule_recommendations.
  repeat apply sublist_optional.
  rewrite <- (app_nil_r (optional _ _)). apply sublist_optional. constructor.
Qed.

(** X19.  [get_recommendations] never returns the empty list.  For an
    object that has scanned nothing it returns the single recommendation of
    an initial scan; otherwise it returns recommendations of the seven rules,
    in the order of the rules and each at most once, or else the single
    "no critical issues" entry. *)
Theorem recommendations_shape (self : CodeGuardian.t) :
  CodeGuardian.get_recommendations self <> []
  /\ (CodeGuardian.get_recommendations self = [CodeGuardian.rec_initial_scan]
      \/ CodeGuardian.get_recommendations self = [CodeGuardian.rec_no_issues]
      \/ sublist (CodeGuardian.get_recommendations self) rule_recommendations)
  /\ forall workspace_root,
       CodeGuardian.get_recommendations (CodeGuardian.init workspace_root)
       = [CodeGuardian.rec_initial_scan].
Proof.
  split; [|split; [|reflexivity]].
  - destruct (last (CodeGuardian.scan_history self)) as [latest|] eqn:Hlast.
    + rewrite (get_recommendations_fired _ _ Hlast).
      destruct (fired latest); discriminate.
    + unfold CodeGuardian.get_recommendations. rewrite Hlast. discriminate.
  - destruct (last (CodeGuardian.scan_history self)) as [latest|] eqn:Hlast.
    + rewrite (get_recommendations_fired _ _ Hlast).
      pose proof (fired_sublist latest) as Hsublist.
      destruct (fired latest); [right; left; reflexivity|right; right; exact Hsublist].
    + left. unfold CodeGuardian.get_recommendations. now rewrite Hlast.
Qed.

(** Membership of a recommendation of the rules in the fired ones. *)
Ltac in_fired :=
  unfold fired; rewrite !in_app_iff, !in_optional;
  split;
  [ let H := fresh "H" in
    let E := fresh "E" in
    intros H; repeat destruct H as [H|H]; destruct H as [H E];
    first [exact H|vm_compute in E; discriminate E]
  | intros ->; auto 12 ].

Lemma in_fired_urgent latest :
  In CodeGuardian.rec_urgent (fired latest)
  <-> (0 <? CodeGuardian.dict_get0 "critical" (ScanResult.severity_distribution latest))
      = true.
Proof. in_fired. Qed.

Lemma in_fired_high_priority latest :
  In CodeGuardian.rec_high_priority (fired latest)
  <-> (0 <? CodeGuardian.dict_get0 "high" (ScanResult.severity_distribution latest)) = true.
Proof. in_fired. Qed.

Lemma in_fired_parameterized_queries latest :
  In CodeGuardian.rec_parameterized_queries (fired latest)
  <-> (0 <? CodeGuardian.dict_get0 "Injection" (ScanResult.owasp_distribution latest))
      = true.
Proof. in_fired. Qed.

Lemma in_fired_access_control latest :
  In CodeGuardian.rec_access_control (fired latest)
  <-> (0 <? CodeGuardian.dict_get0 "Broken Access Control"
              (ScanResult.owasp_distribution latest)) = true.
Proof. in_fired. Qed.

Lemma in_fired_strong_crypto latest :
  In CodeGuardian.rec_strong_crypto (fired latest)
  <-> (0 <? CodeGuardian.dict_get0 "Cryptographic Failures"
              (ScanResult.owasp_distribution latest)) = true.
Proof. in_fired. Qed.

Lemma in_fired_improve_quality latest :
  In CodeGuardian.rec_improve_quality (fired latest)
  <-> (if Qlt_le_dec (ScanResult.health_score (ScanResult.metrics latest)) 70
       then true else false) = true.
Proof. in_fired. Qed.

Lemma positive_count {A} (P : A -> Prop) `{forall x, Decision (P x)} (l : list A) :
  (0 <? Z.of_nat (length (filter P l))) = true <-> exists x, In x l /\ P x.
Proof.
  rewrite Z.ltb_lt. split.
  - intros Hpositive. destruct (filter P l) as [|x l'] eqn:Hfilter; [cbn in *; lia|].
    assert (Hx : x ∈ filter P l) by (rewrite Hfilter; constructor).
    apply list_elem_of_filter in Hx as [HP Hin]. exists x. split; [|exact HP].
    now apply list_elem_of_In.
  - intros (x & Hin & HP).
    assert (Hx : x ∈ filter P l) by (apply list_elem_of_filter; split;
                                     [exact HP|now apply list_elem_of_In]).
    destruct (filter P l); [inversion Hx|cbn; lia].
Qed.

Lemma filter_to_dict_severity (level : VulnerabilityLevel) (l : list SecurityFinding.t) :
  length (filter (fun f => SecurityFinding.severity f = level) l)
  = length (filter (fun d => FindingDict.severity d = VulnerabilityLevel_value level)
              (to_dict <$> l)).
Proof.
  induction l as [|f l IH]; [reflexivity|].
  cbn [fmap list_fmap]. rewrite !filter_cons. cbn [to_dict FindingDict.severity].
  change (list_fmap _ _ to_dict l) with (to_dict <$> l).
  destruct (SecurityFinding.severity f), level;
    repeat case_decide; try discriminate; try congruence; cbn [length]; now rewrite IH.
Qed.

(** The counts that the rules read in the result of a scan. *)
Lemma scan_directory_counts ast_parse fs now self self' directory recursive r :
  CodeGuardian.scan_directory ast_parse fs now self directory recursive = (Ok r, self') ->
  last (CodeGuardian.scan_history self') = Some r
  /\ (ScanResult.health_score (ScanResult.metrics r) == 45)%Q
  /\ (forall level,
        CodeGuardian.dict_get0 (VulnerabilityLevel_value level)
          (ScanResult.severity_distribution r)
        = Z.of_nat (length (filter (fun d => FindingDict.severity d
                                             = VulnerabilityLevel_value level)
                              (ScanResult.findings r))))
  /\ (forall category,
        CodeGuardian.dict_get0 category (ScanResult.owasp_distribution r)
        = Z.of_nat (length (filter (fun d => FindingDict.owasp d = category)
                              (ScanResult.findings r)))).
Proof.
  unfold CodeGuardian.scan_directory.
  destruct (negb (Path.exists_ fs directory)); [discriminate|].
  intros [= <- <-].
  cbn [ScanResult.owasp_distribution ScanResult.severity_distribution ScanResult.findings
       ScanResult.metrics ScanResult.health_score CodeGuardian.append_history
       CodeGuardian.scan_history].
  split; [apply last_snoc|]. split; [|split].
  - apply untouched_health_score, scan_files_untouched. repeat split; reflexivity.
  - intros level. rewrite <- filter_to_dict_severity. destruct level; reflexivity.
  - intros category. unfold CodeGuardian.dict_get0.
    rewrite assoc_fmap_length, filter_to_dict_owasp.
    destruct (groups_spec
                (fun f => OWASPCategory_value (SecurityFinding.owasp_category f))
                (CodeGuardian.total_findings
                   (CodeGuardian.scan_loop ast_parse fs self directory recursive)) [])
      as (Hlookup & _).
    specialize (Hlookup category). cbn [Text.assoc default app] in Hlookup.
    rewrite <- Hlookup. now destruct (Text.assoc category _).
Qed.

(** X20.  The recommendations after a scan of a directory.  The health
    score of every scan result is 45, below 70, so that the recommendation
    to improve the code quality is always made and the "no critical issues"
    entry never is.  The recommendations are among the seven of the rules,
    in the order of the rules.  The urgent one is made exactly when a
    finding of the result is critical, and is then the first; the
    24-hour one exactly when a finding is high; those on parameterized
    queries, on access control and on cryptographic algorithms exactly when
    a finding has the category Injection, Broken Access Control or
    Cryptographic Failures. *)
Theorem recommendations_after_scan
    (ast_parse : parser) (fs : Path.entry) (now : string) (self self' : CodeGuardian.t)
    (directory : Path.t) (recursive : bool) (r : ScanResult.t) :
  CodeGuardian.scan_directory ast_parse fs now self directory recursive = (Ok r, self') ->
  let recommendations := CodeGuardian.get_recommendations self' in
  In CodeGuardian.rec_improve_quality recommendations
  /\ recommendations <> [CodeGuardian.rec_no_issues]
  /\ sublist recommendations rule_recommendations
  /\ (In CodeGuardian.rec_urgent recommendations
      <-> exists d, In d (ScanResult.findings r) /\ FindingDict.severity d = "critical")
  /\ (In CodeGuardian.rec_urgent recommendations ->
      head recommendations = Some CodeGuardian.rec_urgent)
  /\ (In CodeGuardian.rec_high_priority recommendations
      <-> exists d, In d (ScanResult.findings r) /\ FindingDict.severity d = "high")
  /\ (In CodeGuardian.rec_parameterized_queries recommendations
      <-> exists d, In d (ScanResult.findings r) /\ FindingDict.owasp d = "Injection")
  /\ (In CodeGuardian.rec_access_control recommendations
      <-> exists d, In d (ScanResult.findings r)
                    /\ FindingDict.owasp d = "Broken Access Control")
  /\ (In CodeGuardian.rec_strong_crypto recommendations
      <-> exists d, In d (ScanResult.findings r)
                    /\ FindingDict.owasp d = "Cryptographic Failures").
Proof.
  intros Hscan recommendations.
  destruct (scan_directory_counts _ _ _ _ _ _ _ _ Hscan)
    as (Hlast & Hscore & Hseverity & Howasp).
  assert (Hquality : In CodeGuardian.rec_improve_quality (fired r)).
  { apply in_fired_improve_quality.
    destruct (Qlt_le_dec (ScanResult.health_score (ScanResult.metrics r)) 70)
      as [_|Hle]; [reflexivity|]. rewrite Hscore in Hle. lra. }
  pose proof (Hseverity CRITICAL) as Hcritical. pose proof (Hseverity HIGH) as Hhigh.
  cbn [VulnerabilityLevel_value] in Hcritical, Hhigh.
  assert (Hfired : recommendations = fired r).
  { subst recommendations. rewrite (get_recommendations_fired _ _ Hlast).
    destruct (fired r); [contradiction|reflexivity]. }
  rewrite Hfired. clear Hfired recommendations.
  split; [exact Hquality|]. split.
  { intros Hnone. rewrite Hnone in Hquality. destruct Hquality as [E|[]].
    vm_compute in E. discriminate E. }
  split; [apply fired_sublist|].
  split.
  { rewrite in_fired_urgent, Hcritical. apply positive_count. }
  split.
  { intros Hurgent. apply in_fired_urgent in Hurgent. unfold fired.
    now rewrite Hurgent. }
  split.
  { rewrite in_fired_high_priority, Hhigh. apply positive_count. }
  split.
  { rewrite in_fired_parameterized_queries, Howasp. apply positive_count. }
  split.
  { rewrite in_fired_access_control, Howasp. apply positive_count. }
  rewrite in_fired_strong_crypto, Howasp. apply positive_count.
Qed.

Lemma recommendations_after_scan_witness :
  exists r self',
    CodeGuardian.scan_directory Files.ast_parse
      (Files.test_dir [("pkg", Path.Dir [("crypto.py", Files.file Files.crypto_py)])])
      "2024-01-01T00:00:00" Files.guardian ["tmp"] true = (Ok r, self')
    /\ CodeGuardian.get_recommendations self'
       = [CodeGuardian.rec_strong_crypto; CodeGuardian.rec_improve_quality]
    /\ In CodeGuardian.rec_improve_quality (CodeGuardian.get_recommendations self')
    /\ CodeGuardian.get_recommendations self' <> [CodeGuardian.rec_no_issues].
Proof.
  eexists _, _. split; [reflexivity|]. split; [vm_compute; reflexivity|].
  destruct (recommendations_after_scan Files.ast_parse
              (Files.test_dir [("pkg", Path.Dir [("crypto.py", Files.file Files.crypto_py)])])
              "2024-01-01T00:00:00" Files.guardian _ ["tmp"] true _ eq_refl)
    as (Hquality & Hissues & _).
  split; assumption.
Defined.

(** ** Snippets and the checks on the arguments of a call *)

(** X21.  The snippet of a finding of the visitor is a window of at most
    five lines of the source, joined by line feeds: lines between two
    before and two after the line of the finding, each after four spaces,
    but for the line of the finding itself, which is after [>>> ] and is in
    the window whenever the source has a line of that number. *)
Theorem code_snippet_window (self : ASTSecurityAnalyzer.t) (line_no : Z) :
  let lines := ASTSecurityAnalyzer.source_lines self in
  exists window,
    ASTSecurityAnalyzer._get_code_snippet self line_no
    = Text.join (Text.chr Text.LF) window
    /\ (length window <= 5)%nat
    /\ (forall line,
          1 <= line_no -> lines !! Z.to_nat (line_no - 1) = Some line ->
          In (">>> " +:+ line) window)
    /\ (forall w, In w window ->
          exists i line,
            lines !! i = Some line
            /\ line_no - 3 <= Z.of_nat i < line_no + 2
            /\ w = (if Z.of_nat i =? line_no - 1 then ">>> " else "    ") +:+ line).
Proof.
  intros lines. unfold ASTSecurityAnalyzer._get_code_snippet. cbv zeta. fold lines.
  set (start := Z.max 0 (line_no - 2 - 1)).
  set (end_ := Z.min (Z.of_nat (length lines)) (line_no + 2)).
  eexists. split; [reflexivity|]. split; [|split].
  - rewrite length_fmap, length_seqZ. lia.
  - intros line Hpositive Hline.
    apply list_elem_of_In, list_elem_of_fmap. exists (line_no - 1). split.
    + rewrite Z.eqb_refl, Hline. reflexivity.
    + apply lookup_lt_Some in Hline. apply elem_of_seqZ. lia.
  - intros w Hw. apply list_elem_of_In, list_elem_of_fmap in Hw as (i & -> & Hi).
    apply elem_of_seqZ in Hi.
    destruct (lookup_lt_is_Some_2 lines (Z.to_nat i)) as (line & Hline); [lia|].
    exists (Z.to_nat i), line. rewrite Hline, Z2Nat.id by lia.
    repeat split; lia.
Qed.

(** The stages of [visit_Call] after the check for SQL injection. *)
Lemma visit_Call_later_stages lineno col_offset func args keywords func_name self :
  ASTSecurityAnalyzer._get_function_name func = Some func_name ->
  let dangerous :=
    ASTSecurityAnalyzer._check_dangerous_function func_name lineno col_offset
      (ASTSecurityAnalyzer.record_call func_name lineno self) in
  let sql :=
    if Text.member func_name ["execute"; "executemany"; "raw"; "query"]
    then ASTSecurityAnalyzer._check_sql_injection lineno col_offset args dangerous
    else dangerous in
  let command :=
    if Text.member func_name ["system"; "popen"; "call"; "run"; "exec"; "eval"]
    then ASTSecurityAnalyzer._check_command_injection lineno col_offset keywords sql
    else sql in
  let path :=
    if Text.member func_name ["open"; "read"; "write"; "readfile"; "writefile"]
    then ASTSecurityAnalyzer._check_path_traversal lineno col_offset args command
    else command in
  let ssrf :=
    if Text.member func_name ["get"; "post"; "put"; "delete"; "request"; "urlopen"]
    then ASTSecurityAnalyzer._check_ssrf lineno col_offset args path
    else path in
  ASTSecurityAnalyzer.visit_Call (fun self => self) lineno col_offset func args keywords
    self = ssrf
  /\ extends self sql /\ extends sql command /\ extends command path
  /\ extends path ssrf.
Proof.
  intros Hname dangerous sql command path ssrf.
  split; [unfold ASTSecurityAnalyzer.visit_Call; now rewrite Hname|].
  split; [|split; [|split]].
  - unfold sql, dangerous. eapply extends_trans; [apply extends_record_call|].
    eapply extends_trans; [apply extends_check_dangerous_function|].
    destruct (Text.member func_name _);
      [apply extends_check_sql_injection|apply extends_refl].
  - unfold command. destruct (Text.member func_name ["system"; _; _; _; _; _]);
      [apply extends_check_command_injection|apply extends_refl].
  - unfold path. destruct (Text.member func_name ["open"; _; _; _; _]);
      [apply extends_check_path_traversal|apply extends_refl].
  - unfold ssrf. destruct (Text.member func_name ["get"; _; _; _; _; _]);
      [apply extends_check_ssrf|apply extends_refl].
Qed.

Lemma command_injection_found lineno col_offset keywords self :
  In (Some "shell", Constant (CBool true)) keywords ->
  exists f,
    In f (ASTSecurityAnalyzer.findings
            (ASTSecurityAnalyzer._check_command_injection lineno col_offset keywords self))
    /\ brief f = (lineno, "Command Injection", HIGH, A03_INJECTION, Some "CWE-78")
    /\ SecurityFinding.column f = col_offset
    /\ SecurityFinding.file_path f = ASTSecurityAnalyzer.file_path self.
Proof.
  unfold ASTSecurityAnalyzer._check_command_injection.
  match goal with |- context [foldl ?f self keywords] => set (step := f) end.
  assert (Hstep : forall self keyword, extends self (step self keyword))
    by (intros; apply command_injection_step).
  revert self. induction keywords as [|keyword keywords IH]; intros self Hin;
    [contradiction|].
  cbn [foldl]. destruct Hin as [->|Hin].
  - eexists. split.
    + eapply extends_In.
      * apply extends_foldl, Forall_forall. intros keyword _ self'. apply Hstep.
      * subst step. cbn. apply in_or_app. right. left. reflexivity.
    + cbn. repeat split; reflexivity.
  - destruct (IH (step self keyword) Hin) as (f & Hf & Hbrief & Hcolumn & Hpath).
    destruct (Hstep self keyword) as (Hkept & _).
    exists f. repeat split; try assumption. rewrite Hpath. exact Hkept.
Qed.

(** X22.  The checks on the shape of the arguments of a call, anywhere in
    the tree of a Python file, whenever the analysis of the file returns;
    each finding is among the findings returned.  A call of [system], [popen], [call], [run], [exec]
    or [eval] with the keyword [shell=True] gives a HIGH "Command Injection"
    finding (CWE-78); a call of [open], [read], [write], [readfile] or
    [writefile] whose first argument is a variable gives a MEDIUM "Path
    Traversal" finding (Broken Access Control, CWE-22); a call of [get],
    [post], [put], [delete], [request] or [urlopen] whose first argument is
    a variable or an f-string gives a MEDIUM "SSRF" finding (CWE-918); each
    at the position of the call. *)
Theorem argument_shapes_are_reported
    (ast_parse : parser) (file_path : Path.t) (source_code : string) (tree : node)
    (findings : list SecurityFinding.t) (metrics : CodeMetrics.t)
    (lineno col_offset : Z) (func : node) (args : list node)
    (keywords : list (option string * node)) (func_name : string)
    (kind : string) (severity : VulnerabilityLevel) (owasp : OWASPCategory) (cwe : string) :
  ast_parse source_code = Ok tree ->
  CodeGuardian._analyze_python ast_parse file_path source_code = Ok (findings, metrics) ->
  In (Call lineno col_offset func args keywords) (walk tree) ->
  ASTSecurityAnalyzer._get_function_name func = Some func_name ->
  (Text.member func_name ["system"; "popen"; "call"; "run"; "exec"; "eval"] = true
   /\ In (Some "shell", Constant (CBool true)) keywords
   /\ (kind, severity, owasp, cwe) = ("Command Injection", HIGH, A03_INJECTION, "CWE-78"))
  \/ (Text.member func_name ["open"; "read"; "write"; "readfile"; "writefile"] = true
      /\ (exists id rest, args = Name id :: rest)
      /\ (kind, severity, owasp, cwe)
         = ("Path Traversal", MEDIUM, A01_BROKEN_ACCESS_CONTROL, "CWE-22"))
  \/ (Text.member func_name ["get"; "post"; "put"; "delete"; "request"; "urlopen"] = true
      /\ (exists first rest,
            args = first :: rest
            /\ match first with Name _ | JoinedStr _ _ => True | _ => False end)
      /\ (kind, severity, owasp, cwe) = ("SSRF", MEDIUM, A10_SSRF, "CWE-918")) ->
  exists f,
    In f findings
    /\ (brief f = (lineno, kind, severity, owasp, Some cwe)
        /\ SecurityFinding.column f = col_offset
        /\ SecurityFinding.file_path f = Path.str file_path).
Proof.
  intros Hparse Hreturned Hnode Hname Hshape.
  apply (analyze_python_stage_finding ast_parse file_path source_code tree
           (Call lineno col_offset func args keywords)
           (ASTSecurityAnalyzer.visit_Call (fun self => self) lineno col_offset func args
              keywords)) with metrics;
    [exact Hparse|exact Hreturned|exact Hnode
    |intros self; apply extends_visit_Call_generic|].
  intros self Hpath.
  destruct (visit_Call_later_stages lineno col_offset func args keywords func_name self
              Hname) as (-> & Hsql & Hcommand & Hpath' & Hssrf).
  cbv zeta in *.
  set (dangerous := ASTSecurityAnalyzer._check_dangerous_function func_name lineno
                      col_offset (ASTSecurityAnalyzer.record_call func_name lineno self))
    in *.
  set (sql := if Text.member func_name ["execute"; "executemany"; "raw"; "query"]
              then _ else dangerous) in *.
  assert (Hsql_path : ASTSecurityAnalyzer.file_path sql = Path.str file_path).
  { destruct Hsql as (-> & _). exact Hpath. }
  destruct Hshape as [(Hmember & Hshell & [= -> -> -> ->])
                     |[(Hmember & (id & rest & ->) & [= -> -> -> ->])
                      |(Hmember & (first & rest & -> & Hfirst) & [= -> -> -> ->])]].
  - rewrite Hmember in *.
    destruct (command_injection_found lineno col_offset keywords sql Hshell)
      as (f & Hf & Hbrief & Hcolumn & Hfile).
    exists f. split; [|repeat split; congruence].
    eapply extends_In; [|exact Hf]. eapply extends_trans; [exact Hpath'|exact Hssrf].
  - rewrite Hmember in *.
    set (command := if Text.member func_name _ then _ else sql) in *.
    assert (Hcommand_path : ASTSecurityAnalyzer.file_path command = Path.str file_path).
    { destruct Hcommand as (-> & _). exact Hsql_path. }
    eexists. split.
    + eapply extends_In; [exact Hssrf|]. apply in_or_app. right. left. reflexivity.
    + cbn. rewrite Hcommand_path. repeat split; reflexivity.
  - rewrite Hmember in *.
    set (command := if Text.member func_name ["system"; _; _; _; _; _] then _ else sql)
      in *.
    set (path := if Text.member func_name ["open"; _; _; _; _] then _ else command) in *.
    assert (Hpath_path : ASTSecurityAnalyzer.file_path path = Path.str file_path).
    { destruct Hpath' as (-> & _). destruct Hcommand as (-> & _). exact Hsql_path. }
    destruct first; try contradiction.
    + eexists. split; [apply in_or_app; right; left; reflexivity|].
      cbn. rewrite Hpath_path. repeat split; reflexivity.
    + eexists. split; [apply in_or_app; right; left; reflexivity|].
      cbn. rewrite Hpath_path. repeat split; reflexivity.
Qed.

Lemma argument_shapes_are_reported_witness :
  exists findings metrics f,
    CodeGuardian._analyze_python Samples.ast_parse ["tmp"; "open.py"] Samples.open_py
    = Ok (findings, metrics)
    /\ In f findings
    /\ (brief f
        = (1, "Path Traversal", MEDIUM, A01_BROKEN_ACCESS_CONTROL, Some "CWE-22")
        /\ SecurityFinding.column f = 0
        /\ SecurityFinding.file_path f = "tmp/open.py").
Proof.
  assert (Hreturned :
    exists r,
      CodeGuardian._analyze_python Samples.ast_parse ["tmp"; "open.py"] Samples.open_py
      = Ok r) by (eexists; reflexivity).
  destruct Hreturned as ([findings metrics] & Hreturned).
  destruct (argument_shapes_are_reported Samples.ast_parse ["tmp"; "open.py"]
              Samples.open_py Samples.open_py_tree findings metrics 1 0 (Name "open")
              [Name "filename"] [] "open" "Path Traversal" MEDIUM
              A01_BROKEN_ACCESS_CONTROL "CWE-22")
    as (f & Hin & Hf).
  - reflexivity.
  - exact Hreturned.
  - cbn. auto.
  - reflexivity.
  - right. left. split; [reflexivity|]. split; [|reflexivity]. eexists _, _. reflexivity.
  - exists findings, metrics, f. auto.
Defined.

Lemma command_injection_without_shell lineno col_offset keywords self :
  ~ In (Some "shell", Constant (CBool true)) keywords ->
  ASTSecurityAnalyzer._check_command_injection lineno col_offset keywords self = self.
Proof.
  unfold ASTSecurityAnalyzer._check_command_injection. revert self.
  induction keywords as [|keyword keywords IH]; intros self Hnot; [reflexivity|].
  cbn [foldl].
  match goal with
  | |- foldl _ ?stepped keywords = _ => assert (Hsame : stepped = self)
  end.
  { repeat case_match; try reflexivity. subst. exfalso. apply Hnot. now left. }
  rewrite Hsame. apply IH. intros Hin. apply Hnot. now right.
Qed.

(** X23.  What the checks of a call never report: a call of a function
    outside the table of dangerous functions, whose first argument, if it
    has one, is a literal, and that has no keyword [shell=True], adds no
    finding of its own, whatever the name of the function: so
    [open] of a literal path, [get] of a literal URL and [execute] of a
    literal query are silent. *)
Theorem literal_call_is_not_reported (lineno col_offset : Z) (func : node)
    (args : list node) (keywords : list (option string * node))
    (self : ASTSecurityAnalyzer.t) :
  (forall func_name,
     ASTSecurityAnalyzer._get_function_name func = Some func_name ->
     Text.assoc func_name ASTSecurityAnalyzer.dangerous_functions = None) ->
  match args with [] | Constant _ :: _ => True | _ => False end ->
  ~ In (Some "shell", Constant (CBool true)) keywords ->
  ASTSecurityAnalyzer.findings
    (ASTSecurityAnalyzer.visit_Call (fun self => self) lineno col_offset func args
       keywords self)
  = ASTSecurityAnalyzer.findings self.
Proof.
  intros Hsafe Hliteral Hshell. unfold ASTSecurityAnalyzer.visit_Call.
  destruct (ASTSecurityAnalyzer._get_function_name func) as [func_name|];
    [|reflexivity].
  cbv zeta. unfold ASTSecurityAnalyzer._check_dangerous_function.
  rewrite (Hsafe func_name eq_refl).
  rewrite (command_injection_without_shell _ _ _ _ Hshell).
  destruct args as [|[] rest]; try contradiction;
    repeat destruct (Text.member func_name _); reflexivity.
Qed.

Lemma literal_call_is_not_reported_witness :
  ASTSecurityAnalyzer.findings
    (ASTSecurityAnalyzer.visit_Call (fun self => self) 3 4
       (Attribute (Name "requests") "get") [Constant (CStr "https://example.org")]
       [(Some "timeout", Constant (CInt 5))]
       (ASTSecurityAnalyzer.init "tmp/fetch.py" "import requests"))
  = [].
Proof.
  apply (literal_call_is_not_reported 3 4 (Attribute (Name "requests") "get")
           [Constant (CStr "https://example.org")] [(Some "timeout", Constant (CInt 5))]
           (ASTSecurityAnalyzer.init "tmp/fetch.py" "import requests")).
  - intros func_name [= <-]. reflexivity.
  - exact I.
  - intros [[=]|[]].
Defined.

(** ** The dictionary of a finding *)

Lemma pretty_N_go_without x s :
  without ":" s = true -> without ":" (pretty_N_go x s) = true.
Proof.
  revert s. induction (N.lt_wf_0 x) as [x _ IH]. intros s Hs.
  destruct (decide (x = 0)%N) as [->|Hx]; [now rewrite pretty_N_go_0|].
  rewrite pretty_N_go_step by lia. apply IH; [apply N.div_lt; lia|].
  cbn [without]. rewrite Hs, andb_true_r.
  unfold pretty_N_char. now repeat case_match.
Qed.

Lemma pretty_Z_without (z : Z) : without ":" (pretty z) = true.
Proof.
  assert (Hpositive : forall p : positive, without ":" (pretty p) = true).
  { intros p. unfold pretty, pretty_positive, pretty, pretty_N.
    case_decide; [reflexivity|]. now apply pretty_N_go_without. }
  destruct z as [|p|p]; [reflexivity|apply Hpositive|].
  change (pretty (Z.neg p)) with ("-" +:+ pretty p). cbn. apply Hpositive.
Qed.

Lemma split_at_colon (a a' b b' : string) :
  without ":" a = true -> without ":" a' = true ->
  a +:+ String ":" b = a' +:+ String ":" b' -> a = a' /\ b = b'.
Proof.
  revert a'. induction a as [|c a IH]; intros [|c' a'] Ha Ha' Heq; cbn in *.
  - now injection Heq.
  - injection Heq as <- _. apply andb_true_iff in Ha' as [Hc _]. discriminate.
  - injection Heq as -> _. apply andb_true_iff in Ha as [Hc _]. discriminate.
  - injection Heq as -> Heq. apply andb_true_iff in Ha as [_ Ha].
    apply andb_true_iff in Ha' as [_ Ha'].
    destruct (IH a' Ha Ha' Heq) as [-> ->]. now split.
Qed.

(** X24.  The dictionary of a finding loses nothing: two findings with
    the same dictionary are the same finding.  In particular the location
    [L<line>:C<column>] gives back the line and the column, and the values
    of the severity and of the OWASP category give back the members of
    their enumerations. *)
Theorem to_dict_injective (f g : SecurityFinding.t) :
  to_dict f = to_dict g -> f = g.
Proof.
  destruct f as [path line column kind owasp severity description recommendation
                   snippet cwe confidence],
           g as [path' line' column' kind' owasp' severity' description'
                   recommendation' snippet' cwe' confidence'].
  unfold to_dict. cbn. intros Heq.
  injection Heq as -> Hlocation -> Howasp Hseverity -> -> -> -> ->.
  destruct (split_at_colon (pretty line) (pretty line') ("C" +:+ pretty column)
              ("C" +:+ pretty column') (pretty_Z_without _) (pretty_Z_without _))
    as (Hline & Hcolumn).
  { exact Hlocation. }
  apply pretty_Z_inj in Hline. injection Hcolumn as Hcolumn.
  apply pretty_Z_inj in Hcolumn. subst line' column'.
  assert (owasp = owasp') as ->
    by (destruct owasp, owasp'; first [reflexivity|discriminate Howasp]).
  assert (severity = severity') as ->
    by (destruct severity, severity'; first [reflexivity|discriminate Hseverity]).
  reflexivity.
Qed.

Lemma to_dict_injective_witness :
  default (SecurityFinding.Build_t "" 0 0 "" A03_INJECTION INFO "" "" "" None 0%Q)
    (head (CodeGuardian._check_weak_crypto "h = hashlib.new('MD5')" "tmp/a.py"))
  = {| SecurityFinding.file_path := "tmp/a.py";
       SecurityFinding.line_number := 1;
       SecurityFinding.column := 0;
       SecurityFinding.vulnerability_type := "Weak Cryptography";
       SecurityFinding.owasp_category := A02_CRYPTOGRAPHIC_FAILURES;
       SecurityFinding.severity := MEDIUM;
       SecurityFinding.description := "Use of weak cryptographic algorithm: MD5";
       SecurityFinding.recommendation := "Use stronger algorithms (SHA-256, AES, etc.)";
       SecurityFinding.code_snippet := "h = hashlib.new('MD5')";
       SecurityFinding.cwe_id := Some "CWE-327";
       SecurityFinding.confidence := 0.9%Q |}.
Proof.
  apply to_dict_injective. vm_compute. reflexivity.
Defined.

Lemma python_metrics_ranges_witness :
  0 <= CodeMetrics.cyclomatic_complexity
         (CodeGuardian._calculate_python_metrics
            (Other [Other [BoolOp [Name "a"; Name "b"]]]) "a and b")
  /\ (CodeMetrics.maintainability_index
        (CodeGuardian._calculate_python_metrics
           (Other [Other [BoolOp [Name "a"; Name "b"]]]) "a and b") <= 171)%Q.
Proof.
  destruct (python_metrics_ranges (Other [Other [BoolOp [Name "a"; Name "b"]]]) "a and b")
    as (_ & _ & _ & _ & _ & Hbounded).
  apply Hbounded. intros values Hin. cbn in Hin.
  repeat destruct Hin as [Hin|Hin]; try discriminate Hin; try contradiction.
  now injection Hin as <-.
Defined.
